(** * Sumner Tunnel ridership analysis: the data pipeline of [main.py]

    The tables of [main.py] are pandas data frames.  A frame is modelled as
    the list of its rows, in row order.  Frames that the program writes to
    in place live in a store of objects and are named by their location, so
    that a write through one name is seen through every other name of the
    same object.

    Conventions of the embedding.
    - A service date is a day number (days since 1970-01-01); the columns
      compared with the closure windows hold midnight timestamps, which is
      what [pd.date_range(..., freq='D')] generates.
    - Sums and means are exact: a raw ['Total Entries'] cell is a rational
      and a mean is the exact quotient.  The percent changes are computed
      as the program computes them, in float64: the quotient and the
      product are rounded to 53 bits, see [binary64].  [round] is
      round-half-to-even, the rule of Python's [round] and of numpy's.
    - What a function prints is kept as a list of structured messages. *)

From Stdlib Require Import ZArith QArith Qround Qabs Qpower Lqa List String Ascii Bool Lia
  Permutation Sorted DecimalString.
From Stdlib Require Floats.SpecFloat.
From stdpp Require Import base option list gmap strings.

Local Open Scope string_scope.
Local Open Scope list_scope.
Local Open Scope Z_scope.

(** ** Calendar *)

(** Day number of a civil date of the Gregorian calendar. *)
Definition datetime (y m d : Z) : Z :=
  let y' := if m <=? 2 then y - 1 else y in
  let era := y' / 400 in
  let yoe := y' - era * 400 in
  let mp := (m + 9) mod 12 in
  let doy := (153 * mp + 2) / 5 + d - 1 in
  let doe := yoe * 365 + yoe / 4 - yoe / 100 + doy in
  era * 146097 + doe - 719468.

(** [pd.date_range(a, b, freq='D')]: both ends included. *)
Definition date_range (a b : Z) : list Z :=
  List.map (fun i => a + Z.of_nat i) (seq 0 (Z.to_nat (b - a + 1))).

Definition BC_SUMNER : list Z := date_range (datetime 2023 6 1) (datetime 2023 7 4).
Definition AC_SUMNER : list Z := date_range (datetime 2023 7 5) (datetime 2023 9 1).

Definition OL_STATIONS : list string :=
  ["Oak Grove"; "Malden Center"; "Wellington"; "Assembly";
   "Sullivan Square"; "Community College"; "North Station";
   "Haymarket"; "State Street"].

Definition BL_STATIONS : list string :=
  ["Wonderland"; "Revere Beach"; "Beachmont"; "Suffolk Downs";
   "Orient Heights"; "Wood Island"; "Airport"; "Maverick";
   "Aquarium"; "State Street"; "Government Center"; "Bowdoin"].

(** ** Tables *)

(** A row of the raw export. *)
Record RidershipRecord : Type := mkRecord {
  ServiceDate : Z;
  StopName : string;
  RouteOrLine : string;
  TotalEntries : Q;
  day : string
}.

(** A row of the grouped table built by [daily_ridership]. *)
Record DailyTotal : Type := mkDaily {
  dServiceDate : Z;
  dStopName : string;
  dTotalEntries : Z
}.

Abbreviation frame := (list RidershipRecord) (only parsing).
Abbreviation daily_frame := (list DailyTotal) (only parsing).

(** [Series.isin(values)] on one cell. *)
Definition isin (x : string) (values : list string) : bool :=
  existsb (String.eqb x) values.

Definition date_isin (d : Z) (values : list Z) : bool :=
  existsb (Z.eqb d) values.

Definition set_RouteOrLine (line : string) (r : RidershipRecord) : RidershipRecord :=
  mkRecord (ServiceDate r) (StopName r) line (TotalEntries r) (day r).

(** [pd.to_datetime] on a cell that already holds a date. *)
Definition to_datetime (d : Z) : Z := d.

Definition set_ServiceDate (f : Z -> Z) (r : RidershipRecord) : RidershipRecord :=
  mkRecord (f (ServiceDate r)) (StopName r) (RouteOrLine r) (TotalEntries r) (day r).

(** ** Exceptions, output and the store *)

Inductive exn : Type :=
| UnboundLocalError   (* a local name read before any assignment *)
| ValueError          (* [round(nan)], [int(nan)], [NaT.strftime] *)
| OverflowError       (* [int(inf)] *)
| IndexError          (* [values[0]] or [split()[1]] out of range *)
| IntCastingNaNError. (* [astype(int)] on a non-finite value; a ValueError *)

Inductive result (A : Type) : Type :=
| Ok (a : A)
| Raise (e : exn).
Arguments Ok {A} a.
Arguments Raise {A} e.

(** One displayed row of the station table; [None] stands for a row of NaN. *)
Record StatRow : Type := mkStat {
  BeforeClosing : Z;
  AfterClosing : Z;
  Differential : Z;
  PctChange : string
}.

Abbreviation table := (list (string * option StatRow)) (only parsing).

Inductive message : Type :=
| NoStopsSet
| MostRecentDay (line : string) (d : Z) (n : Z)
| AverageBefore (line : string) (avg : Z)
| PercentChange (line : string) (delta : Z)
| Rule
| MissingValues (line : string) (d : Z) (missing : gset string)
| StationHeading (LINE : string)
| DatesBefore (first last : Z)
| DatesAfter (first last : Z)
| ShowTable (t : table).

(** A location names an object of the store. *)
Abbreviation loc := nat (only parsing).
Abbreviation store := (list frame) (only parsing).

Record outcome (A : Type) : Type := mkOutcome {
  heap : store;
  stdout : list message;
  value : result A
}.
Arguments mkOutcome {A} heap stdout value.
Arguments heap {A} o.
Arguments stdout {A} o.
Arguments value {A} o.

(** A computation on the store that may print and may raise.  What was
    written and printed before an exception stays. *)
Definition Py (A : Type) : Type := store -> outcome A.

Definition ret {A} (a : A) : Py A := fun σ => mkOutcome σ [] (Ok a).

Definition raise {A} (e : exn) : Py A := fun σ => mkOutcome σ [] (Raise e).

Definition bind {A B} (m : Py A) (k : A -> Py B) : Py B := fun σ =>
  let o := m σ in
  match value o with
  | Ok a => let o' := k a (heap o) in
            mkOutcome (heap o') (stdout o ++ stdout o') (value o')
  | Raise e => mkOutcome (heap o) (stdout o) (Raise e)
  end.

Notation "'let*' x ':=' m 'in' k" := (bind m (fun x => k))
  (at level 10, x name, m at level 100, k at level 200, only parsing).
Notation "'let*' ' p ':=' m 'in' k" := (bind m (fun p => k))
  (at level 10, p pattern, m at level 100, k at level 200, only parsing).
Notation "m ';;;' k" := (bind m (fun _ => k))
  (at level 100, k at level 200, right associativity, only parsing).

Definition print (m : message) : Py unit := fun σ => mkOutcome σ [m] (Ok tt).

(** The rows of the object at [l]. *)
Definition rows_of (σ : store) (l : loc) : frame := default [] (σ !! l).

(** [df.loc[mask]]: a new object holding the selected rows. *)
Definition loc_rows (df : loc) (mask : RidershipRecord -> bool) : Py loc := fun σ =>
  mkOutcome (σ ++ [List.filter mask (rows_of σ df)]) [] (Ok (length σ)).

(** [df.loc[mask, col] = v] and [df[col] = f(df[col])]: a write into the
    object [df] itself. *)
Definition set_where (df : loc) (mask : RidershipRecord -> bool)
    (upd : RidershipRecord -> RidershipRecord) : Py unit := fun σ =>
  mkOutcome (<[df := List.map (fun r => if mask r then upd r else r) (rows_of σ df)]> σ)
            [] (Ok tt).

Definition set_column (df : loc) (upd : RidershipRecord -> RidershipRecord) : Py unit :=
  set_where df (fun _ => true) upd.

(** Reading a local name that may not have been assigned. *)
Definition local_name {A} (v : option A) : Py A :=
  match v with
  | Some a => ret a
  | None => raise UnboundLocalError
  end.

(** ** Record Filter *)

Definition get_line_entries (df : loc) (line : string) (weekdays_only : bool) : Py loc :=
  let* '(stops, df) :=
    (if String.eqb line "Blue Line" then
       ret (Some ["Government Center"; "State Street"], df)
     else if String.eqb line "Orange Line" then
       let* df := loc_rows df (fun r => isin (StopName r) OL_STATIONS) in
       ret (Some ["Haymarket"; "North Station"; "State Street"], df)
     else
       print NoStopsSet ;;;
       ret (None, df)) in
  (* assign stops to the line *)
  let* stops := local_name stops in
  set_where df (fun r => isin (StopName r) stops) (set_RouteOrLine line) ;;;
  (* set the service dates to datetime *)
  set_column df (set_ServiceDate to_datetime) ;;;
  (* check if only weekdays are needed *)
  let* df :=
    (if weekdays_only then loc_rows df (fun r => String.eqb (day r) "Weekday") else ret df) in
  (* get only the selected line's data *)
  loc_rows df (fun r => String.eqb (RouteOrLine r) line).

(** ** Numbers *)

(** A float64 cell: a number, an infinity, or NaN. *)
Inductive float64 : Type :=
| Fin (q : Q)
| PosInf
| NegInf
| NaN.

(** Round half to even. *)
Definition round_half_even (q : Q) : Z :=
  let fl := Qfloor q in
  match (q - inject_Z fl ?= 1 # 2)%Q with
  | Lt => fl
  | Gt => fl + 1
  | Eq => if Z.even fl then fl else fl + 1
  end.

(** [x.round()]: the result is still a float. *)
Definition np_round (x : float64) : float64 :=
  match x with
  | Fin q => Fin (inject_Z (round_half_even q))
  | other => other
  end.

(** [int(x)] of a float that holds a whole number. *)
Definition py_int (x : float64) : result Z :=
  match x with
  | Fin q => Ok (Qfloor q)
  | PosInf | NegInf => Raise OverflowError
  | NaN => Raise ValueError
  end.

(** [2^e], for an exponent of either sign. *)
Definition pow2 (e : Z) : Q :=
  match e with
  | Zneg p => 1 # (2 ^ p)
  | _ => inject_Z (2 ^ e)
  end.

(** The exponent of the leading bit of a number that is not zero:
    [2^(ilog2 q) <= |q| < 2^(ilog2 q + 1)]. *)
Definition ilog2 (q : Q) : Z :=
  let e := Z.log2 (Z.abs (Qnum q)) - Z.log2 (Zpos (Qden q)) in
  if Qle_bool (pow2 e) (Qabs q) then e else e - 1.

(** The result of an arithmetic operation on float64 values: of the
    numbers with a significand of 53 bits the one nearest to the exact
    result [q], and of two that are as near the one with the even
    significand.  The exponent is not limited: the quotients and products
    of the program are those of integer columns and lie far inside the
    range of float64. *)
Definition binary64 (q : Q) : Q :=
  if Qeq_bool q 0 then 0%Q
  else
    let e := ilog2 q - 52 in
    (inject_Z (round_half_even (q / pow2 e)) * pow2 e)%Q.

(** True division of integers the way numpy does it: both are converted
    to float64 and the quotient is a float64; a zero divisor gives an
    infinity or NaN, not an exception. *)
Definition true_divide (a b : Z) : float64 :=
  if b =? 0 then
    (if a =? 0 then NaN else if 0 <? a then PosInf else NegInf)
  else Fin (binary64 (binary64 (inject_Z a) / binary64 (inject_Z b))).

(** [x * k] for a float [x] and an integer [k]. *)
Definition times (x : float64) (k : Z) : float64 :=
  match x with
  | Fin q => Fin (binary64 (q * binary64 (inject_Z k)))
  | other => other
  end.

Definition Zsum (l : list Z) : Z := fold_right Z.add 0 l.

Definition Qsum (l : list Q) : Q := fold_right Qplus 0%Q l.

(** [Series.mean()]: NaN on an empty series. *)
Definition mean (l : list Z) : float64 :=
  match l with
  | [] => NaN
  | _ => Fin (inject_Z (Zsum l) / inject_Z (Z.of_nat (length l)))
  end.

(** [str(n)]. *)
Definition str (n : Z) : string := NilZero.string_of_int (Z.to_int n).

(** ** Strings *)

Definition startswith (s p : string) : bool := String.prefix p s.

(** ASCII white space, as tested by [str.isspace]. *)
Definition isspace (c : ascii) : bool :=
  let n := nat_of_ascii c in
  ((9 <=? n) && (n <=? 13) || (28 <=? n) && (n <=? 32))%nat.

Fixpoint split_chars (cur : list ascii) (s : list ascii) : list (list ascii) :=
  match s with
  | [] => match cur with [] => [] | _ => [rev cur] end
  | c :: s' =>
      if isspace c then
        match cur with
        | [] => split_chars [] s'
        | _ => rev cur :: split_chars [] s'
        end
      else split_chars (c :: cur) s'
  end.

(** [s.split()]: the runs of characters between white space. *)
Definition split (s : string) : list string :=
  List.map string_of_list_ascii (split_chars [] (list_ascii_of_string s)).

Definition upper_char (c : ascii) : ascii :=
  let n := nat_of_ascii c in
  if ((97 <=? n) && (n <=? 122))%nat then ascii_of_nat (n - 32) else c.

(** [s.upper()] on ASCII letters. *)
Fixpoint upper (s : string) : string :=
  match s with
  | EmptyString => EmptyString
  | String c s' => String (upper_char c) (upper s')
  end.

(** [l[i]]. *)
Definition item {A} (l : list A) (i : nat) : Py A :=
  match l !! i with
  | Some a => ret a
  | None => raise IndexError
  end.

(** ** Grouping *)

Section Groupby.
Context {K V : Type} `{EqDecision K}.
Variable leb : K -> K -> bool.

(** Append [v] to the group of [k], opening the group if it is new. *)
Fixpoint add_to_group (k : K) (v : V) (acc : list (K * list V)) : list (K * list V) :=
  match acc with
  | [] => [(k, [v])]
  | (k', vs) :: rest =>
      if decide (k = k') then (k', vs ++ [v]) :: rest
      else (k', vs) :: add_to_group k v rest
  end.

Definition groups (kvs : list (K * V)) : list (K * list V) :=
  fold_left (fun acc kv => add_to_group (fst kv) (snd kv) acc) kvs [].

Fixpoint insert_by {A} (key : A -> K) (x : A) (l : list A) : list A :=
  match l with
  | [] => [x]
  | y :: l' => if leb (key x) (key y) then x :: y :: l' else y :: insert_by key x l'
  end.

Definition sort_by {A} (key : A -> K) (l : list A) : list A :=
  fold_right (insert_by key) [] l.

(** [groupby(key)]: one group per key, the groups in key order, the
    values of a group in row order. *)
Definition groupby (kvs : list (K * V)) : list (K * list V) :=
  sort_by fst (groups kvs).
End Groupby.

(** ** Daily Aggregator *)

(** Order of the group keys [(Service Date, Stop Name)]. *)
Definition key_leb (a b : Z * string) : bool :=
  (fst a <? fst b) || ((fst a =? fst b) && String.leb (snd a) (snd b)).

(** [groupby(['Service Date', 'Stop Name'])['Total Entries'].agg('sum')],
    then [round()] and [astype(int)]. *)
Definition daily_ridership (df : frame) : daily_frame :=
  List.map (fun g => mkDaily (fst (fst g)) (snd (fst g)) (round_half_even (Qsum (snd g))))
    (groupby key_leb
       (List.map (fun r => ((ServiceDate r, StopName r), TotalEntries r)) df)).

(** ** Line Statistics *)

(** [Series.max()] and [Series.min()] of a date column: [None] is NaT. *)
Definition max_date (l : list Z) : option Z :=
  match l with
  | [] => None
  | d :: l' => Some (fold_left Z.max l' d)
  end.

Definition min_date (l : list Z) : option Z :=
  match l with
  | [] => None
  | d :: l' => Some (fold_left Z.min l' d)
  end.

(** [t.strftime(...)]: the date to print; NaT does not support it. *)
Definition strftime (t : option Z) : Py Z :=
  match t with
  | Some d => ret d
  | None => raise ValueError
  end.

Definition lift {A} (r : result A) : Py A :=
  match r with
  | Ok a => ret a
  | Raise e => raise e
  end.

(** [groupby(['Service Date']).sum()]: the whole line's entries per date. *)
Definition per_day (df : daily_frame) : list (Z * Z) :=
  List.map (fun g => (fst g, Zsum (snd g)))
    (groupby Z.leb (List.map (fun r => (dServiceDate r, dTotalEntries r)) df)).

Definition overall_stats (df : daily_frame) (line : string) : Py unit :=
  (* sort to only be grouped by day *)
  let daily := per_day df in
  (* get the most recent day of data's ridership *)
  let updated_day := max_date (List.map fst daily) in
  let* updated_num :=
    item (List.map snd
            (List.filter (fun r => bool_decide (Some (fst r) = updated_day)) daily)) 0 in
  let* shown_day := strftime updated_day in
  print (MostRecentDay line shown_day updated_num) ;;;
  (* get average ridership before sumner closing *)
  let before_sumner := List.filter (fun r => date_isin (fst r) BC_SUMNER) daily in
  let* avg_ride_bc := lift (py_int (np_round (mean (List.map snd before_sumner)))) in
  print (AverageBefore line avg_ride_bc) ;;;
  (* calculate the percentage change in ridership to most recent num *)
  let* delta :=
    lift (py_int (np_round
            (times (true_divide (updated_num - avg_ride_bc) avg_ride_bc) 100))) in
  print (PercentChange line delta) ;;;
  print Rule.

(** ** Completeness Checker *)

(** [Series.value_counts()]: each distinct date with its number of rows,
    the larger counts first. *)
Definition value_counts (dates : list Z) : list (Z * nat) :=
  sort_by (fun a b : nat => (b <=? a)%nat) snd
    (List.map (fun g => (fst g, length (snd g)))
       (groups (List.map (fun d => (d, tt)) dates))).

Fixpoint for_each {A} (l : list A) (body : A -> Py unit) : Py unit :=
  match l with
  | [] => ret tt
  | a :: l' => body a ;;; for_each l' body
  end.

Definition below (n : nat) (date_counts : list (Z * nat)) : list Z :=
  List.map fst (List.filter (fun dc => (snd dc <? n)%nat) date_counts).

Definition difference (expected reporting : list string) : gset string :=
  list_to_set expected ∖ list_to_set reporting.

Definition check_missing (after_sumner : daily_frame) (line : string) : Py unit :=
  (* get counts for each day and see stations lower than the number of stations *)
  let date_counts := value_counts (List.map dServiceDate after_sumner) in
  let dates_missing :=
    if startswith line "Orange Line" then below (length OL_STATIONS) date_counts
    else if startswith line "Blue Line" then below (length BL_STATIONS) date_counts
    else [] in
  (* for each date check which stations are missing *)
  for_each dates_missing (fun date =>
    let cur_date_df := List.filter (fun r => dServiceDate r =? date) after_sumner in
    let temp_stops := List.map dStopName cur_date_df in
    if startswith line "Orange Line" then
      print (MissingValues line date (difference OL_STATIONS temp_stops))
    else if startswith line "Blue Line" then
      print (MissingValues line date (difference BL_STATIONS temp_stops))
    else ret tt).

(** ** Station Statistics *)

(** [groupby(["Stop Name"])["Total Entries"].mean()]. *)
Definition station_means (df : daily_frame) : list (string * float64) :=
  List.map (fun g => (fst g, mean (snd g)))
    (groupby String.leb (List.map (fun r => (dStopName r, dTotalEntries r)) df)).

Definition lookup_row {A} (label : string) (t : list (string * A)) : option A :=
  snd <$> List.find (fun row => String.eqb (fst row) label) t.

Definition cell (label : string) (s : list (string * float64)) : float64 :=
  default NaN (lookup_row label s).

(** [pd.concat([bc, ac], axis=1)]: one row per label of either series, NaN
    where a series has no such label. *)
Definition concat (bc ac : list (string * float64)) : list (string * (float64 * float64)) :=
  let labels :=
    List.map fst bc ++
    List.filter (fun l => negb (isin l (List.map fst bc))) (List.map fst ac) in
  List.map (fun l => (l, (cell l bc, cell l ac))) labels.

(** [column.apply(f)] and [column.astype(t)]: cell by cell, stopping at the
    first exception. *)
Fixpoint apply {A B} (f : A -> result B) (column : list A) : result (list B) :=
  match column with
  | [] => Ok []
  | x :: rest =>
      match f x with
      | Raise e => Raise e
      | Ok y =>
          match apply f rest with
          | Raise e => Raise e
          | Ok rest' => Ok (y :: rest')
          end
      end
  end.

(** [full_df.loc[label] = row]: overwrite the row of that label, or add it
    at the end. *)
Fixpoint set_row {A} (label : string) (row : A) (t : list (string * A)) : list (string * A) :=
  match t with
  | [] => [(label, row)]
  | (l, a) :: rest =>
      if String.eqb l label then (l, row) :: rest
      else (l, a) :: set_row label row rest
  end.

(** [astype(int)] on a float column: refused as soon as one cell is not
    finite. *)
Definition astype_int (x : float64) : result Z :=
  match x with
  | Fin q => Ok (Qfloor q)
  | _ => Raise IntCastingNaNError
  end.

(** [full_df.reindex(labels)]: the rows in the order of [labels], a row of
    NaN for a label the table does not have. *)
Definition reindex (labels : list string) (t : list (string * StatRow)) : table :=
  List.map (fun l => (l, lookup_row l t)) labels.

(** The table of lines 286 to 305: the per-station rows, the total row,
    the differential and the percent change. *)
Definition full_df (before_sumner after_sumner : daily_frame) (line : string)
    : Py (list (string * StatRow)) :=
  (* group by stations to get data for before and after closure *)
  let bc_stations := station_means before_sumner in
  let ac_stations := station_means after_sumner in
  (* add each of the before and after stats into a dataframe *)
  let full := concat bc_stations ac_stations in
  let index := List.map fst full in
  (* properly format the average ridership and add a total column *)
  let* BC := lift (apply (fun x => py_int (np_round x)) (List.map (fun r => fst (snd r)) full)) in
  let* AC := lift (apply (fun x => py_int (np_round x)) (List.map (fun r => snd (snd r)) full)) in
  let full := combine index (combine BC AC) in
  let* first_word := item (split line) 0 in
  let* second_word := item (split line) 1 in
  let line_name := upper first_word +:+ " " +:+ upper second_word in
  let full := set_row (line_name +:+ " TOTAL") (Zsum BC, Zsum AC) full in
  (* calulate difference and percent change into different columns *)
  let BC := List.map (fun r => fst (snd r)) full in
  let AC := List.map (fun r => snd (snd r)) full in
  let differential := List.map (fun r => snd (snd r) - fst (snd r)) full in
  let change :=
    List.map (fun r => np_round (times (true_divide (snd (snd r) - fst (snd r)) (fst (snd r))) 100))
      full in
  let* change := lift (apply astype_int change) in
  let change := List.map (fun n => str n +:+ "%") change in
  ret (combine (List.map fst full)
         (List.map (fun r => mkStat (fst (fst r)) (snd (fst r)) (fst (snd r)) (snd (snd r)))
            (combine (combine BC AC) (combine differential change)))).

Definition station_stats (df : daily_frame) (line : string) : Py unit :=
  (* select only dates before and after closing into separate dataframes *)
  let before_sumner := List.filter (fun r => date_isin (dServiceDate r) BC_SUMNER) df in
  let after_sumner := List.filter (fun r => date_isin (dServiceDate r) AC_SUMNER) df in
  (* get the station counts for all the stops on the line *)
  check_missing after_sumner line ;;;
  (* get dates for labels *)
  let* bc_first_date := strftime (min_date (List.map dServiceDate before_sumner)) in
  let* bc_last_date := strftime (max_date (List.map dServiceDate before_sumner)) in
  let* ac_first_date := strftime (min_date (List.map dServiceDate after_sumner)) in
  let* ac_last_date := strftime (max_date (List.map dServiceDate after_sumner)) in
  let* full := full_df before_sumner after_sumner line in
  (* adjust names and order based on order of stations *)
  let shown :=
    if startswith line "Orange Line" then reindex (OL_STATIONS ++ ["ORANGE LINE TOTAL"]) full
    else if startswith line "Blue Line" then reindex (BL_STATIONS ++ ["BLUE LINE TOTAL"]) full
    else List.map (fun r => (fst r, Some (snd r))) full in
  (* display the results *)
  print (StationHeading (upper line)) ;;;
  print (DatesBefore bc_first_date bc_last_date) ;;;
  print (DatesAfter ac_first_date ac_last_date) ;;;
  print (ShowTable shown) ;;;
  print Rule.

(** ** The run of [Main], without the reading of the files and the plots *)

Definition Main (orange_df blue_df : loc) : Py (list daily_frame) :=
  (* get ol and bl data and assign station data correctly *)
  let* ol_cleaned := get_line_entries orange_df "Orange Line" false in
  let* bl_cleaned := get_line_entries blue_df "Blue Line" false in
  let* ol_weekdays_cleaned := get_line_entries orange_df "Orange Line" true in
  let* bl_weekdays_cleaned := get_line_entries blue_df "Blue Line" true in
  (* group the lines by date for ridership *)
  let* ol_daily := (fun σ => ret (daily_ridership (rows_of σ ol_cleaned)) σ) in
  let* bl_daily := (fun σ => ret (daily_ridership (rows_of σ bl_cleaned)) σ) in
  let* ol_weekdays_daily := (fun σ => ret (daily_ridership (rows_of σ ol_weekdays_cleaned)) σ) in
  let* bl_weekdays_daily := (fun σ => ret (daily_ridership (rows_of σ bl_weekdays_cleaned)) σ) in
  (* get the overall transit line stats for the lines *)
  overall_stats ol_daily "Orange Line" ;;;
  overall_stats bl_daily "Blue Line" ;;;
  overall_stats ol_weekdays_daily "Orange Line (weekdays)" ;;;
  overall_stats bl_weekdays_daily "Blue Line (weekdays)" ;;;
  (* get the station specific stats *)
  station_stats ol_daily "Orange Line" ;;;
  station_stats bl_daily "Blue Line" ;;;
  station_stats ol_weekdays_daily "Orange Line (weekdays)" ;;;
  station_stats bl_weekdays_daily "Blue Line (weekdays)" ;;;
  ret [ol_daily; bl_daily; ol_weekdays_daily; bl_weekdays_daily].

(** ** Plots *)

(** What [plot_ridership] asks matplotlib to draw, call by call. *)
Inductive drawing : Type :=
| PlotLine (label color : string) (points : list (Z * Z))
| MajorLocatorDays (interval : Z)
| AutofmtXdate
| Axvline (d : Z) (label : string)
| Axvspan (d1 d2 : Z)
| Title (s : string)
| XLabel (s : string)
| YLabel (s : string)
| Legend
| ShowFigure.

(** [dict(pairs)]: a key keeps the place of its first pair and the value
    of its last. *)
Definition dict {A} (pairs : list (string * A)) : list (string * A) :=
  fold_left (fun d kv => set_row (fst kv) (snd kv) d) pairs [].

Section Plot.
(** The colour names matplotlib accepts; [plt.plot] raises a ValueError on
    any other. *)
Variable is_color : string -> bool.

(** The loop over [line_dict]: one curve for each line, until a call
    raises. *)
Fixpoint plot_lines (line_dict : list (string * list DailyTotal))
    : list drawing * result unit :=
  match line_dict with
  | [] => ([], Ok tt)
  | (line, df) :: rest =>
      (* sort to only be grouped by day *)
      let daily_rides := per_day df in
      match split line !! 0%nat with
      | None => ([], Raise IndexError)
      | Some color =>
          if is_color color then
            (PlotLine line color daily_rides :: fst (plot_lines rest), snd (plot_lines rest))
          else ([], Raise ValueError)
      end
  end.

Definition plot_ridership (df_lst : list (list DailyTotal)) (line_lst : list string)
    (title_addition : string) : list drawing * result unit :=
  (* create a dict of the lines and their respective df *)
  let line_dict := dict (combine line_lst df_lst) in
  (* loop through each line and graph it on the chart *)
  match plot_lines line_dict with
  | (curves, Raise e) => (curves, Raise e)
  | (curves, Ok _) =>
      (curves ++
       [ (* adjust x-axis spacing *)
         MajorLocatorDays 7; AutofmtXdate;
         (* add line and shading at sumner tunnel closure *)
         Axvline (datetime 2023 7 4) "Sumner Tunnel Closure";
         Axvspan (datetime 2023 6 1) (datetime 2023 7 4);
         (* graph organization *)
         Title ("Ridership During Sumner Tunnel Closure" +:+ title_addition);
         XLabel "Date"; YLabel "Ridership per Day"; Legend;
         ShowFigure ],
       Ok tt)
  end.
End Plot.

(** ** Definitions used to state the properties *)

(** The stops the Record Filter assigns to each line. *)
Definition BL_SHARED : list string := ["Government Center"; "State Street"].
Definition OL_SHARED : list string := ["Haymarket"; "North Station"; "State Street"].

(** The selection as the specification words it: the records whose stop is
    one of the line's stations, the shared stops relabelled. *)
Definition station_subset (stations shared : list string) (line : string) (df : frame) : frame :=
  List.map (fun r => if isin (StopName r) shared then set_RouteOrLine line r else r)
    (List.filter (fun r => isin (StopName r) stations) df).

(** What the in-place write of the filter leaves in a table. *)
Definition relabel (shared : list string) (line : string) (df : frame) : frame :=
  List.map (fun r => if isin (StopName r) shared then set_RouteOrLine line r else r) df.

(** The records the filter keeps. *)
Definition kept (scope : option (list string)) (shared : list string) (line : string)
    (weekdays_only : bool) (r : RidershipRecord) : bool :=
  match scope with Some stations => isin (StopName r) stations | None => true end
  && (isin (StopName r) shared || String.eqb (RouteOrLine r) line)
  && (negb weekdays_only || String.eqb (day r) "Weekday").

Definition cleaned (scope : option (list string)) (shared : list string) (line : string)
    (weekdays_only : bool) (df : frame) : frame :=
  List.map (set_RouteOrLine line) (List.filter (kept scope shared line weekdays_only) df).

(** The values of the rows with key [k], in row order. *)
Definition values_of {K V} `{EqDecision K} (k : K) (kvs : list (K * V)) : list V :=
  List.map snd (List.filter (fun kv => bool_decide (fst kv = k)) kvs).

(** First row with label [k]. *)
Fixpoint alookup {K V} `{EqDecision K} (k : K) (acc : list (K * V)) : option V :=
  match acc with
  | [] => None
  | (k', v) :: rest => if decide (k = k') then Some v else alookup k rest
  end.


Definition sample_raw : frame :=
  [mkRecord (datetime 2023 6 1) "Kenmore" "Blue Line" 5 "Weekday";
   mkRecord (datetime 2023 6 1) "State Street" "Orange Line" (7 # 2) "Saturday";
   mkRecord (datetime 2023 6 2) "Wonderland" "Silver Line" 5 "Weekday";
   mkRecord (datetime 2023 6 2) "Oak Grove" "Green Line" 5 "Weekday";
   mkRecord (datetime 2023 6 2) "Malden Center" "Orange Line" 9 "Weekday"].

(** Raw records none of which the filter keeps for the Orange Line: stops
    of the Blue Line, and stops of the Orange Line counted under another
    line's name. *)
Definition sample_other_lines : frame :=
  [mkRecord (datetime 2023 6 1) "Wonderland" "Blue Line" 12 "Weekday";
   mkRecord (datetime 2023 6 1) "Oak Grove" "Green Line" 5 "Weekday";
   mkRecord (datetime 2023 7 5) "Bowdoin" "Blue Line" 7 "Weekday";
   mkRecord (datetime 2023 7 5) "Malden Center" "Silver Line" 3 "Saturday"].

(** [m] neither reads nor writes the store: it prints [out] and ends with
    [v] whatever the store holds. *)
Definition runs_as {A} (m : Py A) (out : list message) (v : result A) : Prop :=
  forall σ, m σ = mkOutcome σ out v.

Definition store_free {A} (m : Py A) : Prop := exists out v, runs_as m out v.

(** The rows of one date. *)
Definition rows_on (d : Z) (df : daily_frame) : daily_frame :=
  List.filter (fun r => dServiceDate r =? d) df.

Definition sample_after : daily_frame :=
  [mkDaily (datetime 2023 7 5) "Wonderland" 120;
   mkDaily (datetime 2023 7 5) "Bowdoin" 150;
   mkDaily (datetime 2023 7 6) "Wonderland" 121].

(** The rows of the closure windows. *)
Definition before_window (df : daily_frame) : daily_frame :=
  List.filter (fun r => date_isin (dServiceDate r) BC_SUMNER) df.

Definition after_window (df : daily_frame) : daily_frame :=
  List.filter (fun r => date_isin (dServiceDate r) AC_SUMNER) df.

(** The whole line's average before the closure, as [overall_stats]
    computes it. *)
Definition average_before (df : daily_frame) : result Z :=
  py_int (np_round (mean (List.map snd
    (List.filter (fun r => date_isin (fst r) BC_SUMNER) (per_day df))))).

(** Mean of a station's daily totals in a window, and its rounded value. *)
Definition window_mean (s : string) (w : daily_frame) : float64 :=
  mean (values_of s (List.map (fun r => (dStopName r, dTotalEntries r)) w)).

Definition rounded_mean (s : string) (w : daily_frame) : result Z :=
  py_int (np_round (window_mean s w)).

(** The label of the total row: the first two words of the line's name in
    capitals, followed by TOTAL. *)
Definition total_label (line : string) : option string :=
  match split line with
  | first_word :: second_word :: _ =>
      Some ((upper first_word +:+ " " +:+ upper second_word) +:+ " TOTAL")
  | _ => None
  end.

(** Percent change of [a] against the baseline [b], the way the program
    computes it: the difference is divided by the baseline and the quotient
    multiplied by 100, both in float64, and the product is rounded. *)
Definition pct_change (b a : Z) : Z :=
  round_half_even
    (binary64 (binary64 (binary64 (inject_Z (a - b)) / binary64 (inject_Z b))
               * binary64 (inject_Z 100))).

(** The percent change as a number: [100 * (a - b) / b], not rounded. *)
Definition exact_percent (b a : Z) : Q :=
  (inject_Z 100 * inject_Z (a - b) / inject_Z b)%Q.

(** [q] lies halfway between two integers. *)
Definition halfway (q : Q) : bool := Qeq_bool (q - inject_Z (Qfloor q)) (1 # 2).

(** The same percent with the operations of the Standard Library's
    specification of IEEE 754 arithmetic, at 53 bits and the exponent
    range of float64; [None] when the result is not a number. *)
Definition ieee_of_Z (n : Z) : SpecFloat.spec_float :=
  match n with
  | 0 => SpecFloat.S754_zero false
  | _ => SpecFloat.binary_normalize 53 1024 n 0 false
  end.

Definition ieee_percent (b a : Z) : option Z :=
  match SpecFloat.SFmul 53 1024
          (SpecFloat.SFdiv 53 1024 (ieee_of_Z (a - b)) (ieee_of_Z b)) (ieee_of_Z 100) with
  | SpecFloat.S754_zero _ => Some 0
  | SpecFloat.S754_finite s m e =>
      Some (round_half_even (inject_Z (SpecFloat.cond_Zopp s (Zpos m)) * pow2 e))
  | _ => None
  end.

(** A row of the station table made from a before value and an after
    value. *)
Definition stat_row (ba : Z * Z) : StatRow :=
  mkStat (fst ba) (snd ba) (snd ba - fst ba) (str (pct_change (fst ba) (snd ba)) +:+ "%").

(** [m] stops with an exception, whatever the store holds. *)
Definition raises {A} (m : Py A) : Prop := exists out e, runs_as m out (Raise e).

(** The table as [station_stats] displays it. *)
Definition displayed (line : string) (t : list (string * StatRow)) : table :=
  if startswith line "Orange Line" then reindex (OL_STATIONS ++ ["ORANGE LINE TOTAL"]) t
  else if startswith line "Blue Line" then reindex (BL_STATIONS ++ ["BLUE LINE TOTAL"]) t
  else List.map (fun r => (fst r, Some (snd r))) t.

(** Daily totals of two stations on both sides of the closure. *)
Definition sample_daily : daily_frame :=
  [mkDaily (datetime 2023 6 1) "Wonderland" 100;
   mkDaily (datetime 2023 6 1) "Bowdoin" 200;
   mkDaily (datetime 2023 6 1) "Kenmore" 50;
   mkDaily (datetime 2023 7 5) "Wonderland" 120;
   mkDaily (datetime 2023 7 5) "Bowdoin" 150;
   mkDaily (datetime 2023 7 5) "Kenmore" 150].


(** A station without riders before the closure. *)
Definition sample_zero : daily_frame :=
  [mkDaily (datetime 2023 6 1) "Airport" 0;
   mkDaily (datetime 2023 7 5) "Airport" 3].


(** Both windows have rows, every station reports in both windows, no
    total is negative and no station's rounded mean before the closure is
    zero. *)
Definition complete_windows (df : daily_frame) : bool :=
  negb (Nat.eqb (length (before_window df)) 0)
  && forallb (fun r => isin (dStopName r) (List.map dStopName (after_window df)))
       (before_window df)
  && forallb (fun r => isin (dStopName r) (List.map dStopName (before_window df)))
       (after_window df)
  && forallb (fun r => 0 <=? dTotalEntries r) (before_window df)
  && forallb (fun r => match rounded_mean (dStopName r) (before_window df) with
                       | Ok 0 => false
                       | _ => true
                       end)
       (before_window df).

(** The statistics part of [Main], on the four daily tables. *)
Definition reports (ol_daily bl_daily ol_weekdays_daily bl_weekdays_daily : daily_frame)
    : Py (list daily_frame) :=
  overall_stats ol_daily "Orange Line" ;;;
  overall_stats bl_daily "Blue Line" ;;;
  overall_stats ol_weekdays_daily "Orange Line (weekdays)" ;;;
  overall_stats bl_weekdays_daily "Blue Line (weekdays)" ;;;
  station_stats ol_daily "Orange Line" ;;;
  station_stats bl_daily "Blue Line" ;;;
  station_stats ol_weekdays_daily "Orange Line (weekdays)" ;;;
  station_stats bl_weekdays_daily "Blue Line (weekdays)" ;;;
  ret [ol_daily; bl_daily; ol_weekdays_daily; bl_weekdays_daily].

(** The grouping part of [Main], on the four cleaned tables. *)
Definition aggregate (ol_cleaned bl_cleaned ol_weekdays_cleaned bl_weekdays_cleaned : loc)
    : Py (list daily_frame) :=
  let* ol_daily := (fun σ => ret (daily_ridership (rows_of σ ol_cleaned)) σ) in
  let* bl_daily := (fun σ => ret (daily_ridership (rows_of σ bl_cleaned)) σ) in
  let* ol_weekdays_daily := (fun σ => ret (daily_ridership (rows_of σ ol_weekdays_cleaned)) σ) in
  let* bl_weekdays_daily := (fun σ => ret (daily_ridership (rows_of σ bl_weekdays_cleaned)) σ) in
  reports ol_daily bl_daily ol_weekdays_daily bl_weekdays_daily.

(** What [Main] computes from the rows of the two raw tables. *)
Definition Main_reports (orange blue : frame) : Py (list daily_frame) :=
  reports
    (daily_ridership (cleaned (Some OL_STATIONS) OL_SHARED "Orange Line" false orange))
    (daily_ridership (cleaned None BL_SHARED "Blue Line" false blue))
    (daily_ridership (cleaned (Some OL_STATIONS) OL_SHARED "Orange Line" true orange))
    (daily_ridership (cleaned None BL_SHARED "Blue Line" true blue)).

(** The rows the Record Filter returns for a line. *)
Definition filtered (line : string) (weekdays_only : bool) (df : frame) : frame :=
  if String.eqb line "Blue Line" then cleaned None BL_SHARED "Blue Line" weekdays_only df
  else cleaned (Some OL_STATIONS) OL_SHARED "Orange Line" weekdays_only df.

(** One of the two lines the Record Filter knows. *)
Definition known_line (line : string) : Prop := line = "Blue Line" \/ line = "Orange Line".

(** The key of a daily row, and the order of two rows by their keys. *)
Definition daily_key (t : DailyTotal) : Z * string := (dServiceDate t, dStopName t).

Definition key_le (a b : DailyTotal) : Prop := key_leb (daily_key a) (daily_key b) = true.

(** A raw record with a whole number of entries. *)
Definition whole (q : Q) : Prop := exists n : Z, (q == inject_Z n)%Q.

(** The whole line's total on a date. *)
Definition line_total (d : Z) (df : daily_frame) : Z :=
  Zsum (List.map dTotalEntries (rows_on d df)).

(** The calls of [plot_ridership] after the curves. *)
Definition decorations (title_addition : string) : list drawing :=
  [MajorLocatorDays 7; AutofmtXdate;
   Axvline (datetime 2023 7 4) "Sumner Tunnel Closure";
   Axvspan (datetime 2023 6 1) (datetime 2023 7 4);
   Title ("Ridership During Sumner Tunnel Closure" +:+ title_addition);
   XLabel "Date"; YLabel "Ridership per Day"; Legend; ShowFigure].

(** A line name that [plot_ridership] can draw: it has a first word and
    that word is a colour. *)
Definition drawable (is_color : string -> bool) (line : string) : bool :=
  match split line !! 0%nat with
  | Some color => is_color color
  | None => false
  end.

(** The colour of a line: the first word of its name. *)
Definition color_of (line : string) : string := default "" (split line !! 0%nat).

(** * Properties *)

(** ** The store *)

Lemma rows_of_insert (σ : store) (l : loc) (f : frame) :
  (l < length σ)%nat \/ f = [] -> rows_of (<[l := f]> σ) l = f.
Proof.
  unfold rows_of. intros [Hl | ->].
  - now rewrite list_lookup_insert_eq.
  - destruct (decide (l < length σ)%nat) as [Hl | Hl].
    + now rewrite list_lookup_insert_eq.
    + rewrite list_insert_ge by lia. rewrite lookup_ge_None_2 by lia. reflexivity.
Qed.

Lemma rows_of_insert_ne (σ : store) (l l' : loc) (f : frame) :
  l <> l' -> rows_of (<[l := f]> σ) l' = rows_of σ l'.
Proof. intros Hne. unfold rows_of. now rewrite list_lookup_insert_ne. Qed.

Lemma rows_of_app_l (σ extra : store) (l : loc) :
  (l < length σ)%nat -> rows_of (σ ++ extra) l = rows_of σ l.
Proof. intros Hl. unfold rows_of. now rewrite lookup_app_l. Qed.

Lemma rows_of_new (σ : store) (f : frame) : rows_of (σ ++ [f]) (length σ) = f.
Proof. unfold rows_of. rewrite lookup_app_r by lia. now rewrite Nat.sub_diag. Qed.

Lemma rows_of_last (σ pre : store) (f : frame) :
  rows_of (σ ++ pre ++ [f]) (length (σ ++ pre)) = f.
Proof. rewrite app_assoc. apply rows_of_new. Qed.

Lemma rows_of_dangling (σ : store) (l : loc) : (length σ <= l)%nat -> rows_of σ l = [].
Proof. intros Hl. unfold rows_of. now rewrite lookup_ge_None_2. Qed.

Lemma insert_rows_of (σ : store) (l : loc) : <[l := rows_of σ l]> σ = σ.
Proof.
  destruct (decide (l < length σ)%nat) as [Hl | Hl].
  - apply list_insert_id. unfold rows_of.
    destruct (lookup_lt_is_Some_2 σ l Hl) as [f Hf]. now rewrite Hf.
  - apply list_insert_ge. lia.
Qed.

Lemma set_ServiceDate_to_datetime (r : RidershipRecord) :
  set_ServiceDate to_datetime r = r.
Proof. now destruct r. Qed.

Lemma map_to_datetime (f : frame) :
  List.map (fun r => set_ServiceDate to_datetime r) f = f.
Proof.
  induction f as [| r f IH]; simpl; [reflexivity |].
  now rewrite set_ServiceDate_to_datetime, IH.
Qed.

(** Writing back the converted dates leaves the store as it was. *)
Lemma write_dates (σ : store) (l : loc) :
  <[l := List.map (fun r => set_ServiceDate to_datetime r) (rows_of σ l)]> σ = σ.
Proof. rewrite map_to_datetime. apply insert_rows_of. Qed.

(** ** Record Filter *)

Lemma relabel_nil_or (σ : store) (l : loc) shared line :
  (l < length σ)%nat \/ relabel shared line (rows_of σ l) = [].
Proof.
  destruct (decide (l < length σ)%nat) as [Hl | Hl]; [now left | right].
  now rewrite rows_of_dangling by lia.
Qed.

(** Selecting by label after the write is selecting by [kept] before it. *)
Lemma filter_label_relabel scope shared line wk (f : frame) :
  List.filter (fun r => String.eqb (RouteOrLine r) line)
    (List.filter (fun r => negb wk || String.eqb (day r) "Weekday")
       (relabel shared line
          (List.filter
             (fun r => match scope with
                       | Some stations => isin (StopName r) stations
                       | None => true
                       end) f)))
  = cleaned scope shared line wk f.
Proof.
  unfold cleaned, relabel, kept.
  induction f as [| r f IH]; simpl; [reflexivity |].
  destruct (match scope with Some stations => isin (StopName r) stations | None => true end);
    simpl; [| exact IH].
  destruct (isin (StopName r) shared) eqn:Hs; simpl.
  - destruct (negb wk || String.eqb (day r) "Weekday"); simpl; [| exact IH].
    rewrite String.eqb_refl. now rewrite IH.
  - destruct (negb wk || String.eqb (day r) "Weekday"); simpl.
    + destruct (String.eqb (RouteOrLine r) line) eqn:Hl; simpl; [| exact IH].
      apply String.eqb_eq in Hl. rewrite IH. f_equal.
      destruct r; simpl in *; now subst.
    + rewrite andb_false_r. exact IH.
Qed.

Lemma filter_true {A} (l : list A) : List.filter (fun _ => true) l = l.
Proof. induction l as [| a l IH]; simpl; [reflexivity | now rewrite IH]. Qed.

Lemma filter_weekday_all (f : frame) :
  List.filter (fun r => negb false || String.eqb (day r) "Weekday") f = f.
Proof. apply filter_true. Qed.

Ltac run_filter :=
  unfold get_line_entries;
  repeat match goal with
         | |- context [String.eqb ?a ?b] =>
             let v := eval vm_compute in (String.eqb a b) in
             change (String.eqb a b) with v
         end;
  cbv beta iota zeta delta
    [bind ret raise print set_column set_where loc_rows local_name heap stdout value];
  cbn [app].

(** The outcome of the filter on the Blue Line: the caller's table is
    rewritten in place, the result is a new table. *)
Lemma get_line_entries_blue (σ : store) (df : loc) (wk : bool) :
  exists extra r,
    get_line_entries df "Blue Line" wk σ
    = mkOutcome (<[df := relabel BL_SHARED "Blue Line" (rows_of σ df)]> σ ++ extra) [] (Ok r) /\
    (length σ <= r < length σ + length extra)%nat /\
    rows_of (<[df := relabel BL_SHARED "Blue Line" (rows_of σ df)]> σ ++ extra) r
    = cleaned None BL_SHARED "Blue Line" wk (rows_of σ df).
Proof.
  pose proof (filter_label_relabel None BL_SHARED "Blue Line" wk (rows_of σ df)) as Hc.
  rewrite filter_true in Hc. revert Hc.
  destruct wk; cbn [negb orb]; rewrite ?filter_true; run_filter;
    change (List.map _ (rows_of σ df)) with (relabel BL_SHARED "Blue Line" (rows_of σ df));
    set (σ1 := <[df := relabel BL_SHARED "Blue Line" (rows_of σ df)]> σ);
    assert (Hrows : rows_of σ1 df = relabel BL_SHARED "Blue Line" (rows_of σ df))
      by apply rows_of_insert, relabel_nil_or;
    assert (Hlen : length σ1 = length σ) by apply length_insert;
    rewrite write_dates; intros Hc.
  - rewrite rows_of_new, Hrows, Hc, <- app_assoc. cbn [app].
    eexists _, _. split; [reflexivity | split].
    + rewrite length_app. simpl. lia.
    + apply (rows_of_last _ [_]).
  - rewrite Hrows, Hc.
    eexists _, _. split; [reflexivity | split].
    + simpl. lia.
    + apply rows_of_new.
Qed.

Lemma insert_new (σ : store) (f g : frame) : <[length σ := g]> (σ ++ [f]) = σ ++ [g].
Proof.
  rewrite insert_app_r_alt by lia. now rewrite Nat.sub_diag.
Qed.

(** The outcome of the filter on the Orange Line: it works on a copy, so
    every table of the caller is left as it was. *)
Lemma get_line_entries_orange (σ : store) (df : loc) (wk : bool) :
  exists extra r,
    get_line_entries df "Orange Line" wk σ = mkOutcome (σ ++ extra) [] (Ok r) /\
    (length σ <= r < length σ + length extra)%nat /\
    rows_of (σ ++ extra) r
    = cleaned (Some OL_STATIONS) OL_SHARED "Orange Line" wk (rows_of σ df).
Proof.
  pose proof (filter_label_relabel (Some OL_STATIONS) OL_SHARED "Orange Line" wk
                (rows_of σ df)) as Hc.
  revert Hc.
  destruct wk; cbn [negb orb]; rewrite ?filter_true; run_filter;
    set (f0 := List.filter _ (rows_of σ df));
    rewrite rows_of_new, insert_new;
    change (List.map _ f0) with (relabel OL_SHARED "Orange Line" f0);
    rewrite write_dates; intros Hc.
  - rewrite !rows_of_new, Hc, <- !app_assoc. cbn [app].
    eexists _, _. split; [reflexivity | split].
    + rewrite !length_app. simpl. lia.
    + apply (rows_of_last σ [_; _]).
  - rewrite !rows_of_new, Hc, <- !app_assoc. cbn [app].
    eexists _, _. split; [reflexivity | split].
    + rewrite !length_app. simpl. lia.
    + apply (rows_of_last σ [_]).
Qed.

(** Any other line: the notice is printed, nothing is written, and the
    read of [stops] raises. *)
Lemma get_line_entries_unknown (σ : store) (df : loc) (line : string) (wk : bool) :
  line <> "Blue Line" -> line <> "Orange Line" ->
  get_line_entries df line wk σ = mkOutcome σ [NoStopsSet] (Raise UnboundLocalError).
Proof.
  intros Hb Ho. unfold get_line_entries.
  apply String.eqb_neq in Hb, Ho. rewrite Hb, Ho.
  reflexivity.
Qed.

(** C1 (code as written).  For a line that is neither 'Blue Line' nor
    'Orange Line' the Record Filter prints its notice and then stops with
    an UnboundLocalError from the unassigned [stops]; no ConfigurationError
    is raised.  Evaluated on 'Green Line'. *)
Theorem get_line_entries_green_line :
  get_line_entries 0%nat "Green Line" false [sample_raw]
  = mkOutcome [sample_raw] [NoStopsSet] (Raise UnboundLocalError).
Proof. apply get_line_entries_unknown; discriminate. Qed.

(** C5, as worded, fails: on the Blue Line a record of a stop outside
    [BL_STATIONS] that carries the line's label is kept and a record of a
    Blue Line station under another label is left out; on the Orange Line a
    record of an Orange Line station under another label is left out. *)
Lemma get_line_entries_not_station_subset :
  (exists r, value (get_line_entries 0%nat "Blue Line" false [sample_raw]) = Ok r /\
     rows_of (heap (get_line_entries 0%nat "Blue Line" false [sample_raw])) r
     <> station_subset BL_STATIONS BL_SHARED "Blue Line" sample_raw) /\
  (exists r, value (get_line_entries 0%nat "Orange Line" false [sample_raw]) = Ok r /\
     rows_of (heap (get_line_entries 0%nat "Orange Line" false [sample_raw])) r
     <> station_subset OL_STATIONS OL_SHARED "Orange Line" sample_raw).
Proof.
  split; eexists; (split; [vm_compute; reflexivity |]);
    intros H; vm_compute in H; discriminate H.
Qed.

(** C5 (amended).  On either supported line the Record Filter returns a new
    table holding, in input order and under the line's name, exactly the
    input records that are kept: those whose stop is one of the stops
    assigned to the line or whose label already is the line's name, on the
    Orange Line only among the stops of [OL_STATIONS], and with
    [weekdays_only] only the records of a weekday.  Nothing is printed. *)
Theorem get_line_entries_selects (σ : store) (df : loc) (wk : bool) :
  (exists r, value (get_line_entries df "Blue Line" wk σ) = Ok r /\
     stdout (get_line_entries df "Blue Line" wk σ) = [] /\
     rows_of (heap (get_line_entries df "Blue Line" wk σ)) r
     = cleaned None BL_SHARED "Blue Line" wk (rows_of σ df)) /\
  (exists r, value (get_line_entries df "Orange Line" wk σ) = Ok r /\
     stdout (get_line_entries df "Orange Line" wk σ) = [] /\
     rows_of (heap (get_line_entries df "Orange Line" wk σ)) r
     = cleaned (Some OL_STATIONS) OL_SHARED "Orange Line" wk (rows_of σ df)).
Proof.
  split.
  - destruct (get_line_entries_blue σ df wk) as (extra & r & -> & _ & Hr).
    exists r. now simpl.
  - destruct (get_line_entries_orange σ df wk) as (extra & r & -> & _ & Hr).
    exists r. now simpl.
Qed.

(** ** Rounding *)

Lemma round_half_even_comp (p q : Q) : (p == q)%Q -> round_half_even p = round_half_even q.
Proof.
  intros Hpq. unfold round_half_even.
  rewrite (Qfloor_comp _ _ Hpq).
  assert (He : (p - inject_Z (Qfloor q) == q - inject_Z (Qfloor q))%Q) by now rewrite Hpq.
  now rewrite (Qcompare_comp _ _ He _ _ (Qeq_refl (1 # 2))).
Qed.

Lemma floor_bounds (q : Q) :
  (inject_Z (Qfloor q) <= q)%Q /\ (q < inject_Z (Qfloor q) + 1)%Q.
Proof.
  split; [apply Qfloor_le |].
  pose proof (Qlt_floor q) as H. rewrite inject_Z_plus in H. exact H.
Qed.

(** The rounded value is a nearest integer. *)
Lemma round_half_even_near (q : Q) :
  (Qabs (inject_Z (round_half_even q) - q) <= 1 # 2)%Q.
Proof.
  destruct (floor_bounds q) as [Hlo Hhi].
  apply Qabs_Qle_condition. unfold round_half_even.
  destruct (q - inject_Z (Qfloor q) ?= 1 # 2)%Q eqn:Hc.
  - apply Qeq_alt in Hc.
    destruct (Z.even (Qfloor q)); rewrite ?inject_Z_plus;
      change (inject_Z 1) with 1%Q; split; lra.
  - apply Qlt_alt in Hc. split; lra.
  - apply Qgt_alt in Hc. rewrite inject_Z_plus.
    change (inject_Z 1) with 1%Q. split; lra.
Qed.

Lemma round_half_even_inject_Z (z : Z) : round_half_even (inject_Z z) = z.
Proof.
  unfold round_half_even. rewrite Qfloor_Z.
  assert (H : (inject_Z z - inject_Z z ?= 1 # 2)%Q = Lt).
  { apply (proj1 (Qlt_alt _ _)). lra. }
  now rewrite H.
Qed.

(** ** Grouping *)

Section GroupbyFacts.
Context {K V : Type} `{EqDecision K}.

Lemma alookup_add_to_group (k k' : K) (v : V) (acc : list (K * list V)) :
  alookup k' (add_to_group k v acc)
  = if decide (k' = k) then Some (default [] (alookup k acc) ++ [v])
    else alookup k' acc.
Proof.
  induction acc as [| [k0 vs] acc IH]; simpl.
  - destruct (decide (k' = k)); reflexivity.
  - destruct (decide (k = k0)) as [-> | Hk]; simpl.
    + destruct (decide (k' = k0)); reflexivity.
    + rewrite IH. destruct (decide (k' = k0)) as [-> | Hk'].
      * destruct (decide (k0 = k)); [congruence | reflexivity].
      * reflexivity.
Qed.

Lemma keys_add_to_group (k : K) (v : V) (acc : list (K * list V)) :
  List.map fst (add_to_group k v acc)
  = if decide (k ∈ List.map fst acc) then List.map fst acc
    else List.map fst acc ++ [k].
Proof.
  induction acc as [| [k0 vs] acc IH]; simpl.
  - destruct (decide (k ∈ [])) as [Hin | _]; [inversion Hin | reflexivity].
  - destruct (decide (k = k0)) as [-> | Hk]; simpl.
    + destruct (decide (k0 ∈ k0 :: List.map fst acc)) as [_ | Hn]; [reflexivity |].
      exfalso. apply Hn. left.
    + rewrite IH.
      destruct (decide (k ∈ List.map fst acc)) as [Hin | Hin];
        destruct (decide (k ∈ k0 :: List.map fst acc)) as [Hin' | Hin'];
        try reflexivity.
      * exfalso. apply Hin'. now right.
      * exfalso. apply elem_of_cons in Hin' as [? | ?]; [congruence | contradiction].
Qed.

Lemma groups_snoc (kvs : list (K * V)) (k : K) (v : V) :
  groups (kvs ++ [(k, v)]) = add_to_group k v (groups kvs).
Proof. unfold groups. now rewrite fold_left_app. Qed.

Lemma values_of_snoc (k k0 : K) (v0 : V) (kvs : list (K * V)) :
  values_of k (kvs ++ [(k0, v0)])
  = values_of k kvs ++ (if decide (k = k0) then [v0] else []).
Proof.
  unfold values_of. rewrite List.filter_app, List.map_app. simpl.
  destruct (decide (k = k0)) as [-> | Hk].
  - now rewrite bool_decide_eq_true_2.
  - rewrite bool_decide_eq_false_2 by congruence. reflexivity.
Qed.

(** The group of a key holds the values of the rows of that key, in row
    order; a key without rows has no group. *)
Lemma alookup_groups (k : K) (kvs : list (K * V)) :
  alookup k (groups kvs)
  = match values_of k kvs with [] => None | vs => Some vs end.
Proof.
  induction kvs as [| [k0 v0] kvs IH] using rev_ind; [reflexivity |].
  rewrite groups_snoc, alookup_add_to_group, values_of_snoc.
  destruct (decide (k = k0)) as [-> | Hk].
  - rewrite IH. destruct (values_of k0 kvs); reflexivity.
  - rewrite IH, app_nil_r. reflexivity.
Qed.

Lemma NoDup_keys_groups (kvs : list (K * V)) : NoDup (List.map fst (groups kvs)).
Proof.
  induction kvs as [| [k0 v0] kvs IH] using rev_ind; [constructor |].
  rewrite groups_snoc, keys_add_to_group.
  destruct (decide (k0 ∈ List.map fst (groups kvs))) as [Hin | Hin]; [exact IH |].
  apply NoDup_app. split; [exact IH | split].
  - intros x Hx Hx'. apply list_elem_of_singleton in Hx'. now subst.
  - apply NoDup_singleton.
Qed.

Lemma alookup_elem_of {A} (k : K) (a : A) (acc : list (K * A)) :
  alookup k acc = Some a -> (k, a) ∈ acc.
Proof.
  induction acc as [| [k0 a0] acc IH]; simpl; [discriminate |].
  destruct (decide (k = k0)) as [-> | Hk].
  - intros [= ->]. left.
  - intros Hl. right. now apply IH.
Qed.

Lemma elem_of_alookup {A} (k : K) (a : A) (acc : list (K * A)) :
  NoDup (List.map fst acc) -> (k, a) ∈ acc -> alookup k acc = Some a.
Proof.
  induction acc as [| [k0 a0] acc IH]; simpl; intros Hnd Hin; [inversion Hin |].
  apply NoDup_cons in Hnd as [Hk0 Hnd].
  apply elem_of_cons in Hin as [[= -> ->] | Hin].
  - now rewrite decide_True.
  - destruct (decide (k = k0)) as [-> | Hk]; [| now apply IH].
    exfalso. apply Hk0. apply (list_elem_of_fmap_2 fst _ _ Hin).
Qed.

Lemma elem_of_groups (k : K) (vs : list V) (kvs : list (K * V)) :
  (k, vs) ∈ groups kvs <-> vs <> [] /\ vs = values_of k kvs.
Proof.
  split.
  - intros Hin. apply elem_of_alookup in Hin; [| apply NoDup_keys_groups].
    rewrite alookup_groups in Hin.
    destruct (values_of k kvs); [discriminate |]. injection Hin as <-. now split.
  - intros [Hne ->]. apply alookup_elem_of. rewrite alookup_groups.
    destruct (values_of k kvs); [contradiction | reflexivity].
Qed.

Lemma values_of_nonempty (k : K) (kvs : list (K * V)) :
  values_of k kvs <> [] <-> k ∈ List.map fst kvs.
Proof.
  unfold values_of. induction kvs as [| [k0 v0] kvs IH]; simpl.
  - split; [congruence | intros Hin; inversion Hin].
  - destruct (decide (k0 = k)) as [-> | Hk].
    + rewrite bool_decide_eq_true_2 by reflexivity. simpl.
      split; [intros _; left | discriminate].
    + rewrite bool_decide_eq_false_2 by exact Hk. rewrite IH.
      split; [intros Hin; now right |].
      intros Hin. apply elem_of_cons in Hin as [? | ?]; [congruence | assumption].
Qed.

(** The keys of the groups are the keys of the rows. *)
Lemma keys_groups (k : K) (kvs : list (K * V)) :
  k ∈ List.map fst (groups kvs) <-> k ∈ List.map fst kvs.
Proof.
  rewrite <- values_of_nonempty. split.
  - intros Hin. apply list_elem_of_fmap in Hin as ([k' vs] & -> & Hin).
    apply elem_of_groups in Hin as [Hne ->]. exact Hne.
  - intros Hne. apply (list_elem_of_fmap_2 fst _ (k, values_of k kvs)).
    now apply elem_of_groups.
Qed.

Variable leb : K -> K -> bool.

Lemma insert_by_Permutation {A} (key : A -> K) (x : A) (l : list A) :
  insert_by leb key x l ≡ₚ x :: l.
Proof.
  induction l as [| y l IH]; simpl; [reflexivity |].
  destruct (leb (key x) (key y)); [reflexivity |].
  rewrite IH. apply Permutation_swap.
Qed.

Lemma sort_by_Permutation {A} (key : A -> K) (l : list A) : sort_by leb key l ≡ₚ l.
Proof.
  induction l as [| x l IH]; simpl; [reflexivity |].
  unfold sort_by in *. simpl. now rewrite insert_by_Permutation, IH.
Qed.

Lemma groupby_Permutation (kvs : list (K * V)) : groupby leb kvs ≡ₚ groups kvs.
Proof. apply sort_by_Permutation. Qed.

Lemma NoDup_keys_groupby (kvs : list (K * V)) : NoDup (List.map fst (groupby leb kvs)).
Proof.
  change (NoDup (fst <$> groupby leb kvs)).
  rewrite groupby_Permutation. apply NoDup_keys_groups.
Qed.

Lemma elem_of_groupby (k : K) (vs : list V) (kvs : list (K * V)) :
  (k, vs) ∈ groupby leb kvs <-> vs <> [] /\ vs = values_of k kvs.
Proof. rewrite groupby_Permutation. apply elem_of_groups. Qed.

Lemma alookup_groupby (k : K) (kvs : list (K * V)) :
  alookup k (groupby leb kvs)
  = match values_of k kvs with [] => None | vs => Some vs end.
Proof.
  destruct (values_of k kvs) as [| v vs] eqn:Hv.
  - destruct (alookup k (groupby leb kvs)) as [ws |] eqn:Hl; [| reflexivity].
    apply alookup_elem_of, elem_of_groupby in Hl as [Hne ->]. contradiction.
  - apply elem_of_alookup; [apply NoDup_keys_groupby |].
    apply elem_of_groupby. now rewrite Hv.
Qed.

Lemma keys_groupby (k : K) (kvs : list (K * V)) :
  k ∈ List.map fst (groupby leb kvs) <-> k ∈ List.map fst kvs.
Proof.
  change (k ∈ fst <$> groupby leb kvs <-> k ∈ List.map fst kvs).
  rewrite groupby_Permutation. apply keys_groups.
Qed.
End GroupbyFacts.

(** ** float64 arithmetic *)

Lemma pow2_Qpower (e : Z) : (pow2 e == inject_Z 2 ^ e)%Q.
Proof.
  destruct e as [| p | p].
  - reflexivity.
  - unfold pow2. now apply Zpower_Qpower.
  - unfold pow2. change (inject_Z 2 ^ Z.neg p)%Q with (/ (inject_Z 2 ^ Z.pos p))%Q.
    rewrite <- Zpower_Qpower by easy.
    rewrite <- Pos2Z.inj_pow. reflexivity.
Qed.

Lemma pow2_add (a b : Z) : (pow2 (a + b) == pow2 a * pow2 b)%Q.
Proof. rewrite !pow2_Qpower. now apply Qpower_plus. Qed.

Lemma pow2_pos (e : Z) : (0 < pow2 e)%Q.
Proof. rewrite pow2_Qpower. now apply Qpower_0_lt. Qed.

Lemma pow2_nonneg (e : Z) : 0 <= e -> pow2 e = inject_Z (2 ^ e).
Proof. destruct e; [reflexivity | reflexivity | lia]. Qed.

Lemma pow2_ge_1 (e : Z) : 0 <= e -> (1 <= pow2 e)%Q.
Proof.
  intros He. rewrite pow2_nonneg by exact He.
  change 1%Q with (inject_Z 1). rewrite <- Zle_Qle.
  pose proof (Z.pow_pos_nonneg 2 e). lia.
Qed.

Lemma pow2_le (a b : Z) : a <= b -> (pow2 a <= pow2 b)%Q.
Proof.
  intros Hab. replace b with (a + (b - a)) by lia. rewrite pow2_add.
  pose proof (pow2_pos a). pose proof (pow2_ge_1 (b - a) ltac:(lia)). nra.
Qed.

Lemma pow2_lt_inv (a b : Z) : (pow2 a < pow2 b)%Q -> a < b.
Proof.
  intros Hlt. destruct (Z_lt_le_dec a b) as [H | H]; [exact H |].
  apply pow2_le in H. lra.
Qed.

Lemma Qabs_num_den (q : Q) :
  (Qabs q == inject_Z (Z.abs (Qnum q)) / inject_Z (Zpos (Qden q)))%Q.
Proof.
  destruct q as [n d]. unfold Qabs. simpl Qnum. simpl Qden.
  rewrite (Qmake_Qdiv (Z.abs n) d). reflexivity.
Qed.

Lemma log2_bounds (n : Z) : 0 < n -> 2 ^ Z.log2 n <= n < 2 ^ (Z.log2 n + 1).
Proof. intros Hn. replace (Z.log2 n + 1) with (Z.succ (Z.log2 n)) by lia. now apply Z.log2_spec. Qed.

Lemma pow2_sub (a b : Z) : (pow2 (a - b) * pow2 b == pow2 a)%Q.
Proof. rewrite <- pow2_add. now replace (a - b + b) with a by lia. Qed.

(** The exponent of the leading bit. *)
Lemma ilog2_spec (q : Q) :
  ~ (q == 0)%Q -> (pow2 (ilog2 q) <= Qabs q)%Q /\ (Qabs q < pow2 (ilog2 q + 1))%Q.
Proof.
  intros Hq.
  assert (Hn : 0 < Z.abs (Qnum q)).
  { destruct q as [[| n | n] d]; [exfalso; apply Hq; reflexivity | simpl; lia | simpl; lia]. }
  assert (Hd : 0 < Zpos (Qden q)) by lia.
  destruct (log2_bounds _ Hn) as [Hn1 Hn2]. destruct (log2_bounds _ Hd) as [Hd1 Hd2].
  set (ln := Z.log2 (Z.abs (Qnum q))) in *. set (ld := Z.log2 (Zpos (Qden q))) in *.
  assert (Hln : 0 <= ln) by apply Z.log2_nonneg.
  assert (Hld : 0 <= ld) by apply Z.log2_nonneg.
  rewrite Zle_Qle in Hn1, Hd1. rewrite Zlt_Qlt in Hn2, Hd2, Hn, Hd.
  rewrite <- !pow2_nonneg in * by lia.
  pose proof (Qabs_num_den q) as Habs.
  set (n := inject_Z (Z.abs (Qnum q))) in *. set (d := inject_Z (Zpos (Qden q))) in *.
  change (inject_Z 0) with 0%Q in *.
  assert (Hnd : (Qabs q * d == n)%Q).
  { rewrite Habs. field. lra. }
  unfold ilog2. fold ln ld.
  pose proof (pow2_sub ln ld) as E0.
  pose proof (pow2_sub (ln + 1) ld) as E1.
  pose proof (pow2_pos (ln - ld)) as P0. pose proof (pow2_pos ld) as Pd.
  pose proof (pow2_pos (ln - ld - 1)) as Pm.
  pose proof (pow2_add (ln - ld - 1) 1) as Em.
  replace (ln - ld - 1 + 1) with (ln - ld) in Em by lia.
  change (pow2 1) with 2%Q in Em.
  pose proof (pow2_add (ln - ld) 1) as Ep. change (pow2 1) with 2%Q in Ep.
  pose proof (pow2_add ln 1) as El. change (pow2 1) with 2%Q in El.
  pose proof (pow2_add ld 1) as Eld. change (pow2 1) with 2%Q in Eld.
  pose proof (Qabs_nonneg q) as Hq0.
  destruct (Qle_bool (pow2 (ln - ld)) (Qabs q)) eqn:Hb.
  - apply Qle_bool_iff in Hb. split; [exact Hb |].
    (* |q| d = n < 2^(ln+1) = 2 * 2^(ln-ld) 2^ld <= 2 2^(ln-ld) d *)
    apply Qnot_le_lt. intros Hc. nra.
  - assert (Hlt : (Qabs q < pow2 (ln - ld))%Q).
    { apply Qnot_le_lt. intros Hc. apply Qle_bool_iff in Hc. congruence. }
    replace (ln - ld - 1 + 1) with (ln - ld) by lia. split; [| exact Hlt].
    apply Qnot_lt_le. intros Hc. nra.
Qed.

Lemma ilog2_unique (q : Q) (e : Z) :
  (pow2 e <= Qabs q)%Q -> (Qabs q < pow2 (e + 1))%Q -> ilog2 q = e.
Proof.
  intros Hlo Hhi.
  assert (Hq : ~ (q == 0)%Q).
  { intros Hz. rewrite Hz in Hlo. change (Qabs 0) with 0%Q in Hlo.
    pose proof (pow2_pos e). lra. }
  destruct (ilog2_spec q Hq) as [Hlo' Hhi'].
  assert (H1 : ilog2 q < e + 1) by (apply pow2_lt_inv; lra).
  assert (H2 : e < ilog2 q + 1) by (apply pow2_lt_inv; lra).
  lia.
Qed.

Lemma ilog2_comp (p q : Q) : (p == q)%Q -> ~ (q == 0)%Q -> ilog2 p = ilog2 q.
Proof.
  intros Hpq Hq. destruct (ilog2_spec q Hq) as [Hlo Hhi].
  apply ilog2_unique; now rewrite Hpq.
Qed.

Lemma binary64_zero (q : Q) : (q == 0)%Q -> binary64 q = 0%Q.
Proof. intros Hq. unfold binary64. apply Qeq_bool_iff in Hq. now rewrite Hq. Qed.

Lemma binary64_nonzero (q : Q) :
  ~ (q == 0)%Q ->
  binary64 q
  = (inject_Z (round_half_even (q / pow2 (ilog2 q - 52))) * pow2 (ilog2 q - 52))%Q.
Proof.
  intros Hq. unfold binary64. destruct (Qeq_bool q 0) eqn:Hb; [| reflexivity].
  apply Qeq_bool_iff in Hb. contradiction.
Qed.

Lemma binary64_comp (p q : Q) : (p == q)%Q -> (binary64 p == binary64 q)%Q.
Proof.
  intros Hpq. destruct (Qeq_dec q 0) as [Hq | Hq].
  - rewrite (binary64_zero q Hq), (binary64_zero p); [reflexivity | now rewrite Hpq].
  - rewrite (binary64_nonzero q Hq), (binary64_nonzero p) by now rewrite Hpq.
    rewrite (ilog2_comp p q Hpq Hq).
    rewrite (round_half_even_comp (p / pow2 (ilog2 q - 52)) (q / pow2 (ilog2 q - 52)));
      [reflexivity | now rewrite Hpq].
Qed.

(** The relative error of an operation is at most [2^-53]. *)
Lemma binary64_near (q : Q) : (Qabs (binary64 q - q) <= Qabs q * (1 # 2 ^ 53))%Q.
Proof.
  destruct (Qeq_dec q 0) as [Hq | Hq].
  - rewrite (binary64_zero q Hq), Hq. now apply Qle_bool_iff.
  - rewrite (binary64_nonzero q Hq).
    destruct (ilog2_spec q Hq) as [Hlo _].
    set (e := ilog2 q - 52) in *.
    pose proof (pow2_pos e) as He.
    pose proof (round_half_even_near (q / pow2 e)) as Hr.
    set (m := inject_Z (round_half_even (q / pow2 e))) in *.
    assert (Hx : (m * pow2 e - q == (m - q / pow2 e) * pow2 e)%Q) by (field; lra).
    rewrite Hx, Qabs_Qmult, (Qabs_pos (pow2 e)) by lra.
    pose proof (pow2_add e 52) as E52. replace (e + 52) with (ilog2 q) in E52 by (unfold e; lia).
    change (pow2 52) with (inject_Z (2 ^ 52)) in E52.
    pose proof (Qabs_nonneg (m - q / pow2 e)) as H0.
    apply Qle_trans with ((1 # 2) * pow2 e)%Q.
    + apply Qmult_le_compat_r; [exact Hr | lra].
    + change (inject_Z (2 ^ 52)) with (4503599627370496 # 1)%Q in E52.
      change (1 # 2 ^ 53)%Q with (1 # 9007199254740992)%Q. lra.
Qed.

Lemma Qabs_inject_Z (n : Z) : Qabs (inject_Z n) = inject_Z (Z.abs n).
Proof. reflexivity. Qed.

(** An integer of at most 53 bits is a float64. *)
Lemma binary64_inject_Z (n : Z) :
  Z.abs n < 2 ^ 53 -> (binary64 (inject_Z n) == inject_Z n)%Q.
Proof.
  intros Hn. destruct (Z.eq_dec n 0) as [-> | Hnz]; [reflexivity |].
  assert (Hq : ~ (inject_Z n == 0)%Q).
  { intros Hz. apply Hnz. apply (inject_Z_injective n 0). exact Hz. }
  rewrite (binary64_nonzero _ Hq).
  destruct (ilog2_spec _ Hq) as [Hlo _]. rewrite Qabs_inject_Z in Hlo.
  assert (He : ilog2 (inject_Z n) < 53).
  { apply pow2_lt_inv. change (pow2 53) with (inject_Z (2 ^ 53)).
    rewrite Zlt_Qlt in Hn. lra. }
  set (e := ilog2 (inject_Z n) - 52) in *.
  assert (Hx : (inject_Z n / pow2 e == inject_Z (n * 2 ^ (- e)))%Q).
  { rewrite inject_Z_mult, <- pow2_nonneg by lia.
    pose proof (pow2_add e (- e)) as E. replace (e + - e) with 0 in E by lia.
    change (pow2 0) with 1%Q in E. pose proof (pow2_pos e).
    apply Qmult_inj_r with (z := pow2 e); [lra |].
    rewrite <- Qmult_assoc, (Qmult_comm (pow2 (- e))), <- E. field. lra. }
  rewrite (round_half_even_comp _ _ Hx), round_half_even_inject_Z, <- Hx.
  field. pose proof (pow2_pos e). lra.
Qed.

(** The percent the program computes is a nearest integer of the exact
    percent, for a baseline of at most 53 bits and a difference of at most
    43 bits. *)
Lemma pct_change_near (b a : Z) :
  b <> 0 -> Z.abs b < 2 ^ 53 -> Z.abs (a - b) < 2 ^ 43 ->
  (Qabs (inject_Z (pct_change b a) - exact_percent b a) <= 1 # 2)%Q.
Proof.
  intros Hb Hbb Hd. unfold pct_change, exact_percent.
  set (d := a - b) in *.
  assert (Hbq : ~ (inject_Z b == 0)%Q).
  { intros Hz. apply Hb. apply (inject_Z_injective b 0). exact Hz. }
  assert (Hd53 : Z.abs d < 2 ^ 53).
  { eapply Z.lt_trans; [exact Hd | reflexivity]. }
  (* the two operations *)
  set (v1 := (inject_Z d / inject_Z b)%Q).
  set (x1 := binary64 v1).
  set (x2 := binary64 (x1 * inject_Z 100)).
  assert (E : (binary64
                 (binary64 (binary64 (inject_Z d) / binary64 (inject_Z b))
                  * binary64 (inject_Z 100)) == x2)%Q).
  { apply binary64_comp.
    rewrite (binary64_inject_Z 100) by reflexivity.
    apply Qmult_comp; [| reflexivity]. apply binary64_comp.
    now rewrite (binary64_inject_Z d Hd53), (binary64_inject_Z b Hbb). }
  rewrite (round_half_even_comp _ _ E).
  pose proof (binary64_near v1) as H1. fold x1 in H1.
  pose proof (binary64_near (x1 * inject_Z 100)) as H2. fold x2 in H2.
  pose proof (round_half_even_near x2) as H3.
  set (n := round_half_even x2) in *.
  set (A := Qabs v1) in *.
  assert (HA : (0 <= A)%Q) by apply Qabs_nonneg.
  assert (Hv1 : (- A <= v1 <= A)%Q) by (apply Qabs_Qle_condition, Qle_refl).
  change (1 # 2 ^ 53)%Q with (1 # 9007199254740992)%Q in H1, H2.
  apply Qabs_Qle_condition in H1.
  assert (HB : (Qabs (x1 * inject_Z 100) <= (A + A * (1 # 9007199254740992)) * 100)%Q).
  { apply Qabs_Qle_condition. change (inject_Z 100) with 100%Q. lra. }
  apply Qabs_Qle_condition in H2. apply Qabs_Qle_condition in H3.
  change (inject_Z 100) with 100%Q in *.
  assert (Hnear : (Qabs (inject_Z n - 100 * v1)
                   <= (1 # 2) + A * (201 # 9007199254740992))%Q).
  { apply Qabs_Qle_condition. lra. }
  (* twice the baseline times the error is an integer *)
  set (N := 2 * b * n - 200 * d).
  assert (EN : (inject_Z N == 2 * inject_Z b * (inject_Z n - 100 * v1))%Q).
  { unfold N, v1. rewrite <- Z.add_opp_r, inject_Z_plus, inject_Z_opp, !inject_Z_mult.
    change (inject_Z 2) with 2%Q. change (inject_Z 200) with 200%Q. field. exact Hbq. }
  assert (EA : (inject_Z (Z.abs b) * A == inject_Z (Z.abs d))%Q).
  { unfold A, v1. rewrite <- !Qabs_inject_Z, <- Qabs_Qmult.
    apply Qabs_wd. field. exact Hbq. }
  assert (HN : (inject_Z (Z.abs N)
                == 2 * inject_Z (Z.abs b) * Qabs (inject_Z n - 100 * v1))%Q).
  { rewrite <- !Qabs_inject_Z, EN, !Qabs_Qmult. reflexivity. }
  assert (Hb0 : (0 < inject_Z (Z.abs b))%Q).
  { change 0%Q with (inject_Z 0). rewrite <- Zlt_Qlt. lia. }
  assert (Hdq : (inject_Z (Z.abs d) <= 8796093022208)%Q).
  { change 8796093022208%Q with (inject_Z (2 ^ 43)). rewrite <- Zle_Qle. lia. }
  assert (HNb : Z.abs N < Z.abs b + 1).
  { rewrite Zlt_Qlt, inject_Z_plus, HN. change (inject_Z 1) with 1%Q.
    set (B := inject_Z (Z.abs b)) in *. set (D := inject_Z (Z.abs d)) in *.
    set (err := Qabs (inject_Z n - 100 * v1)) in *.
    assert (H : (2 * B * err <= 2 * B * ((1 # 2) + A * (201 # 9007199254740992)))%Q).
    { apply Qmult_le_l; [lra | exact Hnear]. }
    assert (H' : (2 * B * ((1 # 2) + A * (201 # 9007199254740992))
                  == B + 2 * (B * A) * (201 # 9007199254740992))%Q) by ring.
    rewrite H', EA in H. lra. }
  apply Qmult_le_l with (z := (2 * inject_Z (Z.abs b))%Q); [lra |].
  setoid_replace (2 * inject_Z (Z.abs b) * (1 # 2))%Q with (inject_Z (Z.abs b))
    using relation Qeq by ring.
  setoid_replace (inject_Z n - 100 * inject_Z d / inject_Z b)%Q
    with (inject_Z n - 100 * v1)%Q using relation Qeq by (unfold v1; field; exact Hbq).
  rewrite <- HN, <- Zle_Qle. lia.
Qed.

Lemma round_half_even_unique (q : Q) (n : Z) :
  (Qabs (inject_Z n - q) <= 1 # 2)%Q -> halfway q = false -> round_half_even q = n.
Proof.
  intros Hn Hhalf.
  assert (Hne : ~ (q - inject_Z (Qfloor q) == 1 # 2)%Q).
  { intros He. apply Qeq_bool_iff in He. unfold halfway in Hhalf. congruence. }
  destruct (floor_bounds q) as [Hlo Hhi].
  apply Qabs_Qle_condition in Hn.
  pose proof (round_half_even_near q) as Hr. apply Qabs_Qle_condition in Hr.
  set (r := round_half_even q) in *. set (f := Qfloor q) in *.
  (* both are the floor or the floor plus one, on the side of [q] *)
  assert (Hcases : forall m : Z, (- (1 # 2) <= inject_Z m - q <= 1 # 2)%Q ->
                     (m = f /\ (q - inject_Z f < 1 # 2)%Q) \/
                     (m = f + 1 /\ (1 # 2 < q - inject_Z f)%Q)).
  { intros m Hm.
    assert (H1 : f < m + 1).
    { rewrite Zlt_Qlt, inject_Z_plus. change (inject_Z 1) with 1%Q. lra. }
    assert (H2 : m < f + 2).
    { rewrite Zlt_Qlt, inject_Z_plus. change (inject_Z 2) with 2%Q. lra. }
    assert (Hm' : m = f \/ m = f + 1) by lia.
    destruct Hm' as [-> | ->]; [left | right]; (split; [reflexivity |]).
    - apply Qnot_le_lt. intros Hc. apply Hne. lra.
    - rewrite inject_Z_plus in Hm. change (inject_Z 1) with 1%Q in Hm.
      apply Qnot_le_lt. intros Hc. apply Hne. lra. }
  destruct (Hcases n Hn) as [[-> H1] | [-> H1]];
    destruct (Hcases r Hr) as [[-> H2] | [-> H2]]; try reflexivity; lra.
Qed.

(** Unless the exact percent lies halfway between two integers, the
    program's percent is the exact percent rounded. *)
Lemma pct_change_round (b a : Z) :
  b <> 0 -> Z.abs b < 2 ^ 53 -> Z.abs (a - b) < 2 ^ 43 ->
  halfway (exact_percent b a) = false ->
  pct_change b a = round_half_even (exact_percent b a).
Proof.
  intros Hb Hbb Hd Hhalf. symmetry.
  apply round_half_even_unique; [now apply pct_change_near | exact Hhalf].
Qed.

(** On these baselines and values, among them exact percents that lie
    halfway between two integers and integers of more than 53 bits,
    [pct_change] is the percent that the Standard Library's IEEE 754
    operations give. *)
Example pct_change_ieee :
  forallb (fun ba => bool_decide (ieee_percent (fst ba) (snd ba)
                                  = Some (pct_change (fst ba) (snd ba))))
    [(40, 63); (40, 89); (40, 17); (8, 11); (200, 301); (3, 4); (7, 1); (-6, 5);
     (100, 120); (1000, 1); (3, 2 ^ 60 + 12345); (2 ^ 62 + 1, 2 ^ 55 + 3);
     (123456789, 987654321); (56, 1 - 2 ^ 54)]
  = true.
Proof. vm_compute. reflexivity. Qed.

(** The percent of 63 against 40 is exactly 57.5; the program's quotient
    is just below 0.575 and its percent is 57. *)
Example pct_change_40_63 :
  pct_change 40 63 = 57 /\ round_half_even (exact_percent 40 63) = 58.
Proof. split; vm_compute; reflexivity. Qed.

(** ** Daily Aggregator *)


Lemma daily_ridership_keys (df : frame) :
  List.map (fun t => (dServiceDate t, dStopName t)) (daily_ridership df)
  = List.map fst (groupby key_leb
      (List.map (fun r => ((ServiceDate r, StopName r), TotalEntries r)) df)).
Proof.
  unfold daily_ridership. rewrite List.map_map. apply List.map_ext.
  now intros [[d s] vs].
Qed.



Lemma NoDup_daily_keys (df : frame) :
  NoDup (List.map (fun t => (dServiceDate t, dStopName t)) (daily_ridership df)).
Proof. rewrite daily_ridership_keys. apply NoDup_keys_groupby. Qed.


(** ** Computations that leave the store alone *)

Lemma runs_as_ret {A} (a : A) : runs_as (ret a) [] (Ok a).
Proof. now intros σ. Qed.

Lemma runs_as_raise {A} (e : exn) : runs_as (@raise A e) [] (Raise e).
Proof. now intros σ. Qed.

Lemma runs_as_print (m : message) : runs_as (print m) [m] (Ok tt).
Proof. now intros σ. Qed.

Lemma runs_as_lift {A} (r : result A) : runs_as (lift r) [] r.
Proof. now destruct r; intros σ. Qed.

Lemma runs_as_bind_ok {A B} (m : Py A) (k : A -> Py B) out a out' v :
  runs_as m out (Ok a) -> runs_as (k a) out' v -> runs_as (bind m k) (out ++ out') v.
Proof. intros Hm Hk σ. unfold bind. cbv zeta. rewrite !Hm. simpl. rewrite !Hk. reflexivity. Qed.

Lemma runs_as_bind_raise {A B} (m : Py A) (k : A -> Py B) out e :
  runs_as m out (Raise e) -> runs_as (bind m k) out (Raise e).
Proof. intros Hm σ. unfold bind. cbv zeta. rewrite !Hm. reflexivity. Qed.

Lemma runs_as_inj {A} (m : Py A) out out' v v' :
  runs_as m out v -> runs_as m out' v' -> out = out' /\ v = v'.
Proof.
  intros H H'. pose proof (H []) as E. rewrite (H' []) in E.
  now injection E as -> ->.
Qed.

Lemma store_free_ret {A} (a : A) : store_free (ret a).
Proof. eexists _, _. apply runs_as_ret. Qed.

Lemma store_free_raise {A} (e : exn) : store_free (@raise A e).
Proof. eexists _, _. apply runs_as_raise. Qed.

Lemma store_free_print (m : message) : store_free (print m).
Proof. eexists _, _. apply runs_as_print. Qed.

Lemma store_free_lift {A} (r : result A) : store_free (lift r).
Proof. eexists _, _. apply runs_as_lift. Qed.

Lemma store_free_bind {A B} (m : Py A) (k : A -> Py B) :
  store_free m -> (forall a, store_free (k a)) -> store_free (bind m k).
Proof.
  intros (out & [a | e] & Hm) Hk.
  - destruct (Hk a) as (out' & v' & Hka). eexists _, _.
    eapply runs_as_bind_ok; eassumption.
  - eexists _, _. eapply runs_as_bind_raise; eassumption.
Qed.

Lemma store_free_item {A} (l : list A) (i : nat) : store_free (item l i).
Proof. unfold item. destruct (l !! i); [apply store_free_ret | apply store_free_raise]. Qed.

Lemma store_free_strftime (t : option Z) : store_free (strftime t).
Proof. destruct t; [apply store_free_ret | apply store_free_raise]. Qed.

Lemma store_free_for_each {A} (l : list A) (body : A -> Py unit) :
  (forall a, store_free (body a)) -> store_free (for_each l body).
Proof.
  intros Hb. induction l as [| a l IH]; simpl; [apply store_free_ret |].
  apply store_free_bind; [apply Hb | intros _; exact IH].
Qed.

Lemma store_free_heap {A} (m : Py A) (σ : store) : store_free m -> heap (m σ) = σ.
Proof. intros (out & v & Hm). now rewrite Hm. Qed.

Lemma store_free_same {A} (m : Py A) (σ σ' : store) :
  store_free m -> stdout (m σ) = stdout (m σ') /\ value (m σ) = value (m σ').
Proof. intros (out & v & Hm). now rewrite !Hm. Qed.

Create HintDb store_free.
#[local] Hint Resolve store_free_ret store_free_raise store_free_print store_free_lift
  store_free_item store_free_strftime : store_free.

Ltac store_free :=
  repeat first
    [ apply store_free_bind; [| intros ?]
    | apply store_free_for_each; intros ?
    | match goal with |- store_free (if ?b then _ else _) => destruct b end
    | match goal with |- store_free (let '(_, _) := ?p in _) => destruct p end
    | solve [auto with store_free] ].

(** ** Completeness Checker *)

Lemma for_each_print {A} (l : list A) (f : A -> message) :
  runs_as (for_each l (fun a => print (f a))) (List.map f l) (Ok tt).
Proof.
  induction l as [| a l IH]; simpl; [apply runs_as_ret |].
  change (f a :: List.map f l) with ([f a] ++ List.map f l).
  eapply runs_as_bind_ok; [apply runs_as_print | exact IH].
Qed.



(** What the checker prints for a line whose name starts with the name of
    a supported line. *)
Lemma check_missing_runs (after : daily_frame) (line : string) :
  startswith line "Orange Line" = true \/ startswith line "Blue Line" = true ->
  let stations := if startswith line "Orange Line" then OL_STATIONS else BL_STATIONS in
  runs_as (check_missing after line)
    (List.map
       (fun d => MissingValues line d
                   (difference stations (List.map dStopName (rows_on d after))))
       (below (length stations) (value_counts (List.map dServiceDate after))))
    (Ok tt).
Proof.
  intros Hline. unfold check_missing.
  destruct (startswith line "Orange Line") eqn:Ho; simpl.
  - apply (for_each_print _
             (fun d => MissingValues line d
                         (difference OL_STATIONS (List.map dStopName (rows_on d after))))).
  - destruct Hline as [? | Hb]; [discriminate |]. rewrite Hb.
    apply (for_each_print _
             (fun d => MissingValues line d
                         (difference BL_STATIONS (List.map dStopName (rows_on d after))))).
Qed.

Lemma NoDup_map_filter {A B} (f : A -> B) (p : A -> bool) (l : list A) :
  NoDup (List.map f l) -> NoDup (List.map f (List.filter p l)).
Proof.
  induction l as [| a l IH]; simpl; intros Hnd; [constructor |].
  apply NoDup_cons in Hnd as [Ha Hnd].
  destruct (p a); simpl; [| now apply IH].
  apply NoDup_cons. split; [| now apply IH].
  intros Hin. apply Ha.
  apply list_elem_of_fmap in Hin as (a' & -> & Hin).
  apply list_elem_of_In, List.filter_In in Hin as [Hin _].
  apply (list_elem_of_fmap_2 f). now apply list_elem_of_In.
Qed.

Lemma length_values_of_dates (d : Z) (after : daily_frame) :
  length (values_of d (List.map (fun d => (d, tt)) (List.map dServiceDate after)))
  = length (rows_on d after).
Proof.
  unfold values_of, rows_on. induction after as [| r after IH]; simpl; [reflexivity |].
  destruct (Z.eqb_spec (dServiceDate r) d) as [Heq | Hne].
  - rewrite bool_decide_eq_true_2 by exact Heq. simpl. now rewrite IH.
  - rewrite bool_decide_eq_false_2 by exact Hne. exact IH.
Qed.

Lemma rows_on_nonempty (d : Z) (after : daily_frame) :
  d ∈ List.map dServiceDate after <-> rows_on d after <> [].
Proof.
  unfold rows_on. induction after as [| r after IH]; simpl.
  - split; [intros Hin; inversion Hin | congruence].
  - destruct (Z.eqb_spec (dServiceDate r) d) as [Heq | Hne].
    + split; [discriminate | intros _; rewrite Heq; left].
    + rewrite <- IH. split; [| intros Hin; now right].
      intros Hin. apply elem_of_cons in Hin as [? | ?]; [congruence | assumption].
Qed.

(** [value_counts] lists each date of the column once, with the number of
    its rows. *)
Lemma elem_of_value_counts (d : Z) (n : nat) (after : daily_frame) :
  (d, n) ∈ value_counts (List.map dServiceDate after)
  <-> rows_on d after <> [] /\ n = length (rows_on d after).
Proof.
  unfold value_counts. rewrite sort_by_Permutation. split.
  - intros Hin. apply list_elem_of_fmap in Hin as ([d' vs] & [= -> ->] & Hin).
    apply elem_of_groups in Hin as [Hne ->].
    rewrite length_values_of_dates in *. split; [| reflexivity].
    intros Hnil. apply Hne.
    apply length_zero_iff_nil. rewrite length_values_of_dates, Hnil. reflexivity.
  - intros [Hne ->]. rewrite <- length_values_of_dates.
    apply (list_elem_of_fmap_2 (fun g => (fst g, length (snd g))) _
             (d, values_of d (List.map (fun d => (d, tt)) (List.map dServiceDate after)))).
    apply elem_of_groups. split; [| reflexivity].
    intros Hnil. apply Hne. apply length_zero_iff_nil.
    rewrite <- length_values_of_dates, Hnil. reflexivity.
Qed.

Lemma NoDup_value_counts (dates : list Z) : NoDup (List.map fst (value_counts dates)).
Proof.
  unfold value_counts. change (NoDup (fst <$> sort_by (fun a b : nat => (b <=? a)%nat) snd
    (List.map (fun g => (fst g, length (snd g))) (groups (List.map (fun d => (d, tt)) dates))))).
  rewrite sort_by_Permutation.
  change (NoDup (List.map fst (List.map (fun g : Z * list unit => (fst g, length (snd g)))
    (groups (List.map (fun d => (d, tt)) dates))))).
  rewrite List.map_map. simpl. apply NoDup_keys_groups.
Qed.

Lemma elem_of_below (d : Z) (n : nat) (after : daily_frame) :
  d ∈ below n (value_counts (List.map dServiceDate after))
  <-> d ∈ List.map dServiceDate after /\ (length (rows_on d after) < n)%nat.
Proof.
  unfold below. rewrite rows_on_nonempty. split.
  - intros Hin. apply list_elem_of_fmap in Hin as ([d' c] & -> & Hin).
    apply list_elem_of_In, List.filter_In in Hin as [Hin Hc].
    apply list_elem_of_In, elem_of_value_counts in Hin as [Hne ->].
    simpl in *. apply Nat.ltb_lt in Hc. now split.
  - intros [Hne Hlt].
    apply (list_elem_of_fmap_2 fst _ (d, length (rows_on d after))).
    apply list_elem_of_In, List.filter_In. split.
    + apply list_elem_of_In, elem_of_value_counts. now split.
    + simpl. now apply Nat.ltb_lt.
Qed.

Lemma NoDup_below (n : nat) (dates : list Z) : NoDup (below n (value_counts dates)).
Proof. apply NoDup_map_filter, NoDup_value_counts. Qed.

Lemma elem_of_difference_stations (s : string) (expected reporting : list string) :
  s ∈ difference expected reporting <-> s ∈ expected /\ s ∉ reporting.
Proof. unfold difference. set_solver. Qed.

(** C4, as worded, fails: the checker only prints.  It returns the same
    value for a table without gaps and for a table with gaps, so nothing
    can be collected from what it returns. *)
Lemma check_missing_returns_nothing :
  value (check_missing [] "Blue Line" []) = value (check_missing sample_after "Blue Line" []) /\
  stdout (check_missing [] "Blue Line" []) <> stdout (check_missing sample_after "Blue Line" []).
Proof.
  split; [reflexivity |].
  pose proof (check_missing_runs sample_after "Blue Line" (or_intror eq_refl) []) as E.
  rewrite E. simpl. discriminate.
Qed.

(** C4 (amended).  For a line whose name starts with 'Orange Line' or
    'Blue Line' the Completeness Checker prints one report for each date
    that has fewer rows than the line has stations and for no other date;
    the report of a date carries the expected stations without a row on
    that date.  It returns nothing, raises nothing and leaves the store as
    it was. *)
Theorem check_missing_report (after : daily_frame) (line : string) (σ : store) :
  startswith line "Orange Line" = true \/ startswith line "Blue Line" = true ->
  let stations := if startswith line "Orange Line" then OL_STATIONS else BL_STATIONS in
  let o := check_missing after line σ in
  value o = Ok tt /\ heap o = σ /\ NoDup (stdout o) /\
  (forall m, m ∈ stdout o <->
     exists d, d ∈ List.map dServiceDate after /\
       (length (rows_on d after) < length stations)%nat /\
       m = MissingValues line d
             (difference stations (List.map dStopName (rows_on d after)))) /\
  (forall s d, s ∈ difference stations (List.map dStopName (rows_on d after))
     <-> s ∈ stations /\ ~ exists r, r ∈ after /\ dServiceDate r = d /\ dStopName r = s).
Proof.
  intros Hline stations o. subst o.
  rewrite (check_missing_runs after line Hline σ). fold stations. simpl.
  split; [reflexivity | split; [reflexivity | split; [| split]]].
  - apply (NoDup_fmap_2_strong _ (below (length stations) _)); [| apply NoDup_below].
    intros d d' _ _ [= ->]. reflexivity.
  - intros m. split.
    + intros Hin. apply list_elem_of_fmap in Hin as (d & -> & Hin).
      apply elem_of_below in Hin as [Hd Hlt]. now exists d.
    + intros (d & Hd & Hlt & ->).
      apply list_elem_of_fmap. exists d. split; [reflexivity |].
      now apply elem_of_below.
  - intros s d. rewrite elem_of_difference_stations.
    split; intros [Hs Hn]; (split; [exact Hs |]).
    + intros (r & Hin & Hd & Hr). apply Hn.
      apply (list_elem_of_fmap_2' dStopName _ r); [| now symmetry].
      apply list_elem_of_In, List.filter_In. split; [now apply list_elem_of_In |].
      now apply Z.eqb_eq.
    + intros Hin. apply Hn.
      apply list_elem_of_fmap in Hin as (r & -> & Hin).
      apply list_elem_of_In, List.filter_In in Hin as [Hin Hd].
      exists r. split; [now apply list_elem_of_In |]. split; [now apply Z.eqb_eq | reflexivity].
Qed.

(** The hypotheses of [check_missing_report] hold of the sample table on
    the Blue Line. *)
Lemma check_missing_report_witness :
  (startswith "Blue Line" "Orange Line" = true \/ startswith "Blue Line" "Blue Line" = true) /\
  value (check_missing sample_after "Blue Line" []) = Ok tt.
Proof.
  split; [right; reflexivity |].
  apply (check_missing_report sample_after "Blue Line" []). right. reflexivity.
Defined.

Lemma check_missing_other_line_eq (after : daily_frame) (line : string) (σ : store) :
  startswith line "Orange Line" = false ->
  startswith line "Blue Line" = false ->
  check_missing after line σ = mkOutcome σ [] (Ok tt).
Proof.
  intros Ho Hb. unfold check_missing. rewrite Ho, Hb. reflexivity.
Qed.

(** C10.  For a line whose name starts with neither 'Orange Line' nor
    'Blue Line' the Completeness Checker prints no report, raises nothing
    and returns, whatever the table holds. *)
Theorem check_missing_other_line (after : daily_frame) (line : string) (σ : store) :
  startswith line "Orange Line" = false ->
  startswith line "Blue Line" = false ->
  check_missing after line σ = mkOutcome σ [] (Ok tt).
Proof. apply check_missing_other_line_eq. Qed.

Lemma check_missing_other_line_witness :
  startswith "Green Line" "Orange Line" = false /\
  startswith "Green Line" "Blue Line" = false /\
  check_missing sample_after "Green Line" [] = mkOutcome [] [] (Ok tt).
Proof.
  split; [reflexivity | split; [reflexivity |]].
  apply check_missing_other_line; reflexivity.
Defined.

(** ** Lists of cells *)

Lemma apply_Ok {A B} (f : A -> result B) (column : list A) (ys : list B) :
  apply f column = Ok ys <-> Forall2 (fun x y => f x = Ok y) column ys.
Proof.
  revert ys. induction column as [| x column IH]; intros ys; simpl.
  - split.
    + intros [= <-]. constructor.
    + intros Hf. inversion Hf. reflexivity.
  - destruct (f x) as [y |] eqn:Hx.
    + destruct (apply f column) as [ys' |] eqn:Hc.
      * split.
        -- intros [= <-]. constructor; [exact Hx | now apply IH].
        -- intros Hf. inversion Hf as [| ? y' ? ys'' Hy Hrest]; subst.
           apply IH in Hrest. congruence.
      * split; [discriminate |].
        intros Hf. inversion Hf as [| ? y' ? ys'' Hy Hrest]; subst.
        apply IH in Hrest. discriminate.
    + split; [discriminate |].
      intros Hf. inversion Hf; subst. congruence.
Qed.


Lemma apply_Raise {A B} (f : A -> result B) (column : list A) (x : A) :
  x ∈ column -> (forall y, f x <> Ok y) -> exists e, apply f column = Raise e.
Proof.
  intros Hin Hx. destruct (apply f column) as [ys |] eqn:Hc; [| eauto].
  apply apply_Ok in Hc. exfalso.
  apply list_elem_of_lookup in Hin as [i Hi].
  destruct (Forall2_lookup_l _ _ _ _ _ Hc Hi) as (y & _ & Hy).
  now apply (Hx y).
Qed.

Lemma combine_map {A B C} (f : A -> B) (g : A -> C) (l : list A) :
  combine (List.map f l) (List.map g l) = List.map (fun x => (f x, g x)) l.
Proof. induction l as [| x l IH]; simpl; [reflexivity | now rewrite IH]. Qed.

Lemma map_fst_combine {A B} (l : list A) (l' : list B) :
  length l = length l' -> List.map fst (combine l l') = l.
Proof.
  revert l'. induction l as [| x l IH]; intros [| y l'] Hlen; simpl in *;
    try discriminate; [reflexivity |].
  f_equal. apply IH. lia.
Qed.

Lemma map_snd_combine {A B} (l : list A) (l' : list B) :
  length l = length l' -> List.map snd (combine l l') = l'.
Proof.
  revert l'. induction l as [| x l IH]; intros [| y l'] Hlen; simpl in *;
    try discriminate; [reflexivity |].
  f_equal. apply IH. lia.
Qed.

(** ** The total row *)


Lemma lookup_row_set_row {A} (label : string) (row : A) (t : list (string * A)) :
  lookup_row label (set_row label row t) = Some row.
Proof.
  unfold lookup_row. induction t as [| [l a] t IH]; simpl.
  - now rewrite String.eqb_refl.
  - destruct (String.eqb l label) eqn:Hl; simpl; rewrite Hl; [reflexivity | exact IH].
Qed.

Lemma lookup_row_set_row_ne {A} (label l : string) (row : A) (t : list (string * A)) :
  l <> label -> lookup_row l (set_row label row t) = lookup_row l t.
Proof.
  intros Hne. unfold lookup_row. induction t as [| [l0 a] t IH]; simpl.
  - apply String.eqb_neq in Hne. rewrite String.eqb_sym in Hne. now rewrite Hne.
  - destruct (String.eqb l0 label) eqn:Hl; simpl.
    + apply String.eqb_eq in Hl. subst l0.
      apply String.eqb_neq in Hne. rewrite String.eqb_sym in Hne. now rewrite Hne.
    + destruct (String.eqb l0 l); [reflexivity | exact IH].
Qed.


Lemma elem_of_set_row_ne {A} (label l : string) (row a : A) (t : list (string * A)) :
  l <> label -> (l, a) ∈ t -> (l, a) ∈ set_row label row t.
Proof.
  intros Hne. induction t as [| [l0 a0] t IH]; simpl; intros Hin; [inversion Hin |].
  apply elem_of_cons in Hin as [[= <- <-] | Hin].
  - apply String.eqb_neq in Hne. rewrite Hne. left.
  - destruct (String.eqb l0 label); right; [exact Hin | now apply IH].
Qed.

Lemma keys_set_row {A} (label : string) (row : A) (t : list (string * A)) :
  List.map fst (set_row label row t)
  = if isin label (List.map fst t) then List.map fst t else List.map fst t ++ [label].
Proof.
  unfold isin. induction t as [| [l a] t IH]; simpl; [reflexivity |].
  rewrite (String.eqb_sym label l).
  destruct (String.eqb l label); simpl; [reflexivity |].
  rewrite IH. now destruct (existsb (String.eqb label) (List.map fst t)).
Qed.

(** ** Inversion of the monad *)

Lemma bind_Ok_inv {A B} (m : Py A) (k : A -> Py B) (σ : store) (b : B) :
  value (bind m k σ) = Ok b ->
  exists a, value (m σ) = Ok a /\ value (k a (heap (m σ))) = Ok b /\
            stdout (bind m k σ) = stdout (m σ) ++ stdout (k a (heap (m σ))).
Proof.
  unfold bind. cbv zeta. destruct (value (m σ)) as [a | e]; simpl; [| discriminate].
  intros Hk. exists a. now split.
Qed.

Lemma lift_Ok_inv {A} (r : result A) (σ : store) (a : A) :
  value (lift r σ) = Ok a -> r = Ok a.
Proof. destruct r; simpl; congruence. Qed.

Lemma item_Ok_inv {A} (l : list A) (i : nat) (σ : store) (a : A) :
  value (item l i σ) = Ok a -> l !! i = Some a.
Proof. unfold item. destruct (l !! i); simpl; congruence. Qed.

Lemma strftime_Ok_inv (t : option Z) (σ : store) (d : Z) :
  value (strftime t σ) = Ok d -> t = Some d.
Proof. destruct t; simpl; congruence. Qed.

(** ** Station Statistics: the table *)

Lemma pct_cell (a b c : Z) :
  astype_int (np_round (times (true_divide (a - b) b) 100)) = Ok c
  <-> b <> 0 /\ c = pct_change b a.
Proof.
  unfold true_divide, pct_change. destruct (Z.eqb_spec b 0) as [-> | Hb].
  - split; [| intros [Hb _]; contradiction].
    destruct (a - 0 =? 0); [discriminate |]. destruct (0 <? a - 0); discriminate.
  - cbn [times np_round astype_int]. rewrite Qfloor_Z. split.
    + intros [= <-]. now split.
    + intros [_ ->]. reflexivity.
Qed.

Lemma apply_map_inv {A B C} (f : B -> result C) (g : A -> B) (h : A -> C)
    (P : A -> Prop) (l : list A) (ys : list C) :
  (forall x c, f (g x) = Ok c -> P x /\ c = h x) ->
  apply f (List.map g l) = Ok ys -> Forall P l /\ ys = List.map h l.
Proof.
  intros Hf. revert ys. induction l as [| x l IH]; intros ys; simpl.
  - intros [= <-]. split; [constructor | reflexivity].
  - destruct (f (g x)) as [c |] eqn:Hx; [| discriminate].
    destruct (apply f (List.map g l)) as [ys' |]; [| discriminate].
    intros [= <-]. destruct (Hf x c Hx) as [HP ->].
    destruct (IH ys' eq_refl) as [HF ->]. split; [now constructor | reflexivity].
Qed.

Lemma total_label_items (line first_word second_word : string) :
  split line !! 0%nat = Some first_word -> split line !! 1%nat = Some second_word ->
  total_label line = Some ((upper first_word +:+ " " +:+ upper second_word) +:+ " TOTAL").
Proof.
  unfold total_label. destruct (split line) as [| w0 [| w1 ws]]; simpl; try discriminate.
  now intros [= ->] [= ->].
Qed.

(** What a table that [full_df] returns is made of. *)
Lemma full_df_Ok_inv (before after : daily_frame) (line : string) (σ : store)
    (t : list (string * StatRow)) :
  value (full_df before after line σ) = Ok t ->
  exists T BC AC,
    total_label line = Some T /\
    apply (fun x => py_int (np_round x))
      (List.map (fun r => fst (snd r)) (concat (station_means before) (station_means after)))
    = Ok BC /\
    apply (fun x => py_int (np_round x))
      (List.map (fun r => snd (snd r)) (concat (station_means before) (station_means after)))
    = Ok AC /\
    Forall (fun r : string * (Z * Z) => fst (snd r) <> 0)
      (set_row T (Zsum BC, Zsum AC)
         (combine (List.map fst (concat (station_means before) (station_means after)))
            (combine BC AC))) /\
    t = List.map (fun r => (fst r, stat_row (snd r)))
          (set_row T (Zsum BC, Zsum AC)
             (combine (List.map fst (concat (station_means before) (station_means after)))
                (combine BC AC))).
Proof.
  intros H. unfold full_df in H. cbv zeta in H.
  apply bind_Ok_inv in H as (BC & HBC & H & _).
  apply lift_Ok_inv in HBC. rewrite (store_free_heap _ σ (store_free_lift _)) in H.
  apply bind_Ok_inv in H as (AC & HAC & H & _).
  apply lift_Ok_inv in HAC. rewrite (store_free_heap _ σ (store_free_lift _)) in H.
  apply bind_Ok_inv in H as (w0 & Hw0 & H & _).
  apply item_Ok_inv in Hw0. rewrite (store_free_heap _ σ (store_free_item _ _)) in H.
  apply bind_Ok_inv in H as (w1 & Hw1 & H & _).
  apply item_Ok_inv in Hw1. rewrite (store_free_heap _ σ (store_free_item _ _)) in H.
  apply bind_Ok_inv in H as (change & Hchange & H & _).
  apply lift_Ok_inv in Hchange.
  rewrite (store_free_heap _ σ (store_free_lift _)) in H.
  exists ((upper w0 +:+ " " +:+ upper w1) +:+ " TOTAL"), BC, AC.
  split; [now apply total_label_items |]. split; [exact HBC |]. split; [exact HAC |].
  set (rows := set_row _ _ _) in *.
  apply (apply_map_inv _ _ (fun r => pct_change (fst (snd r)) (snd (snd r)))
           (fun r => fst (snd r) <> 0)) in Hchange as [Hnz ->].
  2:{ intros [l [b a]] c Hc. simpl in *. apply pct_cell in Hc as [Hb ->]. now split. }
  split; [exact Hnz |].
  simpl in H. injection H as <-.
  rewrite List.map_map, !combine_map, List.map_map, combine_map.
  apply List.map_ext. now intros [l [b a]].
Qed.

Lemma lookup_row_alookup {A} (l : string) (t : list (string * A)) :
  lookup_row l t = alookup l t.
Proof.
  unfold lookup_row. induction t as [| [l0 a] t IH]; simpl; [reflexivity |].
  destruct (String.eqb_spec l0 l) as [-> | Hne].
  - now rewrite decide_True.
  - rewrite decide_False by congruence. exact IH.
Qed.

Lemma alookup_map {K A B} `{EqDecision K} (f : A -> B) (k : K) (l : list (K * A)) :
  alookup k (List.map (fun g => (fst g, f (snd g))) l) = f <$> alookup k l.
Proof.
  induction l as [| [k0 a] l IH]; simpl; [reflexivity |].
  destruct (decide (k = k0)); [reflexivity | exact IH].
Qed.

(** The cell of a station in a column of means is the mean of the
    station's rows in that window, NaN when it has none. *)
Lemma cell_station_means (s : string) (w : daily_frame) :
  cell s (station_means w) = window_mean s w.
Proof.
  unfold cell, station_means, window_mean.
  rewrite lookup_row_alookup, alookup_map, alookup_groupby.
  now destruct (values_of s _).
Qed.

Lemma isin_elem_of (x : string) (l : list string) : isin x l = true <-> x ∈ l.
Proof.
  unfold isin. rewrite existsb_exists, list_elem_of_In. split.
  - intros (y & Hy & Heq). apply String.eqb_eq in Heq. now subst.
  - intros Hin. exists x. split; [exact Hin | apply String.eqb_refl].
Qed.

Lemma keys_station_means (s : string) (w : daily_frame) :
  s ∈ List.map fst (station_means w) <-> s ∈ List.map dStopName w.
Proof.
  unfold station_means. rewrite List.map_map. simpl.
  change (List.map (fun x : string * list Z => fst x)) with (@List.map (string * list Z) _ fst).
  rewrite keys_groupby, List.map_map. reflexivity.
Qed.

Lemma NoDup_station_means (w : daily_frame) : NoDup (List.map fst (station_means w)).
Proof.
  unfold station_means. rewrite List.map_map. simpl.
  change (List.map (fun x : string * list Z => fst x)) with (@List.map (string * list Z) _ fst).
  apply NoDup_keys_groupby.
Qed.

Lemma labels_concat (bc ac : list (string * float64)) :
  List.map fst (concat bc ac)
  = List.map fst bc
    ++ List.filter (fun l => negb (isin l (List.map fst bc))) (List.map fst ac).
Proof. unfold concat. rewrite List.map_map. simpl. apply List.map_id. Qed.

Lemma elem_of_labels_concat (s : string) (bc ac : list (string * float64)) :
  s ∈ List.map fst (concat bc ac) <-> s ∈ List.map fst bc \/ s ∈ List.map fst ac.
Proof.
  rewrite labels_concat, elem_of_app. split.
  - intros [Hin | Hin]; [now left | right].
    now apply list_elem_of_In, List.filter_In in Hin as [Hin%list_elem_of_In _].
  - intros [Hin | Hin]; [now left |].
    destruct (isin s (List.map fst bc)) eqn:Hs.
    + left. now apply isin_elem_of.
    + right. apply list_elem_of_In, List.filter_In. split; [now apply list_elem_of_In |].
      now rewrite Hs.
Qed.

Lemma NoDup_labels_concat (bc ac : list (string * float64)) :
  NoDup (List.map fst bc) -> NoDup (List.map fst ac) -> NoDup (List.map fst (concat bc ac)).
Proof.
  intros Hbc Hac. rewrite labels_concat. apply NoDup_app. split; [exact Hbc | split].
  - intros s Hs Hs'. apply list_elem_of_In, List.filter_In in Hs' as [_ Hn].
    apply isin_elem_of in Hs. now rewrite Hs in Hn.
  - rewrite <- (List.map_id (List.filter _ _)). apply NoDup_map_filter.
    now rewrite List.map_id.
Qed.

Lemma columns_concat (bc ac : list (string * float64)) :
  List.map (fun r => fst (snd r)) (concat bc ac)
  = List.map (fun l => cell l bc) (List.map fst (concat bc ac)) /\
  List.map (fun r => snd (snd r)) (concat bc ac)
  = List.map (fun l => cell l ac) (List.map fst (concat bc ac)).
Proof.
  unfold concat. rewrite !List.map_map. simpl. now split.
Qed.

(** A station whose rounded mean exists has rows in the window. *)
Lemma rounded_mean_Ok (s : string) (w : daily_frame) (n : Z) :
  rounded_mean s w = Ok n -> s ∈ List.map dStopName w.
Proof.
  unfold rounded_mean, window_mean. intros Hn.
  rewrite <- (List.map_map (fun r => (dStopName r, dTotalEntries r)) fst).
  apply values_of_nonempty. intros Hnil. rewrite Hnil in Hn. discriminate.
Qed.

Lemma rounded_mean_is_Ok (s : string) (w : daily_frame) :
  s ∈ List.map dStopName w -> exists n, rounded_mean s w = Ok n.
Proof.
  rewrite <- (List.map_map (fun r => (dStopName r, dTotalEntries r)) fst).
  intros Hin%values_of_nonempty. unfold rounded_mean, window_mean.
  destruct (values_of s _); [contradiction |]. simpl. eauto.
Qed.

Lemma Forall2_combine3 {A B C} (R1 : A -> B -> Prop) (R2 : A -> C -> Prop)
    (l : list A) (bs : list B) (cs : list C) :
  Forall2 R1 l bs -> Forall2 R2 l cs ->
  Forall (fun r => R1 (fst r) (fst (snd r)) /\ R2 (fst r) (snd (snd r)))
    (combine l (combine bs cs)).
Proof.
  intros H1. revert cs. induction H1 as [| x b l bs Hx H1 IH]; intros cs H2.
  - constructor.
  - inversion H2 as [| ? c ? cs' Hc H2']; subst. simpl.
    constructor; [now split | now apply IH].
Qed.


(** The per-station part of the table: one row for each station of the
    data, holding its rounded means. *)
Lemma station_rows (before after : daily_frame) (BC AC : list Z) :
  apply (fun x => py_int (np_round x))
    (List.map (fun r => fst (snd r)) (concat (station_means before) (station_means after)))
  = Ok BC ->
  apply (fun x => py_int (np_round x))
    (List.map (fun r => snd (snd r)) (concat (station_means before) (station_means after)))
  = Ok AC ->
  let labels := List.map fst (concat (station_means before) (station_means after)) in
  let rows := combine labels (combine BC AC) in
  List.map fst rows = labels /\
  List.map (fun r => fst (snd r)) rows = BC /\
  List.map (fun r => snd (snd r)) rows = AC /\
  NoDup labels /\
  (forall s, s ∈ labels <-> s ∈ List.map dStopName before) /\
  (forall s, s ∈ labels <-> s ∈ List.map dStopName after) /\
  Forall (fun r => rounded_mean (fst r) before = Ok (fst (snd r)) /\
                   rounded_mean (fst r) after = Ok (snd (snd r))) rows.
Proof.
  intros HBC HAC labels rows.
  destruct (columns_concat (station_means before) (station_means after)) as [Eb Ea].
  rewrite Eb in HBC. rewrite Ea in HAC. fold labels in HBC, HAC.
  apply apply_Ok, Forall2_fmap_l in HBC. apply apply_Ok, Forall2_fmap_l in HAC.
  pose proof (Forall2_length _ _ _ HBC) as Lb.
  pose proof (Forall2_length _ _ _ HAC) as La.
  assert (Hrows : Forall (fun r => rounded_mean (fst r) before = Ok (fst (snd r)) /\
                                   rounded_mean (fst r) after = Ok (snd (snd r))) rows).
  { apply (Forall2_combine3 (fun s b => rounded_mean s before = Ok b)
                              (fun s a => rounded_mean s after = Ok a)).
    - eapply Forall2_impl; [exact HBC |]. intros s b. simpl.
      now rewrite cell_station_means.
    - eapply Forall2_impl; [exact HAC |]. intros s a. simpl.
      now rewrite cell_station_means. }
  assert (Hfst : List.map fst rows = labels).
  { apply map_fst_combine. rewrite length_combine. lia. }
  assert (Hsnd : List.map snd rows = combine BC AC).
  { apply map_snd_combine. rewrite length_combine. lia. }
  assert (Hall : forall s, s ∈ labels ->
            s ∈ List.map dStopName before /\ s ∈ List.map dStopName after).
  { intros s Hs. rewrite <- Hfst in Hs.
    apply list_elem_of_fmap in Hs as ([s' [b a]] & -> & Hin).
    rewrite Forall_forall in Hrows. destruct (Hrows _ Hin) as [Hb Ha]. simpl in *.
    split; eapply rounded_mean_Ok; eassumption. }
  split; [exact Hfst |]. split; [| split; [| split; [| split; [| split]]]].
  - rewrite <- (List.map_map snd fst), Hsnd. apply map_fst_combine. lia.
  - rewrite <- (List.map_map snd snd), Hsnd. apply map_snd_combine. lia.
  - apply NoDup_labels_concat; apply NoDup_station_means.
  - intros s. split; [intros Hs; now apply Hall |].
    intros Hs. apply elem_of_labels_concat. left. now apply keys_station_means.
  - intros s. split; [intros Hs; now apply Hall |].
    intros Hs. apply elem_of_labels_concat. right. now apply keys_station_means.
  - exact Hrows.
Qed.

(** ** Station Statistics: the run *)

Lemma raises_bind_l {A B} (m : Py A) (k : A -> Py B) : raises m -> raises (bind m k).
Proof. intros (out & e & Hm). exists out, e. now apply runs_as_bind_raise. Qed.

Lemma raises_bind_r {A B} (m : Py A) (k : A -> Py B) out a :
  runs_as m out (Ok a) -> raises (k a) -> raises (bind m k).
Proof.
  intros Hm (out' & e & Hk). exists (out ++ out'), e.
  eapply runs_as_bind_ok; eassumption.
Qed.

Lemma raises_raise {A} (e : exn) : raises (@raise A e).
Proof. exists [], e. apply runs_as_raise. Qed.

Lemma raises_not_Ok {A} (m : Py A) (σ : store) (a : A) :
  raises m -> value (m σ) <> Ok a.
Proof. intros (out & e & Hm). rewrite Hm. discriminate. Qed.

Lemma check_missing_Ok (after : daily_frame) (line : string) :
  exists out, runs_as (check_missing after line) out (Ok tt).
Proof.
  destruct (startswith line "Orange Line") eqn:Ho.
  - eexists. apply check_missing_runs. now left.
  - destruct (startswith line "Blue Line") eqn:Hb.
    + eexists. apply check_missing_runs. now right.
    + exists []. intros σ. now apply check_missing_other_line_eq.
Qed.

Lemma quiet_bind {A B} (m : Py A) (k : A -> Py B) :
  (exists v, runs_as m [] v) -> (forall a, exists v, runs_as (k a) [] v) ->
  exists v, runs_as (bind m k) [] v.
Proof.
  intros [[a | e] Hm] Hk.
  - destruct (Hk a) as [v Hka]. exists v.
    apply (runs_as_bind_ok _ _ [] a []); assumption.
  - exists (Raise e). now apply runs_as_bind_raise.
Qed.

(** [full_df] prints nothing and leaves the store alone. *)
Lemma full_df_quiet (before after : daily_frame) (line : string) :
  exists v, runs_as (full_df before after line) [] v.
Proof.
  unfold full_df. cbv zeta.
  repeat (apply quiet_bind;
          [ first [ eexists; apply runs_as_lift
                  | unfold item; destruct (_ !! _); eexists;
                    [apply runs_as_ret | apply runs_as_raise] ]
          | intros ? ]).
  eexists. apply runs_as_ret.
Qed.


(** Either every step of [station_stats] succeeds and the table is
    printed, or the run stops with an exception. *)
Lemma station_stats_cases (df : daily_frame) (line : string) :
  (exists out d1 d2 d3 d4 t,
     runs_as (full_df (before_window df) (after_window df) line) [] (Ok t) /\
     runs_as (check_missing (after_window df) line) out (Ok tt) /\
     runs_as (station_stats df line)
       (out ++ [StationHeading (upper line); DatesBefore d1 d2; DatesAfter d3 d4;
                ShowTable (displayed line t); Rule])
       (Ok tt))
  \/ raises (station_stats df line).
Proof.
  unfold station_stats. cbv zeta.
  change (List.filter (fun r => date_isin (dServiceDate r) BC_SUMNER) df)
    with (before_window df).
  change (List.filter (fun r => date_isin (dServiceDate r) AC_SUMNER) df)
    with (after_window df).
  destruct (check_missing_Ok (after_window df) line) as [out Hcm].
  destruct (min_date (List.map dServiceDate (before_window df))) as [d1 |];
    [| right; eapply raises_bind_r; [exact Hcm |]; apply raises_bind_l, raises_raise].
  destruct (max_date (List.map dServiceDate (before_window df))) as [d2 |];
    [| right; eapply raises_bind_r; [exact Hcm |];
       eapply raises_bind_r; [apply runs_as_ret |]; apply raises_bind_l, raises_raise].
  destruct (min_date (List.map dServiceDate (after_window df))) as [d3 |];
    [| right; eapply raises_bind_r; [exact Hcm |];
       eapply raises_bind_r; [apply runs_as_ret |];
       eapply raises_bind_r; [apply runs_as_ret |]; apply raises_bind_l, raises_raise].
  destruct (max_date (List.map dServiceDate (after_window df))) as [d4 |];
    [| right; eapply raises_bind_r; [exact Hcm |];
       eapply raises_bind_r; [apply runs_as_ret |];
       eapply raises_bind_r; [apply runs_as_ret |];
       eapply raises_bind_r; [apply runs_as_ret |]; apply raises_bind_l, raises_raise].
  destruct (full_df_quiet (before_window df) (after_window df) line) as [[t | e] Hfull].
  - left. exists out, d1, d2, d3, d4, t. split; [exact Hfull | split; [exact Hcm |]].
    eapply runs_as_bind_ok; [exact Hcm |].
    apply (runs_as_bind_ok _ _ [] d1); [apply runs_as_ret |].
    apply (runs_as_bind_ok _ _ [] d2); [apply runs_as_ret |].
    apply (runs_as_bind_ok _ _ [] d3); [apply runs_as_ret |].
    apply (runs_as_bind_ok _ _ [] d4); [apply runs_as_ret |].
    apply (runs_as_bind_ok _ _ [] t); [exact Hfull |].
    apply (runs_as_bind_ok _ _ [_] tt [_; _; _; _]); [apply runs_as_print |].
    apply (runs_as_bind_ok _ _ [_] tt [_; _; _]); [apply runs_as_print |].
    apply (runs_as_bind_ok _ _ [_] tt [_; _]); [apply runs_as_print |].
    apply (runs_as_bind_ok _ _ [_] tt [_]); [apply runs_as_print |].
    apply runs_as_print.
  - right. eapply raises_bind_r; [exact Hcm |].
    eapply raises_bind_r; [apply runs_as_ret |].
    eapply raises_bind_r; [apply runs_as_ret |].
    eapply raises_bind_r; [apply runs_as_ret |].
    eapply raises_bind_r; [apply runs_as_ret |].
    apply raises_bind_l. eexists _, _. exact Hfull.
Qed.

(** What a successful run of [station_stats] printed. *)
Lemma station_stats_Ok_inv (df : daily_frame) (line : string) (σ : store) :
  value (station_stats df line σ) = Ok tt ->
  exists out d1 d2 d3 d4 t,
    value (full_df (before_window df) (after_window df) line σ) = Ok t /\
    stdout (check_missing (after_window df) line σ) = out /\
    stdout (station_stats df line σ)
    = out ++ [StationHeading (upper line); DatesBefore d1 d2; DatesAfter d3 d4;
              ShowTable (displayed line t); Rule].
Proof.
  intros H. destruct (station_stats_cases df line) as [Hok | Hraise].
  - destruct Hok as (out & d1 & d2 & d3 & d4 & t & Hfull & Hcm & Hrun).
    exists out, d1, d2, d3, d4, t. now rewrite Hfull, Hcm, Hrun.
  - now apply (raises_not_Ok _ σ tt) in Hraise.
Qed.

(** ** Line Statistics *)

Lemma fold_left_max_in (l : list Z) (d : Z) : fold_left Z.max l d ∈ d :: l.
Proof.
  revert d. induction l as [| x l IH]; intros d; simpl; [left |].
  specialize (IH (Z.max d x)).
  apply elem_of_cons in IH as [-> | IH].
  - destruct (Z.max_spec d x) as [[_ ->] | [_ ->]]; [right; left | left].
  - right. now right.
Qed.

Lemma max_date_in (l : list Z) : l <> [] -> exists m, max_date l = Some m /\ m ∈ l.
Proof.
  destruct l as [| d l]; [congruence |]. intros _.
  exists (fold_left Z.max l d). split; [reflexivity | apply fold_left_max_in].
Qed.

(** With a zero baseline the quotient is not a number, and [int] refuses
    it. *)
Lemma percent_of_zero_baseline (d : Z) :
  py_int (np_round (times (true_divide d 0) 100)) = Raise OverflowError \/
  py_int (np_round (times (true_divide d 0) 100)) = Raise ValueError.
Proof.
  unfold true_divide. simpl.
  destruct (d =? 0); [now right |]. destruct (0 <? d); now left.
Qed.

Lemma overall_stats_zero_baseline (df : daily_frame) (line : string) :
  average_before df = Ok 0 ->
  exists d n e,
    runs_as (overall_stats df line)
      [MostRecentDay line d n; AverageBefore line 0] (Raise e) /\
    (e = OverflowError \/ e = ValueError).
Proof.
  unfold average_before. intros Havg.
  assert (Hne : per_day df <> []).
  { intros Hnil. rewrite Hnil in Havg. discriminate. }
  destruct (max_date_in (List.map fst (per_day df))) as (m & Hmax & Hm).
  { intros Hnil. apply Hne. now apply map_eq_nil in Hnil. }
  apply list_elem_of_fmap in Hm as ([d n] & -> & Hin). simpl in Hmax.
  assert (Hf : exists n' rest,
             List.map snd (List.filter (fun r => bool_decide (Some (fst r) = Some d))
                                       (per_day df)) = n' :: rest).
  { destruct (List.filter (fun r : Z * Z => bool_decide (Some (fst r) = Some d)) (per_day df))
      as [| [d' n'] rest] eqn:Hfil.
    - exfalso. apply list_elem_of_In in Hin.
      assert (Hd : In (d, n) []); [| destruct Hd].
      rewrite <- Hfil. apply List.filter_In. split; [exact Hin |].
      now apply bool_decide_eq_true_2.
    - simpl. eauto. }
  destruct Hf as (n' & rest & Hf).
  destruct (percent_of_zero_baseline (n' - 0)) as [He | He].
  - exists d, n', OverflowError. split; [| now left].
    unfold overall_stats. cbv zeta. rewrite Hmax, Hf.
    apply (runs_as_bind_ok _ _ [] n' [_; _]); [apply runs_as_ret |].
    apply (runs_as_bind_ok _ _ [] d [_; _]); [apply runs_as_ret |].
    apply (runs_as_bind_ok _ _ [_] tt [_]); [apply runs_as_print |].
    rewrite Havg.
    apply (runs_as_bind_ok _ _ [] 0 [_]); [apply runs_as_ret |].
    apply (runs_as_bind_ok _ _ [_] tt []); [apply runs_as_print |].
    rewrite He. apply runs_as_bind_raise, runs_as_raise.
  - exists d, n', ValueError. split; [| now right].
    unfold overall_stats. cbv zeta. rewrite Hmax, Hf.
    apply (runs_as_bind_ok _ _ [] n' [_; _]); [apply runs_as_ret |].
    apply (runs_as_bind_ok _ _ [] d [_; _]); [apply runs_as_ret |].
    apply (runs_as_bind_ok _ _ [_] tt [_]); [apply runs_as_print |].
    rewrite Havg.
    apply (runs_as_bind_ok _ _ [] 0 [_]); [apply runs_as_ret |].
    apply (runs_as_bind_ok _ _ [_] tt []); [apply runs_as_print |].
    rewrite He. apply runs_as_bind_raise, runs_as_raise.
Qed.

Lemma store_free_overall_stats (df : daily_frame) (line : string) :
  store_free (overall_stats df line).
Proof. unfold overall_stats. cbv zeta. store_free. Qed.

Lemma store_free_full_df (before after : daily_frame) (line : string) :
  store_free (full_df before after line).
Proof. destruct (full_df_quiet before after line) as [v Hv]. now exists [], v. Qed.

Lemma store_free_station_stats (df : daily_frame) (line : string) :
  store_free (station_stats df line).
Proof.
  destruct (station_stats_cases df line)
    as [(out & d1 & d2 & d3 & d4 & t & _ & _ & Hrun) | (out & e & Hrun)];
    eexists _, _; exact Hrun.
Qed.

(** ** Station Statistics: the rows of the table *)








(** ** Station Statistics: when the run succeeds *)

Lemma apply_total {A B} (f : A -> result B) (column : list A) :
  (forall x, x ∈ column -> exists y, f x = Ok y) -> exists ys, apply f column = Ok ys.
Proof.
  induction column as [| x column IH]; intros Hc; simpl; [eauto |].
  destruct (Hc x) as [y Hy]; [left |]. rewrite Hy.
  destruct IH as [ys Hys]; [intros z Hz; apply Hc; now right |].
  rewrite Hys. eauto.
Qed.









Lemma max_date_is_Some (l : list Z) : l <> [] -> exists d, max_date l = Some d.
Proof. destruct l; [congruence | simpl; eauto]. Qed.

Lemma total_label_split (line T : string) :
  total_label line = Some T ->
  exists w0 w1 ws, split line = w0 :: w1 :: ws /\
                   T = (upper w0 +:+ " " +:+ upper w1) +:+ " TOTAL".
Proof.
  unfold total_label. destruct (split line) as [| w0 [| w1 ws]]; try discriminate.
  intros [= <-]. eauto.
Qed.



(** ** Station Statistics: the displayed table *)







(** ** The whole run *)

Lemma bind_run {A B} (m : Py A) (k : A -> Py B) (σ σ' : store) out a :
  m σ = mkOutcome σ' out (Ok a) ->
  bind m k σ = mkOutcome (heap (k a σ')) (out ++ stdout (k a σ')) (value (k a σ')).
Proof. intros Hm. unfold bind. cbv zeta. now rewrite Hm. Qed.

Lemma orange_call (σ : store) (o : loc) (wk : bool) :
  exists σ' r,
    get_line_entries o "Orange Line" wk σ = mkOutcome σ' [] (Ok r) /\
    (length σ <= r < length σ')%nat /\
    (forall l, (l < length σ)%nat -> rows_of σ' l = rows_of σ l) /\
    rows_of σ' r = cleaned (Some OL_STATIONS) OL_SHARED "Orange Line" wk (rows_of σ o).
Proof.
  destruct (get_line_entries_orange σ o wk) as (extra & r & E & Hr & Hrows).
  exists (σ ++ extra), r. split; [exact E |]. split; [rewrite length_app; lia |].
  split; [| exact Hrows]. intros l Hl. now apply rows_of_app_l.
Qed.

Lemma blue_call (σ : store) (b : loc) (wk : bool) :
  exists σ' r,
    get_line_entries b "Blue Line" wk σ = mkOutcome σ' [] (Ok r) /\
    (length σ <= r < length σ')%nat /\
    (forall l, (l < length σ)%nat -> l <> b -> rows_of σ' l = rows_of σ l) /\
    ((b < length σ)%nat -> rows_of σ' b = relabel BL_SHARED "Blue Line" (rows_of σ b)) /\
    rows_of σ' r = cleaned None BL_SHARED "Blue Line" wk (rows_of σ b).
Proof.
  destruct (get_line_entries_blue σ b wk) as (extra & r & E & Hr & Hrows).
  eexists _, r. split; [exact E |].
  split; [rewrite length_app, length_insert; lia |].
  split; [| split; [| exact Hrows]].
  - intros l Hl Hne. rewrite rows_of_app_l by (rewrite length_insert; lia).
    now apply rows_of_insert_ne.
  - intros Hb. rewrite rows_of_app_l by (rewrite length_insert; lia).
    apply rows_of_insert. now left.
Qed.

Lemma kept_relabel_row scope shared line wk (r : RidershipRecord) :
  let r' := if isin (StopName r) shared then set_RouteOrLine line r else r in
  kept scope shared line wk r' = kept scope shared line wk r /\
  set_RouteOrLine line r' = set_RouteOrLine line r.
Proof.
  destruct (isin (StopName r) shared) eqn:Hs; cbv zeta; [| now split].
  unfold kept. cbn [StopName RouteOrLine day set_RouteOrLine].
  rewrite Hs. cbn [orb]. now split.
Qed.

(** Relabelling the assigned stops does not change what the filter
    keeps. *)
Lemma cleaned_relabel (scope : option (list string)) (shared : list string)
    (line : string) (wk : bool) (f : frame) :
  cleaned scope shared line wk (relabel shared line f) = cleaned scope shared line wk f.
Proof.
  unfold cleaned, relabel. induction f as [| r f IH]; [reflexivity |].
  destruct (kept_relabel_row scope shared line wk r) as [Hk Hset].
  cbn [List.map List.filter]. rewrite Hk.
  destruct (kept scope shared line wk r); [| exact IH].
  cbn [List.map]. now rewrite Hset, IH.
Qed.

Lemma relabel_relabel (shared : list string) (line : string) (f : frame) :
  relabel shared line (relabel shared line f) = relabel shared line f.
Proof.
  unfold relabel. rewrite List.map_map. apply List.map_ext. intros r.
  destruct (isin (StopName r) shared) eqn:Hs; simpl; now rewrite Hs.
Qed.

Lemma store_free_reports (a b c d : daily_frame) : store_free (reports a b c d).
Proof.
  unfold reports.
  repeat (apply store_free_bind;
          [first [apply store_free_overall_stats | apply store_free_station_stats] | intros _]).
  apply store_free_ret.
Qed.

Lemma aggregate_run (r1 r2 r3 r4 : loc) (σ : store) :
  aggregate r1 r2 r3 r4 σ
  = reports (daily_ridership (rows_of σ r1)) (daily_ridership (rows_of σ r2))
      (daily_ridership (rows_of σ r3)) (daily_ridership (rows_of σ r4)) σ.
Proof.
  unfold aggregate.
  rewrite (bind_run _ _ σ σ [] (daily_ridership (rows_of σ r1)) eq_refl).
  rewrite (bind_run _ _ σ σ [] (daily_ridership (rows_of σ r2)) eq_refl).
  rewrite (bind_run _ _ σ σ [] (daily_ridership (rows_of σ r3)) eq_refl).
  rewrite (bind_run _ _ σ σ [] (daily_ridership (rows_of σ r4)) eq_refl).
  simpl. now destruct (reports _ _ _ _ σ).
Qed.

Lemma Main_aggregate (orange_df blue_df : loc) :
  Main orange_df blue_df
  = (let* ol_cleaned := get_line_entries orange_df "Orange Line" false in
     let* bl_cleaned := get_line_entries blue_df "Blue Line" false in
     let* ol_weekdays_cleaned := get_line_entries orange_df "Orange Line" true in
     let* bl_weekdays_cleaned := get_line_entries blue_df "Blue Line" true in
     aggregate ol_cleaned bl_cleaned ol_weekdays_cleaned bl_weekdays_cleaned).
Proof. reflexivity. Qed.

(** The run of [Main] on two distinct tables of the store: what is printed
    and returned depends on the rows of the two tables only; the Orange
    Line table is left as it was, the Blue Line table is left relabelled. *)
Lemma Main_run (σ : store) (o b : loc) :
  (o < length σ)%nat -> (b < length σ)%nat -> o <> b ->
  stdout (Main o b σ) = stdout (Main_reports (rows_of σ o) (rows_of σ b) []) /\
  value (Main o b σ) = value (Main_reports (rows_of σ o) (rows_of σ b) []) /\
  (length σ <= length (heap (Main o b σ)))%nat /\
  rows_of (heap (Main o b σ)) o = rows_of σ o /\
  rows_of (heap (Main o b σ)) b = relabel BL_SHARED "Blue Line" (rows_of σ b).
Proof.
  intros Ho Hb Hne.
  destruct (orange_call σ o false) as (σ1 & r1 & E1 & Hr1 & Hk1 & Hrows1).
  destruct (blue_call σ1 b false) as (σ2 & r2 & E2 & Hr2 & Hk2 & Hb2 & Hrows2).
  destruct (orange_call σ2 o true) as (σ3 & r3 & E3 & Hr3 & Hk3 & Hrows3).
  destruct (blue_call σ3 b true) as (σ4 & r4 & E4 & Hr4 & Hk4 & Hb4 & Hrows4).
  rewrite Main_aggregate.
  rewrite (bind_run _ _ σ σ1 [] r1 E1), (bind_run _ _ σ1 σ2 [] r2 E2),
    (bind_run _ _ σ2 σ3 [] r3 E3), (bind_run _ _ σ3 σ4 [] r4 E4).
  cbn [heap stdout value app]. rewrite aggregate_run.
  assert (R1 : rows_of σ4 r1
               = cleaned (Some OL_STATIONS) OL_SHARED "Orange Line" false (rows_of σ o)).
  { rewrite Hk4, Hk3, Hk2 by lia. exact Hrows1. }
  assert (R2 : rows_of σ4 r2 = cleaned None BL_SHARED "Blue Line" false (rows_of σ b)).
  { rewrite Hk4, Hk3 by lia. rewrite Hrows2. now rewrite Hk1 by lia. }
  assert (R3 : rows_of σ4 r3
               = cleaned (Some OL_STATIONS) OL_SHARED "Orange Line" true (rows_of σ o)).
  { rewrite Hk4 by lia. rewrite Hrows3. rewrite Hk2, Hk1 by lia. reflexivity. }
  assert (R4 : rows_of σ4 r4 = cleaned None BL_SHARED "Blue Line" true (rows_of σ b)).
  { rewrite Hrows4. rewrite Hk3 by lia. rewrite Hb2 by lia. rewrite Hk1 by lia.
    apply cleaned_relabel. }
  rewrite R1, R2, R3, R4. fold (Main_reports (rows_of σ o) (rows_of σ b)).
  pose proof (store_free_reports
    (daily_ridership (cleaned (Some OL_STATIONS) OL_SHARED "Orange Line" false (rows_of σ o)))
    (daily_ridership (cleaned None BL_SHARED "Blue Line" false (rows_of σ b)))
    (daily_ridership (cleaned (Some OL_STATIONS) OL_SHARED "Orange Line" true (rows_of σ o)))
    (daily_ridership (cleaned None BL_SHARED "Blue Line" true (rows_of σ b)))) as Hfree.
  fold (Main_reports (rows_of σ o) (rows_of σ b)) in Hfree.
  destruct (store_free_same _ σ4 [] Hfree) as [Hout Hval].
  rewrite (store_free_heap _ σ4 Hfree).
  split; [exact Hout |]. split; [exact Hval |]. split; [lia |]. split.
  - rewrite Hk4, Hk3, Hk2 by lia. now apply Hk1.
  - rewrite Hb4 by lia. rewrite Hk3 by lia. rewrite Hb2 by lia. rewrite Hk1 by lia.
    apply relabel_relabel.
Qed.




(** * Further properties of the code *)

(** ** Record Filter *)

(** The call on a known line, whatever the line. *)
Lemma known_call (σ : store) (df : loc) (line : string) (wk : bool) :
  known_line line ->
  exists σ' r,
    get_line_entries df line wk σ = mkOutcome σ' [] (Ok r) /\
    (length σ <= r < length σ')%nat /\
    (forall l, (l < length σ)%nat -> l <> df -> rows_of σ' l = rows_of σ l) /\
    rows_of σ' r = filtered line wk (rows_of σ df).
Proof.
  intros [-> | ->].
  - destruct (blue_call σ df wk) as (σ' & r & E & Hr & Hk & _ & Hrows).
    exists σ', r. now repeat split.
  - destruct (orange_call σ df wk) as (σ' & r & E & Hr & Hk & Hrows).
    exists σ', r. repeat split; try assumption; try lia.
    intros l Hl _. now apply Hk.
Qed.

Lemma elem_of_cleaned scope shared line wk (f : frame) (x : RidershipRecord) :
  x ∈ cleaned scope shared line wk f <->
  exists r, r ∈ f /\ kept scope shared line wk r = true /\ x = set_RouteOrLine line r.
Proof.
  unfold cleaned. rewrite list_elem_of_fmap. split.
  - intros (r & -> & Hr). apply list_elem_of_In, List.filter_In in Hr as [Hr Hk].
    exists r. split; [now apply list_elem_of_In | now split].
  - intros (r & Hr & Hk & ->). exists r. split; [reflexivity |].
    apply list_elem_of_In, List.filter_In. split; [now apply list_elem_of_In | exact Hk].
Qed.

(** X1.  For every line name other than 'Blue Line' and 'Orange Line' the
    Record Filter prints its notice, writes nothing and stops with an
    UnboundLocalError; no table is returned. *)
Theorem get_line_entries_other_line (σ : store) (df : loc) (line : string) (wk : bool) :
  line <> "Blue Line" -> line <> "Orange Line" ->
  get_line_entries df line wk σ = mkOutcome σ [NoStopsSet] (Raise UnboundLocalError).
Proof. apply get_line_entries_unknown. Qed.

Lemma get_line_entries_other_line_witness :
  "Red Line" <> "Blue Line" /\ "Red Line" <> "Orange Line" /\
  get_line_entries 0%nat "Red Line" true [sample_raw]
  = mkOutcome [sample_raw] [NoStopsSet] (Raise UnboundLocalError).
Proof.
  split; [discriminate |]. split; [discriminate |].
  apply get_line_entries_other_line; discriminate.
Defined.

(** X2.  Every record the Record Filter returns carries the name of the
    requested line and is an input record up to that label; on the Orange
    Line its stop is one of [OL_STATIONS]; with [weekdays_only] its day is
    'Weekday'. *)
Theorem get_line_entries_returns_line (σ : store) (df : loc) (line : string) (wk : bool)
    (r : loc) (x : RidershipRecord) :
  known_line line ->
  value (get_line_entries df line wk σ) = Ok r ->
  x ∈ rows_of (heap (get_line_entries df line wk σ)) r ->
  RouteOrLine x = line /\
  (exists y, y ∈ rows_of σ df /\ x = set_RouteOrLine line y) /\
  (line = "Orange Line" -> StopName x ∈ OL_STATIONS) /\
  (wk = true -> day x = "Weekday").
Proof.
  intros Hline Hr Hx.
  destruct (known_call σ df line wk Hline) as (σ' & r' & E & _ & _ & Hrows).
  rewrite E in Hr, Hx. simpl in Hr, Hx. injection Hr as ->.
  rewrite Hrows in Hx. unfold filtered in Hx.
  destruct Hline as [-> | ->]; simpl in Hx;
    apply elem_of_cleaned in Hx as (y & Hy & Hk & ->);
    unfold kept in Hk; rewrite !andb_true_iff in Hk; destruct Hk as [[Hscope Hlab] Hday].
  - split; [reflexivity |]. split; [now exists y |]. split; [discriminate |].
    intros ->. simpl in Hday. now apply String.eqb_eq in Hday.
  - split; [reflexivity |]. split; [now exists y |]. split.
    + intros _. now apply isin_elem_of.
    + intros ->. simpl in Hday. now apply String.eqb_eq in Hday.
Qed.

Lemma get_line_entries_returns_line_witness :
  known_line "Orange Line" /\
  value (get_line_entries 0%nat "Orange Line" true [sample_raw]) = Ok 3%nat /\
  mkRecord (datetime 2023 6 2) "Malden Center" "Orange Line" 9 "Weekday"
    ∈ rows_of (heap (get_line_entries 0%nat "Orange Line" true [sample_raw])) 3%nat /\
  ("Orange Line" = "Orange Line" -> "Malden Center" ∈ OL_STATIONS).
Proof.
  assert (Hk : known_line "Orange Line") by now right.
  assert (Hv : value (get_line_entries 0%nat "Orange Line" true [sample_raw]) = Ok 3%nat)
    by reflexivity.
  assert (Hx : mkRecord (datetime 2023 6 2) "Malden Center" "Orange Line" 9 "Weekday"
                 ∈ rows_of (heap (get_line_entries 0%nat "Orange Line" true [sample_raw])) 3%nat).
  { vm_compute. left. }
  split; [exact Hk |]. split; [exact Hv |]. split; [exact Hx |].
  apply (get_line_entries_returns_line [sample_raw] 0%nat "Orange Line" true 3%nat _ Hk Hv Hx).
Defined.

Lemma kept_weekdays scope shared line (r : RidershipRecord) :
  kept scope shared line true r
  = kept scope shared line false r && String.eqb (day r) "Weekday".
Proof. unfold kept. cbn [negb orb]. now rewrite andb_true_r. Qed.

Lemma cleaned_weekdays scope shared line (f : frame) :
  cleaned scope shared line true f
  = List.filter (fun r => String.eqb (day r) "Weekday") (cleaned scope shared line false f).
Proof.
  unfold cleaned. induction f as [| r f IH]; [reflexivity |].
  cbn [List.filter]. rewrite kept_weekdays.
  destruct (kept scope shared line false r); cbn [andb List.map List.filter]; [| exact IH].
  change (day (set_RouteOrLine line r)) with (day r).
  destruct (String.eqb (day r) "Weekday"); cbn [List.map]; now rewrite IH.
Qed.

(** X3.  With [weekdays_only] the Record Filter returns the records it
    returns without it, restricted to those of day 'Weekday', in the same
    order. *)
Theorem get_line_entries_weekdays (σ : store) (df : loc) (line : string) :
  known_line line ->
  exists r rw,
    value (get_line_entries df line false σ) = Ok r /\
    value (get_line_entries df line true σ) = Ok rw /\
    rows_of (heap (get_line_entries df line true σ)) rw
    = List.filter (fun x => String.eqb (day x) "Weekday")
        (rows_of (heap (get_line_entries df line false σ)) r).
Proof.
  intros Hline.
  destruct (known_call σ df line false Hline) as (σ1 & r & E1 & _ & _ & Hrows1).
  destruct (known_call σ df line true Hline) as (σ2 & rw & E2 & _ & _ & Hrows2).
  exists r, rw. rewrite E1, E2. simpl. split; [reflexivity |]. split; [reflexivity |].
  rewrite Hrows1, Hrows2. unfold filtered.
  destruct (String.eqb line "Blue Line"); apply cleaned_weekdays.
Qed.

Lemma get_line_entries_weekdays_witness :
  known_line "Blue Line" /\
  exists r rw,
    value (get_line_entries 0%nat "Blue Line" false [sample_raw]) = Ok r /\
    value (get_line_entries 0%nat "Blue Line" true [sample_raw]) = Ok rw /\
    rows_of (heap (get_line_entries 0%nat "Blue Line" true [sample_raw])) rw
    = List.filter (fun x => String.eqb (day x) "Weekday")
        (rows_of (heap (get_line_entries 0%nat "Blue Line" false [sample_raw])) r).
Proof.
  split; [now left |]. apply get_line_entries_weekdays. now left.
Defined.

Lemma kept_cleaned_row scope shared line wk (r : RidershipRecord) :
  kept scope shared line wk r = true ->
  kept scope shared line wk (set_RouteOrLine line r) = true.
Proof.
  unfold kept. cbn [StopName RouteOrLine day set_RouteOrLine].
  rewrite String.eqb_refl, orb_true_r, !andb_true_iff.
  intros [[Hs _] Hd]. now repeat split.
Qed.

Lemma set_RouteOrLine_twice (line : string) (r : RidershipRecord) :
  set_RouteOrLine line (set_RouteOrLine line r) = set_RouteOrLine line r.
Proof. reflexivity. Qed.

Lemma cleaned_cleaned scope shared line wk (f : frame) :
  cleaned scope shared line wk (cleaned scope shared line wk f)
  = cleaned scope shared line wk f.
Proof.
  unfold cleaned. induction f as [| r f IH]; [reflexivity |].
  cbn [List.filter]. destruct (kept scope shared line wk r) eqn:Hk; [| exact IH].
  cbn [List.map List.filter]. rewrite (kept_cleaned_row _ _ _ _ _ Hk).
  cbn [List.map]. now rewrite set_RouteOrLine_twice, IH.
Qed.

(** X4.  The Record Filter is idempotent: run again on the table it
    returned, for the same line and the same option, it returns a table
    with the same rows. *)
Theorem get_line_entries_twice (σ : store) (df : loc) (line : string) (wk : bool) :
  known_line line ->
  exists r r',
    value (get_line_entries df line wk σ) = Ok r /\
    value (get_line_entries r line wk (heap (get_line_entries df line wk σ))) = Ok r' /\
    rows_of (heap (get_line_entries r line wk (heap (get_line_entries df line wk σ)))) r'
    = rows_of (heap (get_line_entries df line wk σ)) r.
Proof.
  intros Hline.
  destruct (known_call σ df line wk Hline) as (σ1 & r & E1 & _ & _ & Hrows1).
  destruct (known_call σ1 r line wk Hline) as (σ2 & r' & E2 & _ & _ & Hrows2).
  exists r, r'. rewrite E1. simpl. rewrite E2. simpl.
  split; [reflexivity |]. split; [reflexivity |].
  rewrite Hrows2, Hrows1. unfold filtered.
  destruct (String.eqb line "Blue Line"); apply cleaned_cleaned.
Qed.

Lemma get_line_entries_twice_witness :
  known_line "Orange Line" /\
  exists r r',
    value (get_line_entries 0%nat "Orange Line" false [sample_raw]) = Ok r /\
    value (get_line_entries r "Orange Line" false
             (heap (get_line_entries 0%nat "Orange Line" false [sample_raw]))) = Ok r' /\
    rows_of (heap (get_line_entries r "Orange Line" false
                     (heap (get_line_entries 0%nat "Orange Line" false [sample_raw])))) r'
    = rows_of (heap (get_line_entries 0%nat "Orange Line" false [sample_raw])) r.
Proof.
  split; [now right |]. apply get_line_entries_twice. now right.
Defined.

(** ** Order of the grouped rows *)

Lemma ascii_compare_N (a b : ascii) :
  Ascii.compare a b = N.compare (N_of_ascii a) (N_of_ascii b).
Proof. reflexivity. Qed.

Lemma string_leb_trans (s1 s2 s3 : string) :
  String.leb s1 s2 = true -> String.leb s2 s3 = true -> String.leb s1 s3 = true.
Proof.
  unfold String.leb. revert s2 s3.
  induction s1 as [| a s1 IH]; intros [| b s2] [| c s3]; cbn [String.compare];
    try (intros; reflexivity); try discriminate.
  rewrite !ascii_compare_N.
  destruct (N.compare_spec (N_of_ascii a) (N_of_ascii b)) as [Eab | Lab | Gab];
    destruct (N.compare_spec (N_of_ascii b) (N_of_ascii c)) as [Ebc | Lbc | Gbc];
    destruct (N.compare_spec (N_of_ascii a) (N_of_ascii c)) as [Eac | Lac | Gac];
    try discriminate; try (intros; reflexivity); try lia.
  apply IH.
Qed.

Lemma key_leb_total (a b : Z * string) : key_leb a b = true \/ key_leb b a = true.
Proof.
  unfold key_leb. destruct a as [d1 s1], b as [d2 s2]. simpl.
  destruct (Z.ltb_spec d1 d2); [now left |].
  destruct (Z.ltb_spec d2 d1); [now right |].
  assert (d1 = d2) as -> by lia. rewrite Z.eqb_refl. simpl.
  apply String.leb_total.
Qed.

Lemma key_leb_trans (a b c : Z * string) :
  key_leb a b = true -> key_leb b c = true -> key_leb a c = true.
Proof.
  unfold key_leb. destruct a as [d1 s1], b as [d2 s2], c as [d3 s3]. simpl.
  rewrite !orb_true_iff, !andb_true_iff, !Z.ltb_lt, !Z.eqb_eq.
  intros [H12 | [-> H12]] [H23 | [-> H23]].
  - left. lia.
  - now left.
  - now left.
  - right. split; [reflexivity |]. eapply string_leb_trans; eassumption.
Qed.

Section Sorting.
Context {K A : Type}.
Variable leb : K -> K -> bool.
Variable key : A -> K.
Hypothesis leb_total : forall a b, leb a b = true \/ leb b a = true.
Hypothesis leb_trans : forall a b c, leb a b = true -> leb b c = true -> leb a c = true.

Lemma insert_by_sorted (x : A) (l : list A) :
  StronglySorted (fun a b => leb (key a) (key b) = true) l ->
  StronglySorted (fun a b => leb (key a) (key b) = true) (insert_by leb key x l).
Proof.
  induction 1 as [| y l Hl IH Hy]; simpl.
  - constructor; constructor.
  - destruct (leb (key x) (key y)) eqn:Hxy.
    + constructor; [now constructor |].
      constructor; [exact Hxy |].
      eapply Forall_impl; [exact Hy |]. intros z Hz. simpl in *.
      eapply leb_trans; eassumption.
    + constructor; [exact IH |].
      assert (Hyx : leb (key y) (key x) = true).
      { destruct (leb_total (key x) (key y)); congruence. }
      rewrite Forall_forall. intros z Hz.
      rewrite insert_by_Permutation in Hz.
      apply elem_of_cons in Hz as [-> | Hz]; [exact Hyx |].
      rewrite Forall_forall in Hy. now apply Hy.
Qed.

Lemma sort_by_sorted (l : list A) :
  StronglySorted (fun a b => leb (key a) (key b) = true) (sort_by leb key l).
Proof.
  induction l as [| x l IH]; [constructor |].
  change (sort_by leb key (x :: l)) with (insert_by leb key x (sort_by leb key l)).
  now apply insert_by_sorted.
Qed.
End Sorting.

Lemma StronglySorted_lookup {A} (R : A -> A -> Prop) (l : list A) (i j : nat) (a b : A) :
  StronglySorted R l -> (i < j)%nat -> l !! i = Some a -> l !! j = Some b -> R a b.
Proof.
  intros Hl. revert i j. induction Hl as [| x l Hl IH Hx]; intros i j Hij Ha Hb.
  - now rewrite lookup_nil in Ha.
  - destruct j as [| j]; [lia |]. destruct i as [| i]; simpl in *.
    + injection Ha as <-. rewrite List.Forall_forall in Hx. apply Hx.
      apply list_elem_of_In. eapply list_elem_of_lookup_2. exact Hb.
    + apply (IH i j); [lia | assumption | assumption].
Qed.

(** X5.  The rows the Daily Aggregator returns are in the order of their
    keys: ascending by service date and, within a date, by stop name; the
    key of an earlier row is below the key of every later row. *)
Theorem daily_ridership_sorted (df : frame) :
  StronglySorted key_le (daily_ridership df) /\
  (forall i j a b, (i < j)%nat ->
     daily_ridership df !! i = Some a -> daily_ridership df !! j = Some b ->
     dServiceDate a < dServiceDate b \/
     (dServiceDate a = dServiceDate b /\ dStopName a <> dStopName b /\
      String.leb (dStopName a) (dStopName b) = true)).
Proof.
  assert (Hs : StronglySorted key_le (daily_ridership df)).
  { unfold daily_ridership.
    pose proof (sort_by_sorted key_leb (@fst (Z * string) (list Q))
                  key_leb_total key_leb_trans
                  (groups (List.map (fun r => ((ServiceDate r, StopName r), TotalEntries r)) df)))
      as Hsorted.
    change (sort_by key_leb fst (groups ?kvs)) with (groupby key_leb kvs) in Hsorted.
    induction Hsorted as [| g gs Hgs IH Hg]; simpl; constructor; [exact IH |].
    apply Forall_fmap. eapply Forall_impl; [exact Hg |].
    intros g' Hg'. exact Hg'. }
  split; [exact Hs |].
  intros i j a b Hij Ha Hb.
  assert (Hle : key_le a b).
  { apply (StronglySorted_lookup key_le _ i j a b Hs); assumption. }
  assert (Hne : daily_key a <> daily_key b).
  { pose proof (NoDup_daily_keys df) as Hnd.
    intros Heq. apply (NoDup_lookup _ i j (daily_key a)) in Hnd; [lia | |].
    - rewrite list_lookup_fmap, Ha. reflexivity.
    - rewrite list_lookup_fmap, Hb. simpl. now rewrite Heq. }
  unfold key_le, key_leb, daily_key in *. simpl in *.
  apply orb_true_iff in Hle as [Hlt | Heq]; [left; now apply Z.ltb_lt |].
  apply andb_true_iff in Heq as [Hd Hsl]. apply Z.eqb_eq in Hd. right.
  split; [exact Hd |]. split; [| exact Hsl]. intros Hstop. apply Hne. congruence.
Qed.

(** ** Sums over the groups *)

Lemma Qsum_app (l l' : list Q) : (Qsum (l ++ l') == Qsum l + Qsum l')%Q.
Proof.
  induction l as [| q l IH]; simpl; [ring |]. rewrite IH. ring.
Qed.

Lemma Qsum_Permutation (l l' : list Q) : l ≡ₚ l' -> (Qsum l == Qsum l')%Q.
Proof.
  induction 1 as [| q l l' _ IH | p q l | l l' l'' _ IH _ IH']; simpl.
  - reflexivity.
  - now rewrite IH.
  - ring.
  - now rewrite IH.
Qed.

Lemma Qsum_add_to_group {K} `{EqDecision K} (k : K) (v : Q) (acc : list (K * list Q)) :
  (Qsum (List.map (fun g => Qsum (snd g)) (add_to_group k v acc))
   == Qsum (List.map (fun g => Qsum (snd g)) acc) + v)%Q.
Proof.
  induction acc as [| [k' vs] acc IH]; simpl.
  - ring.
  - destruct (decide (k = k')); simpl.
    + rewrite Qsum_app. simpl. ring.
    + rewrite IH. ring.
Qed.

(** Grouping loses nothing: the sums of the groups add up to the sum of
    the rows. *)
Lemma Qsum_groups {K} `{EqDecision K} (kvs : list (K * Q)) :
  (Qsum (List.map (fun g => Qsum (snd g)) (groups kvs)) == Qsum (List.map snd kvs))%Q.
Proof.
  induction kvs as [| [k v] kvs IH] using rev_ind; [reflexivity |].
  rewrite groups_snoc, Qsum_add_to_group, IH, List.map_app, Qsum_app. simpl. ring.
Qed.

Lemma whole_Qsum (l : list Q) : Forall whole l -> whole (Qsum l).
Proof.
  induction 1 as [| q l [n Hn] _ [m Hm]]; simpl.
  - now exists 0.
  - exists (n + m). rewrite Hn, Hm, inject_Z_plus. reflexivity.
Qed.

Lemma round_half_even_whole (q : Q) : whole q -> (inject_Z (round_half_even q) == q)%Q.
Proof.
  intros [n Hn]. rewrite (round_half_even_comp _ _ Hn), round_half_even_inject_Z.
  now symmetry.
Qed.

Lemma values_of_elem_of {K V} `{EqDecision K} (k : K) (v : V) (kvs : list (K * V)) :
  v ∈ values_of k kvs -> v ∈ List.map snd kvs.
Proof.
  unfold values_of. intros Hv. apply list_elem_of_fmap in Hv as (kv & -> & Hkv).
  apply list_elem_of_In, List.filter_In in Hkv as [Hkv _].
  apply (list_elem_of_fmap_2 snd). now apply list_elem_of_In.
Qed.

Lemma Qsum_inject_Zsum (l : list Z) : (Qsum (List.map inject_Z l) == inject_Z (Zsum l))%Q.
Proof.
  induction l as [| z l IH]; simpl; [reflexivity |].
  now rewrite IH, inject_Z_plus.
Qed.

Lemma Qsum_ext_in {A} (f g : A -> Q) (l : list A) :
  (forall x, x ∈ l -> (f x == g x)%Q) -> (Qsum (List.map f l) == Qsum (List.map g l))%Q.
Proof.
  induction l as [| x l IH]; intros Hl; simpl; [reflexivity |].
  rewrite (Hl x) by left. rewrite IH; [reflexivity |].
  intros y Hy. apply Hl. now right.
Qed.

(** X6.  When every raw record has a whole number of entries, the Daily
    Aggregator neither loses nor adds riders: its totals add up to the sum
    of the entries of all input records. *)
Theorem daily_ridership_conserves (df : frame) :
  (forall r, r ∈ df -> whole (TotalEntries r)) ->
  (inject_Z (Zsum (List.map dTotalEntries (daily_ridership df)))
   == Qsum (List.map TotalEntries df))%Q.
Proof.
  intros Hwhole. unfold daily_ridership.
  set (kvs := List.map (fun r => ((ServiceDate r, StopName r), TotalEntries r)) df).
  rewrite List.map_map. simpl.
  rewrite <- Qsum_inject_Zsum, List.map_map.
  assert (Hsnd : List.map snd kvs = List.map TotalEntries df).
  { unfold kvs. now rewrite List.map_map. }
  rewrite <- Hsnd, <- Qsum_groups.
  rewrite (Qsum_Permutation
             (List.map (fun g => Qsum (snd g)) (groups kvs))
             (List.map (fun g => Qsum (snd g)) (groupby key_leb kvs))).
  2:{ apply Permutation_map. symmetry. apply groupby_Permutation. }
  apply Qsum_ext_in. intros [k vs] Hg. simpl.
  apply round_half_even_whole, whole_Qsum.
  apply elem_of_groupby in Hg as [_ ->].
  rewrite List.Forall_forall. intros v Hv.
  apply list_elem_of_In, values_of_elem_of in Hv. rewrite Hsnd in Hv.
  apply list_elem_of_fmap in Hv as (r & -> & Hr). now apply Hwhole.
Qed.

Lemma daily_ridership_conserves_witness :
  (forall r, r ∈ [mkRecord 1 "Airport" "Blue Line" 3 "Weekday";
                  mkRecord 1 "Airport" "Blue Line" (4 # 2) "Weekday"] ->
             whole (TotalEntries r)) /\
  (inject_Z (Zsum (List.map dTotalEntries
       (daily_ridership [mkRecord 1 "Airport" "Blue Line" 3 "Weekday";
                         mkRecord 1 "Airport" "Blue Line" (4 # 2) "Weekday"])))
   == Qsum (List.map TotalEntries
       [mkRecord 1 "Airport" "Blue Line" 3 "Weekday";
        mkRecord 1 "Airport" "Blue Line" (4 # 2) "Weekday"]))%Q.
Proof.
  assert (H : forall r, r ∈ [mkRecord 1 "Airport" "Blue Line" 3 "Weekday";
                             mkRecord 1 "Airport" "Blue Line" (4 # 2) "Weekday"] ->
                        whole (TotalEntries r)).
  { intros r Hr. apply elem_of_cons in Hr as [-> | Hr]; [now exists 3 |].
    apply list_elem_of_singleton in Hr as ->. now exists 2. }
  split; [exact H |]. apply daily_ridership_conserves. exact H.
Defined.

(** ** Line Statistics: the daily series *)

Lemma values_of_dates (d : Z) (df : daily_frame) :
  values_of d (List.map (fun r => (dServiceDate r, dTotalEntries r)) df)
  = List.map dTotalEntries (rows_on d df).
Proof.
  unfold values_of, rows_on. induction df as [| r df IH]; simpl; [reflexivity |].
  destruct (Z.eqb_spec (dServiceDate r) d) as [Heq | Hne].
  - rewrite bool_decide_eq_true_2 by exact Heq. simpl. now rewrite IH.
  - rewrite bool_decide_eq_false_2 by exact Hne. exact IH.
Qed.

Lemma keys_per_day (df : daily_frame) :
  List.map fst (per_day df)
  = List.map fst (groupby Z.leb (List.map (fun r => (dServiceDate r, dTotalEntries r)) df)).
Proof. unfold per_day. rewrite List.map_map. reflexivity. Qed.

Lemma NoDup_per_day (df : daily_frame) : NoDup (List.map fst (per_day df)).
Proof. rewrite keys_per_day. apply NoDup_keys_groupby. Qed.

Lemma elem_of_per_day (d n : Z) (df : daily_frame) :
  (d, n) ∈ per_day df <-> d ∈ List.map dServiceDate df /\ n = line_total d df.
Proof.
  unfold per_day, line_total. rewrite rows_on_nonempty. split.
  - intros Hin. apply list_elem_of_fmap in Hin as ([d' vs] & [= -> ->] & Hin).
    apply elem_of_groupby in Hin as [Hne ->]. rewrite values_of_dates in *.
    split; [| reflexivity]. intros Hnil. now rewrite Hnil in Hne.
  - intros [Hne ->]. rewrite <- values_of_dates.
    apply (list_elem_of_fmap_2 (fun g => (fst g, Zsum (snd g))) _
             (d, values_of d (List.map (fun r => (dServiceDate r, dTotalEntries r)) df))).
    apply elem_of_groupby. split; [| reflexivity].
    rewrite values_of_dates. intros Hnil. apply Hne.
    now apply map_eq_nil in Hnil.
Qed.

Lemma dates_per_day (d : Z) (df : daily_frame) :
  d ∈ List.map fst (per_day df) <-> d ∈ List.map dServiceDate df.
Proof.
  split.
  - intros Hd. apply list_elem_of_fmap in Hd as ([d' n] & -> & Hin).
    now apply elem_of_per_day in Hin as [Hd _].
  - intros Hd. apply (list_elem_of_fmap_2 fst _ (d, line_total d df)).
    now apply elem_of_per_day.
Qed.

(** X7.  The daily series of Line Statistics has one point for each date
    of the table and no other, no date twice, and the value of a date is
    the sum of the totals of all rows of that date, that is of all the
    stations reporting on it. *)
Theorem per_day_totals (df : daily_frame) :
  NoDup (List.map fst (per_day df)) /\
  (forall d n, (d, n) ∈ per_day df <->
     d ∈ List.map dServiceDate df /\
     n = Zsum (List.map dTotalEntries (rows_on d df))).
Proof. split; [apply NoDup_per_day | intros d n; apply elem_of_per_day]. Qed.

(** ** Line Statistics: the run *)

Lemma fold_left_max_init (l : list Z) (d : Z) : d <= fold_left Z.max l d.
Proof.
  revert d. induction l as [| y l IH]; intros d; simpl; [lia |].
  transitivity (Z.max d y); [lia | apply IH].
Qed.

Lemma fold_left_max_ge (l : list Z) (d x : Z) : x ∈ d :: l -> x <= fold_left Z.max l d.
Proof.
  intros Hx. apply elem_of_cons in Hx as [-> | Hx]; [apply fold_left_max_init |].
  revert d. induction l as [| y l IH]; intros d; [inversion Hx |]. simpl.
  apply elem_of_cons in Hx as [Hxy | Hx].
  - transitivity (Z.max d y); [lia | apply fold_left_max_init].
  - now apply IH.
Qed.

Lemma max_date_spec (l : list Z) (m : Z) :
  max_date l = Some m <-> m ∈ l /\ forall x, x ∈ l -> x <= m.
Proof.
  destruct l as [| d l]; simpl.
  - split; [discriminate | intros [Hm _]; inversion Hm].
  - split.
    + intros [= <-]. split; [apply fold_left_max_in | intros x; apply fold_left_max_ge].
    + intros [Hm Hmax]. f_equal.
      pose proof (fold_left_max_in l d) as Hin.
      pose proof (fold_left_max_ge l d m Hm). specialize (Hmax _ Hin). lia.
Qed.

Lemma max_date_same (l l' : list Z) (m : Z) :
  (forall x, x ∈ l <-> x ∈ l') -> max_date l = Some m -> max_date l' = Some m.
Proof.
  intros Hll. rewrite !max_date_spec. intros [Hm Hmax].
  split; [now apply Hll |]. intros x Hx. apply Hmax. now apply Hll.
Qed.

Lemma filter_none {A} (p : A -> bool) (l : list A) :
  (forall x, In x l -> p x = false) -> List.filter p l = [].
Proof.
  induction l as [| x l IH]; intros Hl; simpl; [reflexivity |].
  rewrite (Hl x) by now left. apply IH. intros y Hy. apply Hl. now right.
Qed.

Lemma filter_key_NoDup {V} (k : Z) (v : V) (l : list (Z * V)) :
  NoDup (List.map fst l) -> (k, v) ∈ l ->
  List.filter (fun r => bool_decide (Some (fst r) = Some k)) l = [(k, v)].
Proof.
  induction l as [| [k' v'] l IH]; simpl; intros Hnd Hin; [inversion Hin |].
  apply NoDup_cons in Hnd as [Hk' Hnd].
  apply elem_of_cons in Hin as [[= <- <-] | Hin].
  - rewrite bool_decide_eq_true_2 by reflexivity. f_equal.
    apply filter_none. intros [k'' v''] Hr. simpl.
    apply bool_decide_eq_false_2. intros [= ->]. apply Hk'.
    apply (list_elem_of_fmap_2 fst _ (k, v'')). now apply list_elem_of_In.
  - rewrite bool_decide_eq_false_2.
    + now apply IH.
    + intros [= ->]. apply Hk'. now apply (list_elem_of_fmap_2 fst _ (k, v)).
Qed.

Lemma percent_of_baseline (n avg : Z) :
  avg <> 0 ->
  py_int (np_round (times (true_divide (n - avg) avg) 100)) = Ok (pct_change avg n).
Proof.
  intros Havg. unfold true_divide, pct_change. apply Z.eqb_neq in Havg. rewrite Havg.
  cbn [times np_round py_int]. now rewrite Qfloor_Z.
Qed.

(** The first steps of [overall_stats] on a table with rows: the most
    recent day is the latest date of the table. *)
Lemma most_recent_day (df : daily_frame) (dmax : Z) :
  max_date (List.map dServiceDate df) = Some dmax ->
  max_date (List.map fst (per_day df)) = Some dmax /\
  List.map snd (List.filter (fun r => bool_decide (Some (fst r) = Some dmax)) (per_day df))
  = [line_total dmax df].
Proof.
  intros Hmax. split.
  - eapply max_date_same; [| exact Hmax]. intros x. symmetry. apply dates_per_day.
  - rewrite (filter_key_NoDup dmax (line_total dmax df)); [reflexivity | apply NoDup_per_day |].
    apply elem_of_per_day. split; [| reflexivity].
    now apply max_date_spec in Hmax as [Hin _].
Qed.

Lemma overall_stats_prints_run (df : daily_frame) (line : string) (dmax avg : Z) :
  max_date (List.map dServiceDate df) = Some dmax ->
  average_before df = Ok avg ->
  avg <> 0 ->
  runs_as (overall_stats df line)
    [MostRecentDay line dmax (line_total dmax df);
     AverageBefore line avg;
     PercentChange line (pct_change avg (line_total dmax df));
     Rule]
    (Ok tt).
Proof.
  intros Hmax Havg Hnz. destruct (most_recent_day df dmax Hmax) as [Hday Hnum].
  unfold overall_stats. cbv zeta. rewrite Hday, Hnum.
  unfold average_before in Havg. rewrite Havg.
  apply (runs_as_bind_ok _ _ [] (line_total dmax df) [_; _; _; _]); [apply runs_as_ret |].
  apply (runs_as_bind_ok _ _ [] dmax [_; _; _; _]); [apply runs_as_ret |].
  apply (runs_as_bind_ok _ _ [_] tt [_; _; _]); [apply runs_as_print |].
  apply (runs_as_bind_ok _ _ [] avg [_; _; _]); [apply runs_as_ret |].
  apply (runs_as_bind_ok _ _ [_] tt [_; _]); [apply runs_as_print |].
  cbv beta. rewrite (percent_of_baseline _ _ Hnz).
  apply (runs_as_bind_ok _ _ [] (pct_change avg (line_total dmax df)) [_; _]);
    [apply runs_as_ret |].
  apply (runs_as_bind_ok _ _ [_] tt [_]); [apply runs_as_print |].
  apply runs_as_print.
Qed.

(** X8.  On a table with rows, a whole-line average before the closure
    that exists and is not zero, Line Statistics prints the total of the
    latest date of the table, the rounded average and the percent change
    of that total against the average, computed in float64 as
    round(((total - average) / average) * 100), then the rule, and
    returns. *)
Theorem overall_stats_prints (df : daily_frame) (line : string) (dmax avg : Z) :
  max_date (List.map dServiceDate df) = Some dmax ->
  average_before df = Ok avg ->
  avg <> 0 ->
  runs_as (overall_stats df line)
    [MostRecentDay line dmax (line_total dmax df);
     AverageBefore line avg;
     PercentChange line (pct_change avg (line_total dmax df));
     Rule]
    (Ok tt).
Proof. apply overall_stats_prints_run. Qed.

Lemma overall_stats_prints_witness :
  max_date (List.map dServiceDate sample_daily) = Some (datetime 2023 7 5) /\
  average_before sample_daily = Ok 350 /\
  350 <> 0 /\
  runs_as (overall_stats sample_daily "Blue Line")
    [MostRecentDay "Blue Line" (datetime 2023 7 5) (line_total (datetime 2023 7 5) sample_daily);
     AverageBefore "Blue Line" 350;
     PercentChange "Blue Line"
       (pct_change 350 (line_total (datetime 2023 7 5) sample_daily));
     Rule]
    (Ok tt).
Proof.
  split; [reflexivity |]. split; [reflexivity |]. split; [discriminate |].
  apply overall_stats_prints; [reflexivity | reflexivity | discriminate].
Defined.

Lemma overall_stats_average_raises (df : daily_frame) (line : string) (dmax : Z) (e : exn) :
  max_date (List.map dServiceDate df) = Some dmax ->
  average_before df = Raise e ->
  e = ValueError /\
  runs_as (overall_stats df line)
    [MostRecentDay line dmax (line_total dmax df)] (Raise ValueError).
Proof.
  intros Hmax Havg. destruct (most_recent_day df dmax Hmax) as [Hday Hnum].
  unfold average_before in Havg.
  assert (He : e = ValueError).
  { destruct (List.map snd _) in Havg; simpl in Havg; congruence. }
  subst e. split; [reflexivity |].
  unfold overall_stats. cbv zeta. rewrite Hday, Hnum, Havg.
  apply (runs_as_bind_ok _ _ [] (line_total dmax df) [_]); [apply runs_as_ret |].
  apply (runs_as_bind_ok _ _ [] dmax [_]); [apply runs_as_ret |].
  apply (runs_as_bind_ok _ _ [_] tt []); [apply runs_as_print |].
  apply runs_as_bind_raise, runs_as_raise.
Qed.

(** X9.  Line Statistics stops with an IndexError exactly when the table
    has no rows (the read of the first value of an empty selection); it
    has then printed nothing. *)
Theorem overall_stats_empty (df : daily_frame) (line : string) (σ : store) :
  (value (overall_stats df line σ) = Raise IndexError <-> df = []) /\
  (df = [] -> stdout (overall_stats df line σ) = []).
Proof.
  split; [| now intros ->]. split; [| now intros ->].
  intros Hraise. destruct df as [| r df]; [reflexivity |]. exfalso.
  destruct (max_date_is_Some (List.map dServiceDate (r :: df))) as [dmax Hmax];
    [discriminate |].
  destruct (average_before (r :: df)) as [avg | e] eqn:Havg.
  - destruct (Z.eq_dec avg 0) as [-> | Hnz].
    + destruct (overall_stats_zero_baseline (r :: df) line Havg)
        as (d & n & e & Hrun & [-> | ->]); rewrite Hrun in Hraise; discriminate.
    + rewrite (overall_stats_prints_run (r :: df) line dmax avg Hmax Havg Hnz) in Hraise.
      discriminate.
  - destruct (overall_stats_average_raises (r :: df) line dmax e Hmax Havg) as [_ Hrun].
    rewrite Hrun in Hraise. discriminate.
Qed.

(** X10.  On a table with rows none of which is dated in the window before
    the closure, Line Statistics prints the line of the most recent day
    and then stops with a ValueError: the mean of no value is NaN, which
    [round] refuses. *)
Theorem overall_stats_no_baseline (df : daily_frame) (line : string) (dmax : Z) :
  max_date (List.map dServiceDate df) = Some dmax ->
  (forall r, r ∈ df -> date_isin (dServiceDate r) BC_SUMNER = false) ->
  runs_as (overall_stats df line)
    [MostRecentDay line dmax (line_total dmax df)] (Raise ValueError).
Proof.
  intros Hmax Hout.
  assert (Havg : average_before df = Raise ValueError).
  { unfold average_before.
    rewrite (filter_none (fun r : Z * Z => date_isin (fst r) BC_SUMNER)); [reflexivity |].
    intros [d n] Hin. simpl.
    apply list_elem_of_In, elem_of_per_day in Hin as [Hd _].
    apply list_elem_of_fmap in Hd as (r & -> & Hr). now apply Hout. }
  now destruct (overall_stats_average_raises df line dmax ValueError Hmax Havg).
Qed.

Lemma overall_stats_no_baseline_witness :
  max_date (List.map dServiceDate sample_after) = Some (datetime 2023 7 6) /\
  (forall r, r ∈ sample_after -> date_isin (dServiceDate r) BC_SUMNER = false) /\
  runs_as (overall_stats sample_after "Blue Line")
    [MostRecentDay "Blue Line" (datetime 2023 7 6) (line_total (datetime 2023 7 6) sample_after)]
    (Raise ValueError).
Proof.
  assert (H : forall r, r ∈ sample_after -> date_isin (dServiceDate r) BC_SUMNER = false).
  { intros r Hr. unfold sample_after in Hr.
    repeat (apply elem_of_cons in Hr as [-> | Hr]; [reflexivity |]). inversion Hr. }
  split; [reflexivity |]. split; [exact H |].
  apply overall_stats_no_baseline; [reflexivity | exact H].
Defined.

(** ** Completeness Checker: complete data *)

(** X11.  For a line whose name starts with 'Orange Line' or 'Blue Line'
    the Completeness Checker prints nothing exactly when every date of the
    table has at least as many rows as the line has stations. *)
Theorem check_missing_silent (after : daily_frame) (line : string) (σ : store) :
  startswith line "Orange Line" = true \/ startswith line "Blue Line" = true ->
  let stations := if startswith line "Orange Line" then OL_STATIONS else BL_STATIONS in
  stdout (check_missing after line σ) = [] <->
  forall d, d ∈ List.map dServiceDate after ->
            (length stations <= length (rows_on d after))%nat.
Proof.
  intros Hline stations.
  rewrite (check_missing_runs after line Hline σ). fold stations. simpl. split.
  - intros Hnil d Hd.
    destruct (le_lt_dec (length stations) (length (rows_on d after))) as [Hle | Hlt];
      [exact Hle |].
    apply map_eq_nil in Hnil.
    assert (Hin : d ∈ below (length stations) (value_counts (List.map dServiceDate after)))
      by now apply elem_of_below.
    rewrite Hnil in Hin. inversion Hin.
  - intros Hall.
    destruct (below (length stations) (value_counts (List.map dServiceDate after)))
      as [| d ds] eqn:Hb; [reflexivity |].
    assert (Hin : d ∈ below (length stations) (value_counts (List.map dServiceDate after)))
      by (rewrite Hb; left).
    apply elem_of_below in Hin as [Hd Hlt]. specialize (Hall d Hd). lia.
Qed.

Lemma check_missing_silent_witness :
  (startswith "Blue Line (weekdays)" "Orange Line" = true \/
   startswith "Blue Line (weekdays)" "Blue Line" = true) /\
  (stdout (check_missing [] "Blue Line (weekdays)" []) = [] <->
   forall d, d ∈ List.map dServiceDate [] ->
             (length BL_STATIONS <= length (rows_on d []))%nat).
Proof.
  split; [right; reflexivity |].
  apply (check_missing_silent [] "Blue Line (weekdays)" []). right. reflexivity.
Defined.

(** ** Station Statistics: how a run ends *)

(** The run of [station_stats] once the four dates of the heading exist:
    it ends as the building of the table ends. *)
Lemma station_stats_after_dates (df : daily_frame) (line : string) out d1 d2 d3 d4 e :
  runs_as (check_missing (after_window df) line) out (Ok tt) ->
  min_date (List.map dServiceDate (before_window df)) = Some d1 ->
  max_date (List.map dServiceDate (before_window df)) = Some d2 ->
  min_date (List.map dServiceDate (after_window df)) = Some d3 ->
  max_date (List.map dServiceDate (after_window df)) = Some d4 ->
  runs_as (full_df (before_window df) (after_window df) line) [] (Raise e) ->
  runs_as (station_stats df line) out (Raise e).
Proof.
  intros Hcm E1 E2 E3 E4 Hfull. unfold station_stats. cbv zeta.
  change (List.filter (fun r => date_isin (dServiceDate r) BC_SUMNER) df)
    with (before_window df).
  change (List.filter (fun r => date_isin (dServiceDate r) AC_SUMNER) df)
    with (after_window df).
  rewrite E1, E2, E3, E4. rewrite <- (app_nil_r out).
  eapply runs_as_bind_ok; [exact Hcm |].
  apply (runs_as_bind_ok _ _ [] d1 []); [apply runs_as_ret |].
  apply (runs_as_bind_ok _ _ [] d2 []); [apply runs_as_ret |].
  apply (runs_as_bind_ok _ _ [] d3 []); [apply runs_as_ret |].
  apply (runs_as_bind_ok _ _ [] d4 []); [apply runs_as_ret |].
  apply runs_as_bind_raise. exact Hfull.
Qed.

Lemma window_dates (w : daily_frame) :
  w <> [] ->
  exists d d', min_date (List.map dServiceDate w) = Some d /\
               max_date (List.map dServiceDate w) = Some d'.
Proof. destruct w; [congruence | simpl; eauto]. Qed.

(** X12.  When no row of the table is dated in the window before the
    closure, or none in the window after it, Station Statistics stops with
    a ValueError (the date label of an empty window is NaT, which cannot
    be formatted); only the Completeness Checker has printed by then and
    no table is shown. *)
Theorem station_stats_empty_window (df : daily_frame) (line : string) :
  before_window df = [] \/ after_window df = [] ->
  exists out,
    runs_as (check_missing (after_window df) line) out (Ok tt) /\
    runs_as (station_stats df line) out (Raise ValueError).
Proof.
  intros Hempty. destruct (check_missing_Ok (after_window df) line) as [out Hcm].
  exists out. split; [exact Hcm |].
  unfold station_stats. cbv zeta.
  change (List.filter (fun r => date_isin (dServiceDate r) BC_SUMNER) df)
    with (before_window df).
  change (List.filter (fun r => date_isin (dServiceDate r) AC_SUMNER) df)
    with (after_window df).
  rewrite <- (app_nil_r out). eapply runs_as_bind_ok; [exact Hcm |].
  destruct (before_window df) as [| r before] eqn:Hb.
  - apply runs_as_bind_raise, runs_as_raise.
  - destruct Hempty as [? | Ha]; [discriminate |]. rewrite Ha.
    eapply (runs_as_bind_ok _ _ [] _ []); [apply runs_as_ret |].
    eapply (runs_as_bind_ok _ _ [] _ []); [apply runs_as_ret |].
    apply runs_as_bind_raise, runs_as_raise.
Qed.

Lemma station_stats_empty_window_witness :
  (before_window sample_after = [] \/ after_window sample_after = []) /\
  exists out,
    runs_as (check_missing (after_window sample_after) "Blue Line") out (Ok tt) /\
    runs_as (station_stats sample_after "Blue Line") out (Raise ValueError).
Proof.
  split; [left; reflexivity |].
  apply station_stats_empty_window. left. reflexivity.
Defined.

Lemma round_mean_raises (l : list Z) (e : exn) :
  py_int (np_round (mean l)) = Raise e -> e = ValueError /\ l = [].
Proof. destruct l; simpl; [intros [= <-]; now split | discriminate]. Qed.

Lemma rounded_mean_raises (s : string) (w : daily_frame) :
  s ∉ List.map dStopName w -> rounded_mean s w = Raise ValueError.
Proof.
  intros Hs. unfold rounded_mean, window_mean.
  destruct (values_of s _) as [| v vs] eqn:Hv; [reflexivity |].
  exfalso. apply Hs.
  rewrite <- (List.map_map (fun r => (dStopName r, dTotalEntries r)) fst).
  apply values_of_nonempty. now rewrite Hv.
Qed.

Lemma apply_Raise_only {A B} (f : A -> result B) (column : list A) (e e' : exn) :
  (forall x e, x ∈ column -> f x = Raise e -> e = e') -> apply f column = Raise e -> e = e'.
Proof.
  induction column as [| x column IH]; intros Hf; simpl; [discriminate |].
  destruct (f x) as [y |] eqn:Hx.
  - destruct (apply f column); [discriminate |]. intros [= <-].
    apply IH; [| reflexivity]. intros z ez Hz. apply Hf. now right.
  - intros [= <-]. apply (Hf x); [left | exact Hx].
Qed.

(** A station with rows in one window only leaves a NaN in a column of
    means, and the building of the table stops at it. *)
Lemma full_df_one_window (before after : daily_frame) (line s : string) :
  (s ∈ List.map dStopName before /\ (s ∉ List.map dStopName after)) \/
  ((s ∉ List.map dStopName before) /\ s ∈ List.map dStopName after) ->
  runs_as (full_df before after line) [] (Raise ValueError).
Proof.
  intros Hs.
  destruct (columns_concat (station_means before) (station_means after)) as [Eb Ea].
  set (labels := List.map fst (concat (station_means before) (station_means after))) in *.
  assert (Hlab : s ∈ labels).
  { apply elem_of_labels_concat. destruct Hs as [[Hs _] | [_ Hs]]; [left | right];
      now apply keys_station_means. }
  assert (Hround : forall w x e,
             x ∈ List.map (fun l => cell l (station_means w)) labels ->
             py_int (np_round x) = Raise e -> e = ValueError).
  { intros w x e Hx He. apply list_elem_of_fmap in Hx as (l & -> & _).
    rewrite cell_station_means in He. now apply round_mean_raises in He as [-> _]. }
  unfold full_df. cbv zeta. rewrite Eb, Ea.
  destruct (apply _ (List.map (fun l => cell l (station_means before)) labels))
    as [BC | e] eqn:HBC.
  - apply (runs_as_bind_ok _ _ [] BC []); [apply runs_as_lift |].
    destruct (apply _ (List.map (fun l => cell l (station_means after)) labels))
      as [AC | e] eqn:HAC.
    + exfalso. apply apply_Ok, Forall2_fmap_l in HBC, HAC.
      apply list_elem_of_lookup in Hlab as [i Hi].
      destruct (Forall2_lookup_l _ _ _ _ _ HBC Hi) as (b & _ & Hb).
      destruct (Forall2_lookup_l _ _ _ _ _ HAC Hi) as (a & _ & Ha).
      simpl in Hb, Ha. rewrite cell_station_means in Hb, Ha.
      destruct Hs as [[_ Hn] | [Hn _]].
      * apply rounded_mean_raises in Hn. unfold rounded_mean in Hn. congruence.
      * apply rounded_mean_raises in Hn. unfold rounded_mean in Hn. congruence.
    + assert (e = ValueError) as ->.
      { eapply apply_Raise_only; [| exact HAC]. intros x e' Hx. now apply (Hround after). }
      apply runs_as_bind_raise, runs_as_lift.
  - assert (e = ValueError) as ->.
    { eapply apply_Raise_only; [| exact HBC]. intros x e' Hx. now apply (Hround before). }
    apply runs_as_bind_raise, runs_as_lift.
Qed.

(** X13.  A station that has rows in one of the two windows and none in
    the other makes Station Statistics stop with a ValueError: its mean in
    the window without rows is NaN, which [round] refuses.  No table is
    shown. *)
Theorem station_stats_one_window (df : daily_frame) (line s : string) :
  (s ∈ List.map dStopName (before_window df) /\
   (s ∉ List.map dStopName (after_window df))) \/
  ((s ∉ List.map dStopName (before_window df)) /\
   s ∈ List.map dStopName (after_window df)) ->
  exists out,
    runs_as (check_missing (after_window df) line) out (Ok tt) /\
    runs_as (station_stats df line) out (Raise ValueError).
Proof.
  intros Hs.
  assert (Hb : before_window df = [] \/ before_window df <> [])
    by (destruct (before_window df); [left | right]; congruence).
  assert (Ha : after_window df = [] \/ after_window df <> [])
    by (destruct (after_window df); [left | right]; congruence).
  destruct Hb as [Hb | Hb]; [apply station_stats_empty_window; now left |].
  destruct Ha as [Ha | Ha]; [apply station_stats_empty_window; now right |].
  destruct (check_missing_Ok (after_window df) line) as [out Hcm].
  exists out. split; [exact Hcm |].
  destruct (window_dates (before_window df) Hb) as (d1 & d2 & E1 & E2).
  destruct (window_dates (after_window df) Ha) as (d3 & d4 & E3 & E4).
  apply (station_stats_after_dates df line out d1 d2 d3 d4 ValueError Hcm E1 E2 E3 E4).
  now apply (full_df_one_window _ _ line s).
Qed.

Lemma station_stats_one_window_witness :
  (("Airport" ∈ List.map dStopName (before_window (mkDaily (datetime 2023 6 1) "Airport" 7 :: sample_after)) /\
    ("Airport" ∉ List.map dStopName (after_window (mkDaily (datetime 2023 6 1) "Airport" 7 :: sample_after)))) \/
   (("Airport" ∉ List.map dStopName (before_window (mkDaily (datetime 2023 6 1) "Airport" 7 :: sample_after))) /\
    "Airport" ∈ List.map dStopName (after_window (mkDaily (datetime 2023 6 1) "Airport" 7 :: sample_after)))) /\
  exists out,
    runs_as (check_missing (after_window (mkDaily (datetime 2023 6 1) "Airport" 7 :: sample_after))
               "Blue Line") out (Ok tt) /\
    runs_as (station_stats (mkDaily (datetime 2023 6 1) "Airport" 7 :: sample_after) "Blue Line")
      out (Raise ValueError).
Proof.
  assert (H : "Airport" ∈ List.map dStopName (before_window (mkDaily (datetime 2023 6 1) "Airport" 7 :: sample_after)) /\
              ("Airport" ∉ List.map dStopName (after_window (mkDaily (datetime 2023 6 1) "Airport" 7 :: sample_after)))).
  { split; [vm_compute; left |].
    intros Hin. apply isin_elem_of in Hin. discriminate Hin. }
  split; [left; exact H |].
  apply (station_stats_one_window _ "Blue Line" "Airport"). left. exact H.
Defined.

(** ** Station Statistics: line names and rows *)

(** With complete windows both columns of means are rounded without an
    exception. *)
Lemma means_columns_Ok (df : daily_frame) :
  complete_windows df = true ->
  exists BC AC,
    apply (fun x => py_int (np_round x))
      (List.map (fun r => fst (snd r))
         (concat (station_means (before_window df)) (station_means (after_window df))))
    = Ok BC /\
    apply (fun x => py_int (np_round x))
      (List.map (fun r => snd (snd r))
         (concat (station_means (before_window df)) (station_means (after_window df))))
    = Ok AC.
Proof.
  unfold complete_windows. rewrite !andb_true_iff.
  intros ((((_ & Hba) & Hab) & _) & _).
  set (before := before_window df) in *. set (after := after_window df) in *.
  rewrite forallb_forall in Hba, Hab.
  assert (Hsame : forall s, s ∈ List.map dStopName before <-> s ∈ List.map dStopName after).
  { intros s. split; intros Hs; apply list_elem_of_fmap in Hs as (r & -> & Hr);
      apply isin_elem_of; [apply Hba | apply Hab]; now apply list_elem_of_In. }
  destruct (columns_concat (station_means before) (station_means after)) as [Eb Ea].
  set (labels := List.map fst (concat (station_means before) (station_means after))) in *.
  assert (Hlab : forall s, s ∈ labels -> s ∈ List.map dStopName before).
  { intros s Hs. apply elem_of_labels_concat in Hs as [Hs | Hs].
    - now apply keys_station_means.
    - apply Hsame. now apply keys_station_means. }
  destruct (apply_total (fun x => py_int (np_round x))
              (List.map (fun r => fst (snd r))
                 (concat (station_means before) (station_means after)))) as [BC HBC].
  { rewrite Eb. intros x Hx. apply list_elem_of_fmap in Hx as (s & -> & Hs).
    rewrite cell_station_means. apply rounded_mean_is_Ok. now apply Hlab. }
  destruct (apply_total (fun x => py_int (np_round x))
              (List.map (fun r => snd (snd r))
                 (concat (station_means before) (station_means after)))) as [AC HAC].
  { rewrite Ea. intros x Hx. apply list_elem_of_fmap in Hx as (s & -> & Hs).
    rewrite cell_station_means. apply rounded_mean_is_Ok. now apply Hsame, Hlab. }
  now exists BC, AC.
Qed.

Lemma complete_windows_nonempty (df : daily_frame) :
  complete_windows df = true -> before_window df <> [] /\ after_window df <> [].
Proof.
  unfold complete_windows. rewrite !andb_true_iff.
  intros ((((Hne & Hba) & _) & _) & _).
  assert (Hbefore : before_window df <> []).
  { intros Hnil. rewrite Hnil in Hne. discriminate. }
  split; [exact Hbefore |].
  destruct (before_window df) as [| r before] eqn:Eb; [congruence |].
  simpl in Hba. apply andb_true_iff in Hba as [Hr _].
  intros Hnil. rewrite Hnil in Hr. discriminate.
Qed.

(** X14.  A line name of fewer than two words makes Station Statistics
    stop with an IndexError when the label of the total row is built; with
    complete windows nothing else fails before, so that is how the run
    ends, after the Completeness Checker and without a table. *)
Theorem station_stats_short_name (df : daily_frame) (line : string) :
  complete_windows df = true ->
  (length (split line) < 2)%nat ->
  exists out,
    runs_as (check_missing (after_window df) line) out (Ok tt) /\
    runs_as (station_stats df line) out (Raise IndexError).
Proof.
  intros Hc Hshort.
  destruct (complete_windows_nonempty df Hc) as [Hb Ha].
  destruct (means_columns_Ok df Hc) as (BC & AC & HBC & HAC).
  destruct (check_missing_Ok (after_window df) line) as [out Hcm].
  exists out. split; [exact Hcm |].
  destruct (window_dates (before_window df) Hb) as (d1 & d2 & E1 & E2).
  destruct (window_dates (after_window df) Ha) as (d3 & d4 & E3 & E4).
  apply (station_stats_after_dates df line out d1 d2 d3 d4 IndexError Hcm E1 E2 E3 E4).
  unfold full_df. cbv zeta. rewrite HBC, HAC.
  apply (runs_as_bind_ok _ _ [] BC []); [apply runs_as_lift |].
  apply (runs_as_bind_ok _ _ [] AC []); [apply runs_as_lift |].
  destruct (split line) as [| w0 [| w1 ws]]; simpl in Hshort; [| | lia].
  - apply runs_as_bind_raise, runs_as_raise.
  - apply (runs_as_bind_ok _ _ [] w0 []); [apply runs_as_ret |].
    apply runs_as_bind_raise, runs_as_raise.
Qed.

Lemma station_stats_short_name_witness :
  complete_windows sample_daily = true /\
  (length (split "Blue") < 2)%nat /\
  exists out,
    runs_as (check_missing (after_window sample_daily) "Blue") out (Ok tt) /\
    runs_as (station_stats sample_daily "Blue") out (Raise IndexError).
Proof.
  split; [reflexivity |]. split; [simpl; lia |].
  apply station_stats_short_name; [reflexivity | simpl; lia].
Defined.

Lemma elem_of_displayed (line s : string) (row : StatRow) (t : list (string * StatRow)) :
  (s, Some row) ∈ displayed line t -> (s, row) ∈ t.
Proof.
  assert (Hre : forall ls, (s, Some row) ∈ reindex ls t -> (s, row) ∈ t).
  { intros ls Hin. unfold reindex in Hin.
    apply list_elem_of_fmap in Hin as (l & [= <- Hrow] & _).
    rewrite lookup_row_alookup in Hrow. symmetry in Hrow.
    now apply alookup_elem_of in Hrow. }
  unfold displayed. destruct (startswith line "Orange Line"); [apply Hre |].
  destruct (startswith line "Blue Line"); [apply Hre |].
  intros Hin. apply list_elem_of_fmap in Hin as ([s' row'] & [= <- <-] & Hin). exact Hin.
Qed.

(** X15.  In a table that Station Statistics prints, every row that is
    not a row of NaN, station or total, has a Before value that is not
    zero, a Differential that is After minus Before, and a percent change
    that is computed from the row's own Before and After values, in
    float64 as round(((After - Before) / Before) * 100), followed by a
    percent sign. *)
Theorem station_stats_rows (df : daily_frame) (line : string) (σ : store) :
  value (station_stats df line σ) = Ok tt ->
  exists pre shown,
    stdout (station_stats df line σ) = pre ++ [ShowTable shown; Rule] /\
    forall s row, (s, Some row) ∈ shown ->
      BeforeClosing row <> 0 /\
      Differential row = AfterClosing row - BeforeClosing row /\
      PctChange row = str (pct_change (BeforeClosing row) (AfterClosing row)) +:+ "%".
Proof.
  intros H. apply station_stats_Ok_inv in H as (out & d1 & d2 & d3 & d4 & t & Ht & _ & Hout).
  apply full_df_Ok_inv in Ht as (T & BC & AC & _ & _ & _ & Hnz & ->).
  eexists (out ++ [_; _; _]), _. split; [rewrite Hout, <- app_assoc; reflexivity |].
  intros s row Hin. apply elem_of_displayed in Hin.
  apply list_elem_of_fmap in Hin as ([s' [b a]] & [= -> ->] & Hin).
  rewrite List.Forall_forall in Hnz. apply list_elem_of_In, Hnz in Hin. simpl in *.
  split; [exact Hin |]. split; reflexivity.
Qed.

Lemma station_stats_rows_witness :
  value (station_stats sample_daily "Blue Line" []) = Ok tt /\
  exists pre shown,
    stdout (station_stats sample_daily "Blue Line" []) = pre ++ [ShowTable shown; Rule] /\
    forall s row, (s, Some row) ∈ shown ->
      BeforeClosing row <> 0 /\
      Differential row = AfterClosing row - BeforeClosing row /\
      PctChange row = str (pct_change (BeforeClosing row) (AfterClosing row)) +:+ "%".
Proof.
  split; [vm_compute; reflexivity |].
  apply (station_stats_rows sample_daily "Blue Line" []). vm_compute. reflexivity.
Defined.

(** ** Station Statistics: a line that is not reordered *)






(** ** The whole run: the first failure ends it *)

Lemma filter_kept_none scope shared line wk (f : frame) :
  (forall r, r ∈ f -> kept scope shared line wk r = false) ->
  cleaned scope shared line wk f = [].
Proof.
  intros Hf. unfold cleaned. rewrite filter_none; [reflexivity |].
  intros r Hr. apply Hf. now apply list_elem_of_In.
Qed.

(** X17.  When the Orange Line table holds no record that the Record
    Filter keeps for the Orange Line, [Main] stops with the IndexError of
    the first call of Line Statistics: nothing has been printed, and no
    statistic of the Blue Line is computed although its table may be
    fine. *)
Theorem Main_stops_at_first_failure (σ : store) (orange_df blue_df : loc) :
  (orange_df < length σ)%nat -> (blue_df < length σ)%nat -> orange_df <> blue_df ->
  (forall r, r ∈ rows_of σ orange_df ->
     kept (Some OL_STATIONS) OL_SHARED "Orange Line" false r = false) ->
  value (Main orange_df blue_df σ) = Raise IndexError /\
  stdout (Main orange_df blue_df σ) = [].
Proof.
  intros Ho Hb Hne Hnone.
  destruct (Main_run σ orange_df blue_df Ho Hb Hne) as (Hout & Hval & _).
  rewrite Hout, Hval. unfold Main_reports.
  rewrite (filter_kept_none _ _ _ false _ Hnone).
  split; reflexivity.
Qed.

Lemma Main_stops_at_first_failure_witness :
  (0 < length [sample_other_lines; sample_raw])%nat /\
  (1 < length [sample_other_lines; sample_raw])%nat /\
  0%nat <> 1%nat /\
  (forall r, r ∈ rows_of [sample_other_lines; sample_raw] 0%nat ->
     kept (Some OL_STATIONS) OL_SHARED "Orange Line" false r = false) /\
  value (Main 0%nat 1%nat [sample_other_lines; sample_raw]) = Raise IndexError /\
  stdout (Main 0%nat 1%nat [sample_other_lines; sample_raw]) = [].
Proof.
  assert (H : forall r, r ∈ rows_of [sample_other_lines; sample_raw] 0%nat ->
                kept (Some OL_STATIONS) OL_SHARED "Orange Line" false r = false).
  { intros r Hr. change (rows_of [sample_other_lines; sample_raw] 0%nat)
      with sample_other_lines in Hr. unfold sample_other_lines in Hr.
    repeat (apply elem_of_cons in Hr as [-> | Hr]; [reflexivity |]).
    inversion Hr. }
  split; [simpl; lia |]. split; [simpl; lia |]. split; [discriminate |].
  split; [exact H |].
  apply Main_stops_at_first_failure; [simpl; lia | simpl; lia | discriminate | exact H].
Defined.

(** ** Plots *)

Lemma dict_snoc {A} (pairs : list (string * A)) (k : string) (v : A) :
  dict (pairs ++ [(k, v)]) = set_row k v (dict pairs).
Proof. unfold dict. now rewrite fold_left_app. Qed.

Lemma lookup_row_set_row_any {A} (label l : string) (row : A) (t : list (string * A)) :
  lookup_row l (set_row label row t)
  = if decide (l = label) then Some row else lookup_row l t.
Proof.
  destruct (decide (l = label)) as [-> | Hne].
  - apply lookup_row_set_row.
  - now apply lookup_row_set_row_ne.
Qed.

(** A key of the dict holds the value of its last pair. *)
Lemma lookup_row_dict {A} (k : string) (pairs : list (string * A)) :
  lookup_row k (dict pairs) = last (values_of k pairs).
Proof.
  induction pairs as [| [k0 v0] pairs IH] using rev_ind; [reflexivity |].
  rewrite dict_snoc, lookup_row_set_row_any, values_of_snoc.
  destruct (decide (k = k0)) as [-> | Hne].
  - now rewrite last_snoc.
  - now rewrite app_nil_r.
Qed.

Lemma NoDup_keys_dict {A} (pairs : list (string * A)) : NoDup (List.map fst (dict pairs)).
Proof.
  induction pairs as [| [k0 v0] pairs IH] using rev_ind; [constructor |].
  rewrite dict_snoc, keys_set_row.
  destruct (isin k0 (List.map fst (dict pairs))) eqn:Hin; [exact IH |].
  apply NoDup_app. split; [exact IH | split; [| apply NoDup_singleton]].
  intros x Hx Hx'. apply list_elem_of_singleton in Hx' as ->.
  apply isin_elem_of in Hx. congruence.
Qed.

Lemma keys_dict {A} (k : string) (pairs : list (string * A)) :
  k ∈ List.map fst (dict pairs) <-> k ∈ List.map fst pairs.
Proof.
  induction pairs as [| [k0 v0] pairs IH] using rev_ind; [reflexivity |].
  rewrite dict_snoc, keys_set_row, List.map_app, elem_of_app. simpl.
  destruct (isin k0 (List.map fst (dict pairs))) eqn:Hin.
  - rewrite IH. split; [now left |].
    intros [Hk | Hk]; [exact Hk |]. apply list_elem_of_singleton in Hk as ->.
    now apply IH, isin_elem_of.
  - now rewrite elem_of_app, IH.
Qed.

Lemma elem_of_dict {A} (k : string) (v : A) (pairs : list (string * A)) :
  (k, v) ∈ dict pairs <-> last (values_of k pairs) = Some v.
Proof.
  rewrite <- lookup_row_dict, lookup_row_alookup. split.
  - apply elem_of_alookup, NoDup_keys_dict.
  - apply alookup_elem_of.
Qed.

Lemma keys_combine {A B} (l : list A) (l' : list B) :
  List.map fst (combine l l') = take (length l') l.
Proof.
  revert l'. induction l as [| x l IH]; intros [| y l']; simpl; try reflexivity.
  now rewrite IH.
Qed.

Section PlotFacts.
Variable is_color : string -> bool.

Lemma plot_lines_drawable (line_dict : list (string * list DailyTotal)) :
  (forall line, line ∈ List.map fst line_dict -> drawable is_color line = true) ->
  plot_lines is_color line_dict
  = (List.map (fun c => PlotLine (fst c) (color_of (fst c)) (per_day (snd c))) line_dict,
     Ok tt).
Proof.
  induction line_dict as [| [line df] rest IH]; intros Hall; [reflexivity |].
  assert (Hline : drawable is_color line = true) by (apply Hall; left).
  unfold drawable in Hline. simpl. unfold color_of.
  destruct (split line !! 0%nat) as [color |]; [| discriminate].
  rewrite Hline, IH; [reflexivity |].
  intros l Hl. apply Hall. now right.
Qed.

Lemma plot_lines_fails (line_dict : list (string * list DailyTotal)) (line : string) :
  line ∈ List.map fst line_dict -> drawable is_color line = false ->
  exists curves e,
    plot_lines is_color line_dict = (curves, Raise e) /\
    (e = IndexError \/ e = ValueError) /\
    (forall d, d ∈ curves -> exists l c pts, d = PlotLine l c pts).
Proof.
  induction line_dict as [| [l df] rest IH]; intros Hin Hbad; [inversion Hin |].
  simpl. unfold drawable in Hbad.
  destruct (split l !! 0%nat) as [color |] eqn:Hl.
  - destruct (is_color color) eqn:Hc.
    + destruct IH as (curves & e & E & He & Hcurves).
      * simpl in Hin. apply elem_of_cons in Hin as [-> | Hin]; [| exact Hin].
        rewrite Hl in Hbad. congruence.
      * exact Hbad.
      * rewrite E. exists (PlotLine l color (per_day df) :: curves), e.
        split; [reflexivity |]. split; [exact He |].
        intros d Hd. apply elem_of_cons in Hd as [-> | Hd]; [eauto | now apply Hcurves].
    + exists [], ValueError. split; [reflexivity |]. split; [now right |].
      intros d Hd. inversion Hd.
  - exists [], IndexError. split; [reflexivity |]. split; [now left |].
    intros d Hd. inversion Hd.
Qed.

(** X18.  When every line name that is paired with a table has a first
    word that is a colour, [plot_ridership] draws one curve for each
    distinct such name, coloured by that first word, then the decorations,
    and shows the figure.  Names beyond the number of tables are ignored;
    for a name given more than once the curve is the daily series of the
    last table paired with it, and the tables paired with it before are
    not drawn. *)
Theorem plot_ridership_curves (df_lst : list (list DailyTotal)) (line_lst : list string)
    (title_addition : string) :
  (forall line, line ∈ take (length df_lst) line_lst -> drawable is_color line = true) ->
  exists curves,
    plot_ridership is_color df_lst line_lst title_addition
    = (List.map (fun c => PlotLine (fst c) (color_of (fst c)) (per_day (snd c))) curves
       ++ decorations title_addition,
       Ok tt) /\
    NoDup (List.map fst curves) /\
    (forall line, line ∈ List.map fst curves <-> line ∈ take (length df_lst) line_lst) /\
    (forall line df, (line, df) ∈ curves <->
       last (values_of line (combine line_lst df_lst)) = Some df).
Proof.
  intros Hall. exists (dict (combine line_lst df_lst)).
  assert (Hkeys : forall line, line ∈ List.map fst (dict (combine line_lst df_lst))
                               <-> line ∈ take (length df_lst) line_lst).
  { intros line. now rewrite keys_dict, keys_combine. }
  split; [| split; [apply NoDup_keys_dict | split; [exact Hkeys |]]].
  - unfold plot_ridership. rewrite plot_lines_drawable; [reflexivity |].
    intros line Hline. now apply Hall, Hkeys.
  - intros line df. apply elem_of_dict.
Qed.

(** X19.  When a line name that is paired with a table has no first word,
    or a first word that is not a colour, [plot_ridership] stops with an
    IndexError or a ValueError; the curves drawn before stay, and the
    closure line, the title and the other decorations are not drawn and
    the figure is not shown. *)
Theorem plot_ridership_fails (df_lst : list (list DailyTotal)) (line_lst : list string)
    (title_addition line : string) :
  line ∈ take (length df_lst) line_lst -> drawable is_color line = false ->
  exists curves e,
    plot_ridership is_color df_lst line_lst title_addition = (curves, Raise e) /\
    (e = IndexError \/ e = ValueError) /\
    (forall d, d ∈ curves -> exists l c pts, d = PlotLine l c pts).
Proof.
  intros Hin Hbad.
  destruct (plot_lines_fails (dict (combine line_lst df_lst)) line)
    as (curves & e & E & He & Hcurves); [| exact Hbad |].
  { now rewrite keys_dict, keys_combine. }
  exists curves, e. unfold plot_ridership. rewrite E. now repeat split.
Qed.
End PlotFacts.

Lemma plot_ridership_curves_witness :
  (forall line, line ∈ take (length [sample_daily; sample_after; sample_zero])
                          ["Blue Line"; "Orange Line"; "Blue Line"; "Green Line"] ->
     drawable (fun c => isin c ["Blue"; "Orange"]) line = true) /\
  exists curves,
    plot_ridership (fun c => isin c ["Blue"; "Orange"])
      [sample_daily; sample_after; sample_zero]
      ["Blue Line"; "Orange Line"; "Blue Line"; "Green Line"] ""
    = (List.map (fun c => PlotLine (fst c) (color_of (fst c)) (per_day (snd c))) curves
       ++ decorations "",
       Ok tt) /\
    NoDup (List.map fst curves) /\
    (forall line, line ∈ List.map fst curves <->
       line ∈ take (length [sample_daily; sample_after; sample_zero])
                ["Blue Line"; "Orange Line"; "Blue Line"; "Green Line"]) /\
    (forall line df, (line, df) ∈ curves <->
       last (values_of line
               (combine ["Blue Line"; "Orange Line"; "Blue Line"; "Green Line"]
                  [sample_daily; sample_after; sample_zero])) = Some df).
Proof.
  assert (H : forall line,
             line ∈ take (length [sample_daily; sample_after; sample_zero])
                      ["Blue Line"; "Orange Line"; "Blue Line"; "Green Line"] ->
             drawable (fun c => isin c ["Blue"; "Orange"]) line = true).
  { intros line Hl. simpl in Hl.
    repeat (apply elem_of_cons in Hl as [-> | Hl]; [reflexivity |]). inversion Hl. }
  split; [exact H |]. apply plot_ridership_curves. exact H.
Defined.

Lemma plot_ridership_fails_witness :
  "   " ∈ take (length [sample_daily; sample_after]) ["Blue Line"; "   "] /\
  drawable (fun c => isin c ["Blue"; "Orange"]) "   " = false /\
  exists curves e,
    plot_ridership (fun c => isin c ["Blue"; "Orange"]) [sample_daily; sample_after]
      ["Blue Line"; "   "] " (Weekdays Only)" = (curves, Raise e) /\
    (e = IndexError \/ e = ValueError) /\
    (forall d, d ∈ curves -> exists l c pts, d = PlotLine l c pts).
Proof.
  assert (H : "   " ∈ take (length [sample_daily; sample_after]) ["Blue Line"; "   "]).
  { simpl. right. left. }
  split; [exact H |]. split; [reflexivity |].
  apply (plot_ridership_fails _ _ _ _ "   "); [exact H | reflexivity].
Defined.

(** ** Zero baseline *)

(** A quotient by zero is an infinity or NaN. *)
Lemma true_divide_zero (d : Z) (q : Q) : true_divide d 0 <> Fin q.
Proof.
  unfold true_divide. change (0 =? 0) with true. cbv iota.
  destruct (d =? 0); [discriminate |]. destruct (0 <? d); discriminate.
Qed.

Lemma percent_of_zero (d : Z) :
  py_int (np_round (times (true_divide d 0) 100))
  = Raise (if d =? 0 then ValueError else OverflowError).
Proof.
  unfold true_divide. change (0 =? 0) with true. cbv iota.
  destruct (d =? 0); [reflexivity |]. destruct (0 <? d); reflexivity.
Qed.

Lemma overall_stats_zero_run (df : daily_frame) (line : string) (dmax : Z) :
  max_date (List.map dServiceDate df) = Some dmax ->
  average_before df = Ok 0 ->
  runs_as (overall_stats df line)
    [MostRecentDay line dmax (line_total dmax df); AverageBefore line 0]
    (Raise (if line_total dmax df =? 0 then ValueError else OverflowError)).
Proof.
  intros Hmax Havg. destruct (most_recent_day df dmax Hmax) as [Hday Hnum].
  unfold overall_stats. cbv zeta. rewrite Hday, Hnum.
  unfold average_before in Havg. rewrite Havg.
  apply (runs_as_bind_ok _ _ [] (line_total dmax df) [_; _]); [apply runs_as_ret |].
  apply (runs_as_bind_ok _ _ [] dmax [_; _]); [apply runs_as_ret |].
  apply (runs_as_bind_ok _ _ [_] tt [_]); [apply runs_as_print |].
  apply (runs_as_bind_ok _ _ [] 0 [_]); [apply runs_as_ret |].
  apply (runs_as_bind_ok _ _ [_] tt []); [apply runs_as_print |].
  cbv beta. rewrite percent_of_zero, Z.sub_0_r.
  apply runs_as_bind_raise, runs_as_lift.
Qed.

Lemma astype_int_raises (x : float64) (e : exn) :
  astype_int x = Raise e -> e = IntCastingNaNError.
Proof. destruct x; simpl; congruence. Qed.

(** When the two windows have the same stations, both columns of means
    are rounded without an exception. *)
Lemma means_columns_reported (before after : daily_frame) :
  (forall s, s ∈ List.map dStopName before <-> s ∈ List.map dStopName after) ->
  exists BC AC,
    apply (fun x => py_int (np_round x))
      (List.map (fun r => fst (snd r)) (concat (station_means before) (station_means after)))
    = Ok BC /\
    apply (fun x => py_int (np_round x))
      (List.map (fun r => snd (snd r)) (concat (station_means before) (station_means after)))
    = Ok AC.
Proof.
  intros Hsame.
  destruct (columns_concat (station_means before) (station_means after)) as [Eb Ea].
  set (labels := List.map fst (concat (station_means before) (station_means after))) in *.
  assert (Hlab : forall s, s ∈ labels -> s ∈ List.map dStopName before).
  { intros s Hs. apply elem_of_labels_concat in Hs as [Hs | Hs].
    - now apply keys_station_means.
    - apply Hsame. now apply keys_station_means. }
  destruct (apply_total (fun x => py_int (np_round x))
              (List.map (fun r => fst (snd r))
                 (concat (station_means before) (station_means after)))) as [BC HBC].
  { rewrite Eb. intros x Hx. apply list_elem_of_fmap in Hx as (s & -> & Hs).
    rewrite cell_station_means. apply rounded_mean_is_Ok. now apply Hlab. }
  destruct (apply_total (fun x => py_int (np_round x))
              (List.map (fun r => snd (snd r))
                 (concat (station_means before) (station_means after)))) as [AC HAC].
  { rewrite Ea. intros x Hx. apply list_elem_of_fmap in Hx as (s & -> & Hs).
    rewrite cell_station_means. apply rounded_mean_is_Ok. now apply Hsame, Hlab. }
  now exists BC, AC.
Qed.

(** A row with a zero Before value stops the table at the conversion of
    the percent column. *)
Lemma full_df_zero_baseline (before after : daily_frame) (line s T : string) :
  (forall st, st ∈ List.map dStopName before <-> st ∈ List.map dStopName after) ->
  total_label line = Some T -> s <> T ->
  rounded_mean s before = Ok 0 ->
  runs_as (full_df before after line) [] (Raise IntCastingNaNError).
Proof.
  intros Hsame HT Hs Hzero.
  destruct (means_columns_reported before after Hsame) as (BC & AC & HBC & HAC).
  destruct (station_rows before after BC AC HBC HAC)
    as (Hfst & _ & _ & _ & Hbefore & _ & Hrows).
  set (labels := List.map fst (concat (station_means before) (station_means after))) in *.
  set (rows := combine labels (combine BC AC)) in *.
  destruct (total_label_split line T HT) as (w0 & w1 & ws & Hsplit & ->).
  set (T := (upper w0 +:+ " " +:+ upper w1) +:+ " TOTAL") in *.
  assert (Hrow : exists a, (s, (0, a)) ∈ set_row T (Zsum BC, Zsum AC) rows).
  { assert (Hin : s ∈ List.map fst rows).
    { rewrite Hfst. apply Hbefore. eapply rounded_mean_Ok. exact Hzero. }
    apply list_elem_of_fmap in Hin as ([s' [b a]] & -> & Hin). simpl in *.
    rewrite Forall_forall in Hrows. destruct (Hrows _ Hin) as [Hrb _]. simpl in Hrb.
    rewrite Hzero in Hrb. injection Hrb as <-.
    exists a. now apply elem_of_set_row_ne. }
  destruct Hrow as [a Hrow].
  unfold full_df. cbv zeta. rewrite HBC, HAC, Hsplit.
  apply (runs_as_bind_ok _ _ [] BC []); [apply runs_as_lift |].
  apply (runs_as_bind_ok _ _ [] AC []); [apply runs_as_lift |].
  apply (runs_as_bind_ok _ _ [] w0 []); [apply runs_as_ret |].
  apply (runs_as_bind_ok _ _ [] w1 []); [apply runs_as_ret |].
  fold labels. fold rows. fold T.
  destruct (apply astype_int _) as [change | e] eqn:Hchange.
  - exfalso.
    apply (apply_map_inv _ _ (fun r => pct_change (fst (snd r)) (snd (snd r)))
             (fun r => fst (snd r) <> 0)) in Hchange as [Hnz _].
    2:{ intros [l [b a']] c Hc. simpl in *. apply pct_cell in Hc as [Hb ->]. now split. }
    rewrite Forall_forall in Hnz. now apply (Hnz _ Hrow).
  - assert (e = IntCastingNaNError) as ->.
    { eapply apply_Raise_only; [| exact Hchange].
      intros x e' _. apply astype_int_raises. }
    apply runs_as_bind_raise, runs_as_lift.
Qed.

(** C2.  A zero average before the closure is not signalled: the program
    divides by it, and the quotient is an infinity or NaN.  What stops the
    run is the conversion of that quotient to an integer.  In Line
    Statistics [int] raises OverflowError, or ValueError when the latest
    total is zero too, after the first two lines have been printed.  In
    Station Statistics, for a table in which both windows have rows for the
    same stations and a line name of two words, a station whose rounded
    mean before the closure is zero makes [astype(int)] raise
    IntCastingNaNError on the percent column, after the Completeness
    Checker and before the table; the station is one whose row is not
    overwritten by the total row. *)
Theorem zero_baseline_not_signalled (df : daily_frame) (line s T : string) (dmax : Z) :
  (max_date (List.map dServiceDate df) = Some dmax ->
   average_before df = Ok 0 ->
   (forall q, true_divide (line_total dmax df - 0) 0 <> Fin q) /\
   runs_as (overall_stats df line)
     [MostRecentDay line dmax (line_total dmax df); AverageBefore line 0]
     (Raise (if line_total dmax df =? 0 then ValueError else OverflowError))) /\
  (before_window df <> [] ->
   (forall st, st ∈ List.map dStopName (before_window df)
               <-> st ∈ List.map dStopName (after_window df)) ->
   total_label line = Some T -> s <> T ->
   rounded_mean s (before_window df) = Ok 0 ->
   (forall a q, true_divide (a - 0) 0 <> Fin q) /\
   exists out,
     runs_as (check_missing (after_window df) line) out (Ok tt) /\
     runs_as (station_stats df line) out (Raise IntCastingNaNError)).
Proof.
  split.
  - intros Hmax Havg. split; [intros q; apply true_divide_zero |].
    now apply overall_stats_zero_run.
  - intros Hb Hsame HT Hs Hzero. split; [intros a q; apply true_divide_zero |].
    assert (Ha : after_window df <> []).
    { assert (Hin : s ∈ List.map dStopName (after_window df)).
      { apply Hsame. eapply rounded_mean_Ok. exact Hzero. }
      intros Hnil. rewrite Hnil in Hin. inversion Hin. }
    destruct (check_missing_Ok (after_window df) line) as [out Hcm].
    exists out. split; [exact Hcm |].
    destruct (window_dates (before_window df) Hb) as (d1 & d2 & E1 & E2).
    destruct (window_dates (after_window df) Ha) as (d3 & d4 & E3 & E4).
    apply (station_stats_after_dates df line out d1 d2 d3 d4 _ Hcm E1 E2 E3 E4).
    now apply (full_df_zero_baseline _ _ line s T).
Qed.

Lemma zero_baseline_not_signalled_witness :
  max_date (List.map dServiceDate sample_zero) = Some (datetime 2023 7 5) /\
  average_before sample_zero = Ok 0 /\
  before_window sample_zero <> [] /\
  (forall st, st ∈ List.map dStopName (before_window sample_zero)
              <-> st ∈ List.map dStopName (after_window sample_zero)) /\
  total_label "Blue Line" = Some "BLUE LINE TOTAL" /\
  "Airport" <> "BLUE LINE TOTAL" /\
  rounded_mean "Airport" (before_window sample_zero) = Ok 0 /\
  runs_as (overall_stats sample_zero "Blue Line")
    [MostRecentDay "Blue Line" (datetime 2023 7 5) 3; AverageBefore "Blue Line" 0]
    (Raise OverflowError) /\
  exists out,
    runs_as (check_missing (after_window sample_zero) "Blue Line") out (Ok tt) /\
    runs_as (station_stats sample_zero "Blue Line") out (Raise IntCastingNaNError).
Proof.
  assert (Hsame : forall st, st ∈ List.map dStopName (before_window sample_zero)
                             <-> st ∈ List.map dStopName (after_window sample_zero)).
  { intros st. reflexivity. }
  split; [reflexivity |]. split; [reflexivity |]. split; [discriminate |].
  split; [exact Hsame |]. split; [reflexivity |]. split; [discriminate |].
  split; [reflexivity |].
  pose proof (zero_baseline_not_signalled sample_zero "Blue Line" "Airport"
                "BLUE LINE TOTAL" (datetime 2023 7 5)) as [Hline Hstation].
  split.
  - apply Hline; reflexivity.
  - apply Hstation; [discriminate | exact Hsame | reflexivity | discriminate | reflexivity].
Defined.

(** ** The percent change against the exact percent *)

(** X20.  For a baseline that is not zero the percent change that Line
    Statistics and Station Statistics compute, in float64, is an integer
    at most one half away from the exact percent 100 * (a - b) / b, for a
    baseline of at most 53 bits and a difference of at most 43 bits.  It is
    the exact percent rounded, unless the exact percent lies halfway
    between two integers: there the program may show either neighbour, as
    57 for 57.5. *)
Theorem percent_nearest (b a : Z) :
  b <> 0 -> Z.abs b < 2 ^ 53 -> Z.abs (a - b) < 2 ^ 43 ->
  exists n,
    py_int (np_round (times (true_divide (a - b) b) 100)) = Ok n /\
    astype_int (np_round (times (true_divide (a - b) b) 100)) = Ok n /\
    (Qabs (inject_Z n - exact_percent b a) <= 1 # 2)%Q /\
    (halfway (exact_percent b a) = false -> n = round_half_even (exact_percent b a)).
Proof.
  intros Hb Hb53 Hd43. exists (pct_change b a).
  split; [now apply percent_of_baseline |].
  split; [now apply pct_cell |].
  split; [now apply pct_change_near | now apply pct_change_round].
Qed.

Lemma percent_nearest_witness :
  40 <> 0 /\ Z.abs 40 < 2 ^ 53 /\ Z.abs (63 - 40) < 2 ^ 43 /\
  halfway (exact_percent 40 63) = true /\
  exists n,
    py_int (np_round (times (true_divide (63 - 40) 40) 100)) = Ok n /\
    astype_int (np_round (times (true_divide (63 - 40) 40) 100)) = Ok n /\
    (Qabs (inject_Z n - exact_percent 40 63) <= 1 # 2)%Q /\
    (halfway (exact_percent 40 63) = false -> n = round_half_even (exact_percent 40 63)).
Proof.
  split; [discriminate |]. split; [reflexivity |]. split; [reflexivity |].
  split; [reflexivity |].
  apply (percent_nearest 40 63); [discriminate | reflexivity | reflexivity].
Defined.
